(** * metricsd: the metrics daemon (metricsd/metrics_daemon.cc)

    A shallow embedding of the stats aggregation core of the metrics daemon:
    the persistent counters and the daily / weekly / per-version cycles
    ([UpdateStats], [Run]), the crash accounting passes, the meminfo and zram
    reporters and the memory-use-at-age schedule, followed by the properties
    of the specification that concern them. *)

From Stdlib Require Import ZArith QArith Qround Lia Lqa Ascii String List.
From stdpp Require Import gmap strings list.

Local Open Scope string_scope.
Local Open Scope list_scope.
Local Open Scope Z_scope.

(** ** Machine integers

    [int] is 32 bits and [int64_t] / [uint64_t] are 64 bits; conversions and
    arithmetic wrap around (two's complement). *)

Definition to_int32 (z : Z) : Z := (z + 2 ^ 31) mod 2 ^ 32 - 2 ^ 31.
Definition to_int64 (z : Z) : Z := (z + 2 ^ 63) mod 2 ^ 64 - 2 ^ 63.
Definition to_uint32 (z : Z) : Z := z mod 2 ^ 32.
Definition to_uint64 (z : Z) : Z := z mod 2 ^ 64.

Definition INT_MAX : Z := 2 ^ 31 - 1.
Definition INT_MIN : Z := - 2 ^ 31.
Definition UINT64_MAX : Z := 2 ^ 64 - 1.

(** ** Constants of the anonymous namespace *)

Definition kSecondsPerMinute : Z := 60.
Definition kMinutesPerHour : Z := 60.
Definition kHoursPerDay : Z := 24.
Definition kMinutesPerDay : Z := kHoursPerDay * kMinutesPerHour.
Definition kSecondsPerDay : Z := kSecondsPerMinute * kMinutesPerDay.
Definition kDaysPerWeek : Z := 7.
Definition kSecondsPerWeek : Z := kSecondsPerDay * kDaysPerWeek.

Definition kKernelCrashDetectedFile : string := "/var/run/kernel-crash-detected".
Definition kUncleanShutdownDetectedFile : string :=
  "/var/run/unclean-shutdown-detected".

Definition kMetricScaledCpuFrequencyName : string :=
  "Platform.CpuFrequencyThermalScaling".

(** Memory use stats collection intervals (seconds). *)
Definition kMemuseIntervals : list Z :=
  [ 1 * kSecondsPerMinute;     (* 1 minute mark *)
    4 * kSecondsPerMinute;     (* 5 minute mark *)
    25 * kSecondsPerMinute;    (* 0.5 hour mark *)
    120 * kSecondsPerMinute;   (* 2.5 hour mark *)
    600 * kSecondsPerMinute ]. (* 12.5 hour mark *)

(** ** base::TimeDelta, base::TimeTicks, base::Time

    The time types of the base library are 64-bit counts of microseconds.
    [Time] is taken relative to the Unix epoch, so that [UnixEpoch] is 0;
    the conversions divide with truncation toward zero. *)

Definition kMicrosecondsPerMillisecond : Z := 1000.
Definition kMicrosecondsPerSecond : Z := 1000000.
Definition kMicrosecondsPerDay : Z := 86400 * kMicrosecondsPerSecond.

Definition TimeDelta_sub (a b : Z) : Z := to_int64 (a - b).
Definition InSeconds (delta : Z) : Z := Z.quot delta kMicrosecondsPerSecond.
Definition InMilliseconds (delta : Z) : Z :=
  Z.quot delta kMicrosecondsPerMillisecond.
Definition InDays (delta : Z) : Z :=
  to_int32 (Z.quot delta kMicrosecondsPerDay).
Definition UnixEpoch : Z := 0.

(** ** Samples handed to the metrics library *)

Inductive Sample : Type :=
| SendToUMA (name : string) (sample min max nbuckets : Z)
| SendEnumToUMA (name : string) (sample max : Z).

Definition sample_name (s : Sample) : string :=
  match s with
  | SendToUMA n _ _ _ _ => n
  | SendEnumToUMA n _ _ => n
  end.

Definition sample_value (s : Sample) : Z :=
  match s with
  | SendToUMA _ v _ _ _ => v
  | SendEnumToUMA _ v _ => v
  end.

(** ** The daemon object

    [backing_files] is the durable store of the persistent integers (one
    record per counter, keyed by the counter's name), [var_run] the set of
    boot-marker files that exist, and [metrics_lib_] the samples sent so far,
    oldest first.  [max_freq] is the function-local static of
    [SendCpuThrottleMetrics]. *)

Record MetricsDaemon : Type := mkDaemon {
  testing_ : bool;
  backing_files : gmap string Z;
  last_update_stats_time_ : Z;
  latest_cpu_use_microseconds_ : Z;
  memuse_final_time_ : Q;
  memuse_interval_index_ : Z;
  max_freq : Z;
  var_run : gset string;
  metrics_lib_ : list Sample
}.

Definition with_backing_files (f : gmap string Z) (d : MetricsDaemon) :=
  mkDaemon (testing_ d) f (last_update_stats_time_ d)
    (latest_cpu_use_microseconds_ d) (memuse_final_time_ d)
    (memuse_interval_index_ d) (max_freq d) (var_run d) (metrics_lib_ d).

Definition with_last_update_stats_time (t : Z) (d : MetricsDaemon) :=
  mkDaemon (testing_ d) (backing_files d) t
    (latest_cpu_use_microseconds_ d) (memuse_final_time_ d)
    (memuse_interval_index_ d) (max_freq d) (var_run d) (metrics_lib_ d).

Definition with_latest_cpu_use (c : Z) (d : MetricsDaemon) :=
  mkDaemon (testing_ d) (backing_files d) (last_update_stats_time_ d)
    c (memuse_final_time_ d)
    (memuse_interval_index_ d) (max_freq d) (var_run d) (metrics_lib_ d).

Definition with_memuse_final_time (t : Q) (d : MetricsDaemon) :=
  mkDaemon (testing_ d) (backing_files d) (last_update_stats_time_ d)
    (latest_cpu_use_microseconds_ d) t
    (memuse_interval_index_ d) (max_freq d) (var_run d) (metrics_lib_ d).

Definition with_memuse_interval_index (i : Z) (d : MetricsDaemon) :=
  mkDaemon (testing_ d) (backing_files d) (last_update_stats_time_ d)
    (latest_cpu_use_microseconds_ d) (memuse_final_time_ d)
    i (max_freq d) (var_run d) (metrics_lib_ d).

Definition with_max_freq (m : Z) (d : MetricsDaemon) :=
  mkDaemon (testing_ d) (backing_files d) (last_update_stats_time_ d)
    (latest_cpu_use_microseconds_ d) (memuse_final_time_ d)
    (memuse_interval_index_ d) m (var_run d) (metrics_lib_ d).

Definition with_var_run (s : gset string) (d : MetricsDaemon) :=
  mkDaemon (testing_ d) (backing_files d) (last_update_stats_time_ d)
    (latest_cpu_use_microseconds_ d) (memuse_final_time_ d)
    (memuse_interval_index_ d) (max_freq d) s (metrics_lib_ d).

Definition with_metrics_lib (l : list Sample) (d : MetricsDaemon) :=
  mkDaemon (testing_ d) (backing_files d) (last_update_stats_time_ d)
    (latest_cpu_use_microseconds_ d) (memuse_final_time_ d)
    (memuse_interval_index_ d) (max_freq d) (var_run d) l.

(** The constructor: [memuse_final_time_] and [memuse_interval_index_] start
    at 0, the time stamps are null, nothing has been sent yet.  The arguments
    are what the daemon finds on disk. *)
Definition new_MetricsDaemon (testing : bool) (counters : gmap string Z)
    (markers : gset string) : MetricsDaemon :=
  mkDaemon testing counters 0 0 0%Q 0 0 markers [].

(** ** PersistentInteger *)

(** Modelled from the spec: the PersistentInteger class
    (persistent_integer.cc) is not among the sources.  A persistent integer
    is a named 64-bit integer mirrored to stable storage: a counter with no
    record reads 0, [Set] overwrites the record, [Add] adds a delta and
    [GetAndClear] reads the value and resets it to 0. *)
Record PersistentInteger : Type := { Name : string }.

Definition Get (p : PersistentInteger) (d : MetricsDaemon) : Z :=
  default 0 (backing_files d !! Name p).

Definition Set_ (p : PersistentInteger) (v : Z) (d : MetricsDaemon)
  : MetricsDaemon :=
  with_backing_files (<[Name p := to_int64 v]> (backing_files d)) d.

Definition Add (p : PersistentInteger) (x : Z) (d : MetricsDaemon)
  : MetricsDaemon :=
  Set_ p (Get p d + x) d.

Definition GetAndClear (p : PersistentInteger) (d : MetricsDaemon)
  : Z * MetricsDaemon :=
  (Get p d, Set_ p 0 d).

(** The counters created by [MetricsDaemon::Init]. *)
Definition daily_active_use_ := {| Name := "Platform.UseTime.PerDay" |}.
Definition version_cumulative_active_use_ :=
  {| Name := "Platform.CumulativeUseTime" |}.
Definition version_cumulative_cpu_use_ :=
  {| Name := "Platform.CumulativeCpuTime" |}.
Definition kernel_crash_interval_ :=
  {| Name := "Platform.KernelCrashInterval" |}.
Definition unclean_shutdown_interval_ :=
  {| Name := "Platform.UncleanShutdownInterval" |}.
Definition user_crash_interval_ := {| Name := "Platform.UserCrashInterval" |}.
Definition any_crashes_daily_count_ :=
  {| Name := "Platform.AnyCrashes.PerDay" |}.
Definition any_crashes_weekly_count_ :=
  {| Name := "Platform.AnyCrashes.PerWeek" |}.
Definition user_crashes_daily_count_ :=
  {| Name := "Platform.UserCrashes.PerDay" |}.
Definition user_crashes_weekly_count_ :=
  {| Name := "Platform.UserCrashes.PerWeek" |}.
Definition kernel_crashes_daily_count_ :=
  {| Name := "Platform.KernelCrashes.PerDay" |}.
Definition kernel_crashes_weekly_count_ :=
  {| Name := "Platform.KernelCrashes.PerWeek" |}.
Definition kernel_crashes_version_count_ :=
  {| Name := "Platform.KernelCrashesSinceUpdate" |}.
Definition unclean_shutdowns_daily_count_ :=
  {| Name := "Platform.UncleanShutdown.PerDay" |}.
Definition unclean_shutdowns_weekly_count_ :=
  {| Name := "Platform.UncleanShutdowns.PerWeek" |}.
Definition daily_cycle_ := {| Name := "daily.cycle" |}.
Definition weekly_cycle_ := {| Name := "weekly.cycle" |}.
Definition version_cycle_ := {| Name := "version.cycle" |}.

(** ** Sending samples *)

(** [SendSample] takes its sample as an [int]: a 64-bit argument is
    truncated. *)
Definition SendSample (name : string) (sample min max nbuckets : Z)
    (d : MetricsDaemon) : MetricsDaemon :=
  with_metrics_lib
    (metrics_lib_ d ++ [SendToUMA name (to_int32 sample) min max nbuckets]) d.

Definition SendKernelCrashesCumulativeCountStats (d : MetricsDaemon)
  : MetricsDaemon :=
  let crashes_count := Get kernel_crashes_version_count_ d in
  let d := SendSample (Name kernel_crashes_version_count_)
             crashes_count 1 500 100 d in
  let cpu_use_ms := Get version_cumulative_cpu_use_ d in
  let d := SendSample (Name version_cumulative_cpu_use_)
             (Z.quot cpu_use_ms 1000) 1 (8 * 1000 * 1000) 100 d in
  let d :=
    if 0 <? cpu_use_ms then
      SendSample "Logging.KernelCrashesPerCpuYear"
        (Z.quot (to_int64 (to_int64 (to_int64 (crashes_count * kSecondsPerDay)
                                     * 365) * 1000)) cpu_use_ms)
        1 (1000 * 1000) 100 d
    else d in
  let active_use_seconds := Get version_cumulative_active_use_ d in
  if 0 <? active_use_seconds then
    let d := SendSample (Name version_cumulative_active_use_)
               active_use_seconds 1 (8 * 1000 * 1000) 100 d in
    SendSample "Logging.KernelCrashesPerActiveYear"
      (Z.quot (to_int64 (to_int64 (crashes_count * kSecondsPerDay) * 365))
              active_use_seconds)
      1 (1000 * 1000) 100 d
  else d.

Definition SendAndResetDailyUseSample (use : PersistentInteger)
    (d : MetricsDaemon) : MetricsDaemon :=
  let '(v, d) := GetAndClear use d in
  SendSample (Name use) v 1 kSecondsPerDay 50 d.

Definition SendAndResetCrashIntervalSample (interval : PersistentInteger)
    (d : MetricsDaemon) : MetricsDaemon :=
  let '(v, d) := GetAndClear interval d in
  SendSample (Name interval) v 1 (4 * kSecondsPerWeek) 50 d.

Definition SendAndResetCrashFrequencySample (frequency : PersistentInteger)
    (d : MetricsDaemon) : MetricsDaemon :=
  let '(v, d) := GetAndClear frequency d in
  SendSample (Name frequency) v 1 100 50 d.

(** ** UpdateStats

    [cpu_use] is the reading of [cpu_usage_collector_->GetCumulativeCpuUse()]
    made by this call. *)
Definition UpdateStats (now_ticks now_wall_time cpu_use : Z)
    (d : MetricsDaemon) : MetricsDaemon :=
  let elapsed_seconds :=
    to_int32 (InSeconds (TimeDelta_sub now_ticks (last_update_stats_time_ d))) in
  let d := Add daily_active_use_ elapsed_seconds d in
  let d := Add version_cumulative_active_use_ elapsed_seconds d in
  let d := Add user_crash_interval_ elapsed_seconds d in
  let d := Add kernel_crash_interval_ elapsed_seconds d in
  let d := Add version_cumulative_cpu_use_
             (InMilliseconds
                (TimeDelta_sub cpu_use (latest_cpu_use_microseconds_ d))) d in
  let d := with_latest_cpu_use cpu_use d in
  let d := with_last_update_stats_time now_ticks d in
  let since_epoch := TimeDelta_sub now_wall_time UnixEpoch in
  let day := InDays since_epoch in
  let week := Z.quot day 7 in
  let d :=
    if negb (Get daily_cycle_ d =? day) then
      let d := Set_ daily_cycle_ day d in
      let d := SendAndResetDailyUseSample daily_active_use_ d in
      let d := SendAndResetCrashFrequencySample any_crashes_daily_count_ d in
      let d := SendAndResetCrashFrequencySample user_crashes_daily_count_ d in
      let d := SendAndResetCrashFrequencySample kernel_crashes_daily_count_ d in
      let d :=
        SendAndResetCrashFrequencySample unclean_shutdowns_daily_count_ d in
      SendKernelCrashesCumulativeCountStats d
    else d in
  if negb (Get weekly_cycle_ d =? week) then
    let d := Set_ weekly_cycle_ week d in
    let d := SendAndResetCrashFrequencySample any_crashes_weekly_count_ d in
    let d := SendAndResetCrashFrequencySample user_crashes_weekly_count_ d in
    let d := SendAndResetCrashFrequencySample kernel_crashes_weekly_count_ d in
    SendAndResetCrashFrequencySample unclean_shutdowns_weekly_count_ d
  else d.

Arguments UpdateStats : simpl never.

(** ** Crash accounting

    A [Reading] holds what [TimeTicks::Now()], [Time::Now()] and the CPU
    usage collector return when a handler asks for them. *)

Record Reading : Type := {
  ticks_now : Z;
  wall_now : Z;
  cumulative_cpu_use : Z
}.

Definition ProcessUserCrash (r : Reading) (d : MetricsDaemon)
  : MetricsDaemon :=
  let d := UpdateStats (ticks_now r) (wall_now r) (cumulative_cpu_use r) d in
  let d := SendAndResetCrashIntervalSample user_crash_interval_ d in
  let d := Add any_crashes_daily_count_ 1 d in
  let d := Add any_crashes_weekly_count_ 1 d in
  let d := Add user_crashes_daily_count_ 1 d in
  Add user_crashes_weekly_count_ 1 d.

Definition ProcessKernelCrash (r : Reading) (d : MetricsDaemon)
  : MetricsDaemon :=
  let d := UpdateStats (ticks_now r) (wall_now r) (cumulative_cpu_use r) d in
  let d := SendAndResetCrashIntervalSample kernel_crash_interval_ d in
  let d := Add any_crashes_daily_count_ 1 d in
  let d := Add any_crashes_weekly_count_ 1 d in
  let d := Add kernel_crashes_daily_count_ 1 d in
  let d := Add kernel_crashes_weekly_count_ 1 d in
  Add kernel_crashes_version_count_ 1 d.

Definition ProcessUncleanShutdown (r : Reading) (d : MetricsDaemon)
  : MetricsDaemon :=
  let d := UpdateStats (ticks_now r) (wall_now r) (cumulative_cpu_use r) d in
  let d := SendAndResetCrashIntervalSample unclean_shutdown_interval_ d in
  let d := Add unclean_shutdowns_daily_count_ 1 d in
  let d := Add unclean_shutdowns_weekly_count_ 1 d in
  let d := Add any_crashes_daily_count_ 1 d in
  Add any_crashes_weekly_count_ 1 d.

(** The marker file is deleted when it is found. *)
Definition CheckSystemCrash (crash_file : string) (d : MetricsDaemon)
  : bool * MetricsDaemon :=
  if bool_decide (crash_file ∈ var_run d) then
    (true, with_var_run (var_run d ∖ {[ crash_file ]}) d)
  else (false, d).

(** [product_version_hash] is [base::Hash] of the product version read from
    the OS release file (or of the default version). *)
Definition GetOsVersionHash (product_version_hash : Z) (d : MetricsDaemon)
  : Z :=
  if testing_ d then 42 else to_uint32 product_version_hash.

(** The version check of [Run] (the block that follows the two boot-marker
    checks): on OS version change, clear the version stats. *)
Definition CheckVersionChange (product_version_hash : Z) (d : MetricsDaemon)
  : MetricsDaemon :=
  let version := to_int32 (GetOsVersionHash product_version_hash d) in
  if negb (Get version_cycle_ d =? version) then
    let d := Set_ version_cycle_ version d in
    let d := Set_ kernel_crashes_version_count_ 0 d in
    let d := Set_ version_cumulative_active_use_ 0 d in
    Set_ version_cumulative_cpu_use_ 0 d
  else d.

(** [Run], up to the call of the message loop.  [r1] and [r2] are the
    readings seen by the kernel-crash and the unclean-shutdown pass. *)
Definition Run (r1 r2 : Reading) (product_version_hash : Z)
    (d : MetricsDaemon) : MetricsDaemon :=
  let '(crashed, d) := CheckSystemCrash kKernelCrashDetectedFile d in
  let d := if crashed then ProcessKernelCrash r1 d else d in
  let '(unclean, d) := CheckSystemCrash kUncleanShutdownDetectedFile d in
  let d := if unclean then ProcessUncleanShutdown r2 d else d in
  CheckVersionChange product_version_hash d.

(** ** Outcomes of code that can abort

    [LOG(FATAL)] aborts the process; an integer division by zero, the
    division of INT_MIN by -1 (whose quotient is not an [int]) and a vector
    access out of range have no defined behaviour. *)

Inductive Abort : Type :=
| LogFatal
| DivisionByZero
| DivisionOverflow
| IndexOutOfRange.

Inductive Outcome (A : Type) : Type :=
| Done (a : A)
| Aborted (why : Abort).
Arguments Done {A} a.
Arguments Aborted {A} why.

Definition obind {A B} (o : Outcome A) (k : A -> Outcome B) : Outcome B :=
  match o with
  | Done a => k a
  | Aborted w => Aborted w
  end.

(** Handlers of the daemon: a result and the new state of the daemon, or an
    abort. *)
Definition M (A : Type) : Type := MetricsDaemon -> Outcome (A * MetricsDaemon).

Definition ret {A} (a : A) : M A := fun d => Done (a, d).

Definition bind {A B} (m : M A) (k : A -> M B) : M B :=
  fun d => obind (m d) (fun '(a, d') => k a d').

Definition lift (f : MetricsDaemon -> MetricsDaemon) : M unit :=
  fun d => Done (tt, f d).

Definition abort {A} (w : Abort) : M A := fun _ => Aborted w.

Definition pure_outcome {A} (o : Outcome A) : M A :=
  fun d => obind o (fun a => Done (a, d)).

Declare Scope daemon_scope.
Delimit Scope daemon_scope with daemon.
Notation "x <- m ;; k" := (bind m (fun x => k))
  (at level 100, m at next level, right associativity) : daemon_scope.
Notation "m ;;; k" := (bind m (fun _ => k))
  (at level 100, right associativity) : daemon_scope.

(** 32-bit signed division: truncates toward zero; undefined for a zero
    divisor and for [INT_MIN / -1]. *)
Definition int_div (a b : Z) : Outcome Z :=
  if b =? 0 then Aborted DivisionByZero
  else if (a =? INT_MIN) && (b =? -1) then Aborted DivisionOverflow
  else Done (to_int32 (Z.quot a b)).

(** 64-bit unsigned division. *)
Definition uint64_div (a b : Z) : Outcome Z :=
  if b =? 0 then Aborted DivisionByZero else Done (a / b).

Definition SendLinearSample (name : string) (sample max nbuckets : Z)
  : M unit :=
  fun d =>
    if negb (nbuckets =? to_int32 (max + 1)) then Aborted LogFatal
    else Done (tt, with_metrics_lib
                     (metrics_lib_ d ++ [SendEnumToUMA name sample max]) d).

(** ** Strings: the helpers of libc and of the base library

    File contents are byte strings.  [c_str] is what a C function sees of a
    [std::string]: the bytes before the first NUL. *)

(** The line feed. *)
Definition LF : string := String (ascii_of_nat 10) EmptyString.

Fixpoint c_str (s : string) : string :=
  match s with
  | EmptyString => EmptyString
  | String c rest =>
      if Ascii.eqb c zero then EmptyString else String c (c_str rest)
  end.

Definition strcmp (a b : string) : Z :=
  match String.compare (c_str a) (c_str b) with
  | Eq => 0
  | Lt => -1
  | Gt => 1
  end.

Definition is_one_of (chars : string) (c : ascii) : bool :=
  existsb (Ascii.eqb c) (list_ascii_of_string chars).

(** [Tokenize(str, delimiters, &tokens)]: the maximal runs of characters that
    are not delimiters, in order; no token is empty. *)
Fixpoint Tokenize_from (delimiters : string) (str : string) (token : string)
  : list string :=
  match str with
  | EmptyString =>
      match token with EmptyString => [] | _ => [token] end
  | String c rest =>
      if is_one_of delimiters c then
        match token with
        | EmptyString => Tokenize_from delimiters rest EmptyString
        | _ => token :: Tokenize_from delimiters rest EmptyString
        end
      else Tokenize_from delimiters rest (token ++ String c EmptyString)
  end.

Definition Tokenize (str delimiters : string) : list string :=
  Tokenize_from delimiters str EmptyString.

Definition digit_value (c : ascii) : option Z :=
  let n := Z.of_N (N_of_ascii c) in
  if (48 <=? n) && (n <=? 57) then Some (n - 48) else None.

(** The value of a non-empty string of decimal digits. *)
Fixpoint digits_from (acc : Z) (s : string) : option Z :=
  match s with
  | EmptyString => Some acc
  | String c rest =>
      match digit_value c with
      | Some v => digits_from (10 * acc + v) rest
      | None => None
      end
  end.

Definition digits (s : string) : option Z :=
  match s with
  | EmptyString => None
  | _ => digits_from 0 s
  end.

Definition in_range (lo hi : Z) (v : Z) : option Z :=
  if (lo <=? v) && (v <=? hi) then Some v else None.

(** [base::StringToInt]: an optional sign followed by one or more digits and
    nothing else, the value fitting an [int]; anything else (also leading or
    trailing white space) is a failure. *)
Definition StringToInt (s : string) : option Z :=
  match s with
  | String "-" rest => v ← digits rest; in_range INT_MIN INT_MAX (- v)
  | String "+" rest => v ← digits rest; in_range INT_MIN INT_MAX v
  | _ => v ← digits s; in_range INT_MIN INT_MAX v
  end.

(** [base::StringToUint64]: as above, without a minus sign. *)
Definition StringToUint64 (s : string) : option Z :=
  match s with
  | String "-" rest => None
  | String "+" rest => v ← digits rest; in_range 0 UINT64_MAX v
  | _ => v ← digits s; in_range 0 UINT64_MAX v
  end.

(** [base::RemoveChars(input, remove_chars, &output)]. *)
Fixpoint RemoveChars (input remove_chars : string) : string :=
  match input with
  | EmptyString => EmptyString
  | String c rest =>
      if is_one_of remove_chars c then RemoveChars rest remove_chars
      else String c (RemoveChars rest remove_chars)
  end.

Definition kWhitespaceASCII : string :=
  String (ascii_of_nat 9) (String (ascii_of_nat 10) (String (ascii_of_nat 11)
    (String (ascii_of_nat 12) (String (ascii_of_nat 13) " ")))).

(** [base::TrimWhitespaceASCII(input, base::TRIM_TRAILING, &output)]. *)
Fixpoint TrimTrailingWhitespace (input : string) : string :=
  match input with
  | EmptyString => EmptyString
  | String c rest =>
      match TrimTrailingWhitespace rest with
      | EmptyString =>
          if is_one_of kWhitespaceASCII c then EmptyString
          else String c EmptyString
      | rest' => String c rest'
      end
  end.

(** The [%d] conversion of [StringPrintf]. *)
Fixpoint decimal_from (fuel : nat) (n : Z) (acc : string) : string :=
  let acc' := String (ascii_of_N (Z.to_N (48 + n mod 10))) acc in
  match fuel with
  | O => acc'
  | S fuel' => if n / 10 =? 0 then acc' else decimal_from fuel' (n / 10) acc'
  end.

Definition decimal (n : Z) : string :=
  if n <? 0 then String "-" (decimal_from 20 (- n) EmptyString)
  else decimal_from 20 n EmptyString.

(** A file that is read: its content, or [None] when it cannot be read. *)
Definition File : Type := option string.

Definition ReadFreqToInt (sysfs_file : File) : option Z :=
  value_string ← sysfs_file; StringToInt (RemoveChars value_string LF).

Definition ReadFileToUint64 (file : File) : option Z :=
  content ← file; StringToUint64 (TrimTrailingWhitespace content).

(** ** Meminfo *)

(** Modelled from the spec: the declarations of metrics_daemon.h are not
    among the sources.  A meminfo record has a logical name, the label to
    match in the dump, an operation tag selecting how the value is reported
    (percent-of-total histogram, the default; log-scale kilobytes histogram;
    swap-total and swap-free bookkeeping) and the value read. *)
Inductive MeminfoOp : Type :=
| kMeminfoOp_HistPercent
| kMeminfoOp_HistLog
| kMeminfoOp_SwapTotal
| kMeminfoOp_SwapFree.

Record MeminfoRecord : Type := mkRecord {
  name : string;
  match_ : string;
  op : MeminfoOp;
  value : Z
}.

Definition with_value (v : Z) (f : MeminfoRecord) : MeminfoRecord :=
  mkRecord (name f) (match_ f) (op f) v.

(** The scanning loop of [FillMeminfo]: [lines] are the lines from [iline]
    on.  The result is [None] when the loop returns false, and otherwise the
    cursor and the fields at the exit of the loop. *)
Fixpoint FillMeminfo_loop (lines : list string) (ifield : nat)
    (fields : list MeminfoRecord)
  : Outcome (option (nat * list MeminfoRecord)) :=
  match lines with
  | [] => Done (Some (ifield, fields))
  | line :: rest =>
      match fields !! ifield with
      | None => Done (Some (ifield, fields))
      | Some field =>
          let tokens := Tokenize line ": " in
          match tokens !! 0%nat with
          | None => Aborted IndexOutOfRange
          | Some token0 =>
              if strcmp (match_ field) token0 =? 0 then
                match tokens !! 1%nat with
                | None => Aborted IndexOutOfRange
                | Some token1 =>
                    match StringToInt token1 with
                    | None => Done None
                    | Some v =>
                        FillMeminfo_loop rest (S ifield)
                          (<[ifield := with_value v field]> fields)
                    end
                end
              else FillMeminfo_loop rest ifield fields
          end
      end
  end.

(** [FillMeminfo]: [Some fields'] when it returns true, with the fields as
    filled; [None] when it returns false. *)
Definition FillMeminfo (meminfo_raw : string) (fields : list MeminfoRecord)
  : Outcome (option (list MeminfoRecord)) :=
  let lines := Tokenize meminfo_raw LF in
  obind (FillMeminfo_loop lines 0 fields) (fun r =>
    match r with
    | None => Done None
    | Some (ifield, fields') =>
        if (ifield <? length fields')%nat then Done None
        else Done (Some fields')
    end).

Definition percent_record (n m : string) : MeminfoRecord :=
  mkRecord n m kMeminfoOp_HistPercent 0.

(** [fields_array] of [ProcessMeminfo]. *)
Definition ProcessMeminfo_fields : list MeminfoRecord :=
  [ percent_record "MemTotal" "MemTotal";  (* SPECIAL CASE: total memory *)
    percent_record "MemFree" "MemFree";
    percent_record "Buffers" "Buffers";
    percent_record "Cached" "Cached";
    percent_record "Active" "Active";
    percent_record "Inactive" "Inactive";
    percent_record "ActiveAnon" "Active(anon)";
    percent_record "InactiveAnon" "Inactive(anon)";
    percent_record "ActiveFile" "Active(file)";
    percent_record "InactiveFile" "Inactive(file)";
    mkRecord "Unevictable" "Unevictable" kMeminfoOp_HistLog 0;
    mkRecord "SwapTotal" "SwapTotal" kMeminfoOp_SwapTotal 0;
    mkRecord "SwapFree" "SwapFree" kMeminfoOp_SwapFree 0;
    percent_record "AnonPages" "AnonPages";
    percent_record "Mapped" "Mapped";
    mkRecord "Shmem" "Shmem" kMeminfoOp_HistLog 0;
    mkRecord "Slab" "Slab" kMeminfoOp_HistLog 0 ].

(** The loop of [ProcessMeminfo] over the fields after the first; the result
    is [(swap_total, swap_free)].  The case of [kMeminfoOp_SwapTotal] falls
    through to that of [kMeminfoOp_SwapFree]. *)
Fixpoint ProcessMeminfo_loop (total_memory : Z) (fields : list MeminfoRecord)
    (swap_total swap_free : Z) : M (Z * Z) :=
  match fields with
  | [] => ret (swap_total, swap_free)
  | field :: rest =>
      let metrics_name := ("Platform.Meminfo" ++ name field)%string in
      match op field with
      | kMeminfoOp_HistPercent =>
          (percent <- pure_outcome
                        (int_div (to_int32 (value field * 100)) total_memory);;
           SendLinearSample metrics_name percent 100 101;;;
           ProcessMeminfo_loop total_memory rest swap_total swap_free)%daemon
      | kMeminfoOp_HistLog =>
          (lift (SendSample metrics_name (value field) 1 (4 * 1000 * 1000) 100);;;
           ProcessMeminfo_loop total_memory rest swap_total swap_free)%daemon
      | kMeminfoOp_SwapTotal =>
          ProcessMeminfo_loop total_memory rest (value field) (value field)
      | kMeminfoOp_SwapFree =>
          ProcessMeminfo_loop total_memory rest swap_total (value field)
      end
  end.

Definition ProcessMeminfo (meminfo_raw : string) : M bool :=
  (filled <- pure_outcome (FillMeminfo meminfo_raw ProcessMeminfo_fields);;
   match filled with
   | None => ret false
   | Some fields =>
       match fields !! 0%nat with
       | None => abort IndexOutOfRange
       | Some field0 =>
           let total_memory := value field0 in
           if total_memory =? 0 then ret false
           else
             swap <- ProcessMeminfo_loop total_memory (drop 1 fields) 0 0;;
             let '(swap_total, swap_free) := swap in
             if 0 <? swap_total then
               let swap_used := to_int32 (swap_total - swap_free) in
               swap_used_percent <-
                 pure_outcome (int_div (to_int32 (swap_used * 100)) swap_total);;
               lift (SendSample "Platform.MeminfoSwapUsed" swap_used
                       1 (8 * 1000 * 1000) 100);;;
               SendLinearSample "Platform.MeminfoSwapUsed.Percent"
                 swap_used_percent 100 101;;;
               ret true
             else ret true
       end
   end)%daemon.

(** A handler that posts itself again returns the delay it asked for. *)
Definition MeminfoCallback (meminfo : File) (wait : Z) : M (option Z) :=
  match meminfo with
  | None => ret None
  | Some meminfo_raw =>
      (ok <- ProcessMeminfo meminfo_raw;;
       if ok : bool then ret (Some wait) else ret None)%daemon
  end.

(** ** Memory use at age *)

Definition ProcessMemuse_fields : list MeminfoRecord :=
  [ percent_record "MemTotal" "MemTotal";
    percent_record "ActiveAnon" "Active(anon)";
    percent_record "InactiveAnon" "Inactive(anon)" ].

Definition field_value (fields : list MeminfoRecord) (i : nat) : Outcome Z :=
  match fields !! i with
  | Some f => Done (value f)
  | None => Aborted IndexOutOfRange
  end.

Definition ProcessMemuse (meminfo_raw : string) : M bool :=
  (filled <- pure_outcome (FillMeminfo meminfo_raw ProcessMemuse_fields);;
   match filled with
   | None => ret false
   | Some fields =>
       total <- pure_outcome (field_value fields 0);;
       active_anon <- pure_outcome (field_value fields 1);;
       inactive_anon <- pure_outcome (field_value fields 2);;
       if total =? 0 then ret false
       else
         index <- (fun d => Done (memuse_interval_index_ d, d));;
         let metrics_name := ("Platform.MemuseAnon" ++ decimal index)%string in
         percent <- pure_outcome
                      (int_div (to_int32 (to_int32 (active_anon + inactive_anon)
                                          * 100)) total);;
         SendLinearSample metrics_name percent 100 101;;;
         ret true
   end)%daemon.

Definition MemuseCallbackWork (meminfo : File) : M bool :=
  match meminfo with
  | None => ret false
  | Some meminfo_raw => ProcessMemuse meminfo_raw
  end.

(** [ScheduleMemuseCallback(interval)]: the delay of the task posted, if one
    is posted. *)
Definition ScheduleMemuseCallback (interval : Z) : M (option Z) :=
  fun d => Done (if testing_ d then None else Some interval, d).

(** [now] is the active time read by [GetActiveTime()], in seconds. *)
Definition MemuseCallback (now : Q) (meminfo : File) : M (option Z) :=
  (final <- (fun d => Done (memuse_final_time_ d, d));;
   let remaining_time := Qceiling (final - now) in
   if 0 <? remaining_time then ScheduleMemuseCallback remaining_time
   else
     ok <- MemuseCallbackWork meminfo;;
     index <- (fun d => Done (memuse_interval_index_ d, d));;
     if (ok : bool) && (index <? Z.of_nat (length kMemuseIntervals)) then
       match kMemuseIntervals !! Z.to_nat index with
       | None => abort IndexOutOfRange
       | Some interval =>
           lift (with_memuse_interval_index (to_uint32 (index + 1)));;;
           lift (with_memuse_final_time (now + inject_Z interval)%Q);;;
           ScheduleMemuseCallback interval
       end
     else ret None)%daemon.

(** The part of [OnInit] that starts the memory use collection. *)
Definition OnInit_memuse (now : Q) : M (option Z) :=
  match kMemuseIntervals !! 0%nat with
  | None => abort IndexOutOfRange
  | Some interval0 =>
      (lift (with_memuse_final_time (now + inject_Z interval0)%Q);;;
       ScheduleMemuseCallback interval0)%daemon
  end.

(** The message loop, as far as the memory use task goes: a posted task runs
    once its delay has elapsed in real time; the active time then read is
    short of that by the time the device was suspended in between.  [sleeps]
    gives that time for each run of the task.  The result lists, for each
    run, the active time read and the samples the run sent. *)
Fixpoint RunMemuseTask (sleeps : list Q) (meminfo : File) (posted : Q)
    (delay : option Z) (d : MetricsDaemon)
  : Outcome (list (Q * list Sample) * MetricsDaemon) :=
  match sleeps, delay with
  | sleep :: sleeps', Some delay =>
      let now := Qred (posted + inject_Z delay - sleep) in
      obind (MemuseCallback now meminfo d) (fun '(delay', d') =>
        obind (RunMemuseTask sleeps' meminfo now delay' d') (fun '(runs, d'') =>
          Done ((now, drop (length (metrics_lib_ d)) (metrics_lib_ d')) :: runs,
                d'')))
  | _, _ => Done ([], d)
  end.

(** ** Thermal CPU throttling *)

Definition SendCpuThrottleMetrics (cpuinfo_max_freq scaling_max_freq : File)
  : M unit :=
  fun d =>
    if max_freq d =? -1 then Done (tt, d)
    else
      let init :=
        if (max_freq d =? 0) || testing_ d then
          match ReadFreqToInt cpuinfo_max_freq with
          | None => inl (with_max_freq (-1) d)
          | Some m =>
              if m =? 0 then inl (with_max_freq (-1) d)
              else if Z.rem m 10000 =? 1000
                   then inr (with_max_freq (to_int32 (m - 1000)) d)
                   else inr (with_max_freq m d)
          end
        else inr d in
      match init with
      | inl d => Done (tt, d)
      | inr d =>
          match ReadFreqToInt scaling_max_freq with
          | None => Done (tt, d)
          | Some scaled_freq =>
              (percent <-
                 (if max_freq d <? scaled_freq then ret 101
                  else pure_outcome
                         (obind (int_div (max_freq d) 100)
                                (int_div scaled_freq)));;
               SendLinearSample kMetricScaledCpuFrequencyName percent 101 102)%daemon
                d
          end
      end.

(** ** Zram *)

Definition kComprDataSizeName : string := "compr_data_size".
Definition kOrigDataSizeName : string := "orig_data_size".
Definition kZeroPagesName : string := "zero_pages".

(** The three arguments are the files of those names in [zram_dir]. *)
Definition ReportZram (compr_data_size_file orig_data_size_file
                       zero_pages_file : File) : M bool :=
  let page_size := 4096 in
  match ReadFileToUint64 compr_data_size_file,
        ReadFileToUint64 orig_data_size_file,
        ReadFileToUint64 zero_pages_file with
  | Some compr_data_size, Some orig_data_size, Some zero_pages =>
      let orig_data_size :=
        to_uint64 (orig_data_size + to_uint64 (zero_pages * page_size)) in
      let compr_data_size_mb := to_int32 (Z.shiftr compr_data_size 20) in
      let savings_mb :=
        to_int32 (Z.shiftr (to_uint64 (orig_data_size - compr_data_size)) 20) in
      (zero_ratio <-
         pure_outcome
           (uint64_div (to_uint64 (to_uint64 (zero_pages * page_size) * 100))
                       orig_data_size);;
       let zero_ratio_percent := to_int32 zero_ratio in
       lift (SendSample "Platform.ZramCompressedSize" compr_data_size_mb
               100 4000 50);;;
       lift (SendSample "Platform.ZramSavings" savings_mb 100 4000 50);;;
       (if 1 <=? compr_data_size_mb then
          ratio <- pure_outcome
                     (uint64_div (to_uint64 (orig_data_size * 100))
                                 compr_data_size);;
          lift (SendSample "Platform.ZramCompressionRatioPercent" ratio
                  100 600 50)
        else ret tt);;;
       lift (SendSample "Platform.ZramZeroPages" zero_pages
               256 (256 * 1024) 50);;;
       lift (SendSample "Platform.ZramZeroRatioPercent" zero_ratio_percent
               1 50 50);;;
       ret true)%daemon
  | _, _, _ => ret false
  end.

(** ** The timers and the crash signal *)

(** Interval between calls to [UpdateStats], in milliseconds. *)
Definition kUpdateStatsIntervalMs : Z := 300000.

Definition kMetricMeminfoInterval : Z := 30.

Definition kCrashReporterInterface : string := "org.chromium.CrashReporter".
Definition kCrashReporterUserCrashSignal : string := "UserCrash".

(** [ScheduleMeminfoCallback(wait)]: the delay of the task posted, if one is
    posted. *)
Definition ScheduleMeminfoCallback (wait : Z) : M (option Z) :=
  fun d => Done (if testing_ d then None else Some wait, d).

(** [HandleUpdateStatsTimeout]: the delay (in milliseconds) of the task it
    posts, and the daemon after the update. *)
Definition HandleUpdateStatsTimeout (r : Reading) (d : MetricsDaemon)
  : Z * MetricsDaemon :=
  (kUpdateStatsIntervalMs,
   UpdateStats (ticks_now r) (wall_now r) (cumulative_cpu_use r) d).

(** The results of a D-Bus filter and the type of a signal message, from the
    D-Bus headers. *)
Inductive DBusHandlerResult : Type :=
| DBUS_HANDLER_RESULT_HANDLED
| DBUS_HANDLER_RESULT_NOT_YET_HANDLED.

Definition DBUS_MESSAGE_TYPE_SIGNAL : Z := 4.

(** [MessageFilter], on the type, the interface and the member of the
    message; [r] is the reading seen by [ProcessUserCrash].  [CHECK_EQ]
    aborts like [LOG(FATAL)]. *)
Definition MessageFilter (message_type : Z) (interface member : string)
    (r : Reading) : M DBusHandlerResult :=
  if negb (message_type =? DBUS_MESSAGE_TYPE_SIGNAL) then
    ret DBUS_HANDLER_RESULT_NOT_YET_HANDLED
  else if String.eqb interface kCrashReporterInterface then
    if negb (String.eqb member kCrashReporterUserCrashSignal) then
      abort LogFatal
    else
      (lift (ProcessUserCrash r);;;
       ret DBUS_HANDLER_RESULT_HANDLED)%daemon
  else ret DBUS_HANDLER_RESULT_NOT_YET_HANDLED.

(** * Properties *)

(** ** Machine integers *)

Lemma to_int32_range z : - 2 ^ 31 <= to_int32 z < 2 ^ 31.
Proof. unfold to_int32. pose proof (Z.mod_pos_bound (z + 2 ^ 31) (2 ^ 32)). lia. Qed.

Lemma to_int64_range z : - 2 ^ 63 <= to_int64 z < 2 ^ 63.
Proof. unfold to_int64. pose proof (Z.mod_pos_bound (z + 2 ^ 63) (2 ^ 64)). lia. Qed.

Lemma to_int32_small z : - 2 ^ 31 <= z < 2 ^ 31 -> to_int32 z = z.
Proof. intros H. unfold to_int32. rewrite Z.mod_small; lia. Qed.

Lemma to_int64_small z : - 2 ^ 63 <= z < 2 ^ 63 -> to_int64 z = z.
Proof. intros H. unfold to_int64. rewrite Z.mod_small; lia. Qed.

Lemma to_uint64_small z : 0 <= z < 2 ^ 64 -> to_uint64 z = z.
Proof. intros H. unfold to_uint64. rewrite Z.mod_small; lia. Qed.

Lemma to_uint64_range z : 0 <= to_uint64 z < 2 ^ 64.
Proof. unfold to_uint64. apply Z.mod_pos_bound. lia. Qed.

Lemma to_int64_to_int32 z : to_int64 (to_int32 z) = to_int32 z.
Proof. apply to_int64_small. pose proof (to_int32_range z). lia. Qed.

Lemma quot7_range z : - 2 ^ 31 <= z < 2 ^ 31 -> - 2 ^ 31 <= Z.quot z 7 < 2 ^ 31.
Proof. intros H. Z.to_euclidean_division_equations. lia. Qed.

(** ** Persistent integers *)

Lemma Get_Set_ p q v d :
  Get p (Set_ q v d) =
  if String.eqb (Name p) (Name q) then to_int64 v else Get p d.
Proof.
  unfold Get, Set_; simpl.
  destruct (String.eqb_spec (Name p) (Name q)) as [-> | Hne].
  - by rewrite lookup_insert_eq.
  - by rewrite lookup_insert_ne.
Qed.

Lemma Get_Add p q x d :
  Get p (Add q x d) =
  if String.eqb (Name p) (Name q) then to_int64 (Get q d + x) else Get p d.
Proof. unfold Add. apply Get_Set_. Qed.

Lemma Get_SendSample p n v lo hi nb d :
  Get p (SendSample n v lo hi nb d) = Get p d.
Proof. reflexivity. Qed.

Lemma Get_clear_and_send p q (send : string -> Z -> MetricsDaemon -> MetricsDaemon) d :
  (forall n v d, Get p (send n v d) = Get p d) ->
  Get p (let '(v, d) := GetAndClear q d in send (Name q) v d) =
  if String.eqb (Name p) (Name q) then 0 else Get p d.
Proof. intros Hs. simpl. rewrite Hs, Get_Set_. reflexivity. Qed.

Lemma Get_SendAndResetDailyUseSample p q d :
  Get p (SendAndResetDailyUseSample q d) =
  if String.eqb (Name p) (Name q) then 0 else Get p d.
Proof. unfold SendAndResetDailyUseSample; simpl. by rewrite Get_SendSample, Get_Set_. Qed.

Lemma Get_SendAndResetCrashIntervalSample p q d :
  Get p (SendAndResetCrashIntervalSample q d) =
  if String.eqb (Name p) (Name q) then 0 else Get p d.
Proof. unfold SendAndResetCrashIntervalSample; simpl. by rewrite Get_SendSample, Get_Set_. Qed.

Lemma Get_SendAndResetCrashFrequencySample p q d :
  Get p (SendAndResetCrashFrequencySample q d) =
  if String.eqb (Name p) (Name q) then 0 else Get p d.
Proof. unfold SendAndResetCrashFrequencySample; simpl. by rewrite Get_SendSample, Get_Set_. Qed.

Lemma Get_SendKernelCrashesCumulativeCountStats p d :
  Get p (SendKernelCrashesCumulativeCountStats d) = Get p d.
Proof.
  unfold SendKernelCrashesCumulativeCountStats; cbv zeta.
  repeat match goal with |- context [if ?b then _ else _] => destruct b end;
    reflexivity.
Qed.

Lemma Get_with_latest_cpu_use p c d : Get p (with_latest_cpu_use c d) = Get p d.
Proof. reflexivity. Qed.

Lemma Get_with_last_update_stats_time p t d :
  Get p (with_last_update_stats_time t d) = Get p d.
Proof. reflexivity. Qed.

Lemma Get_with_var_run p s d : Get p (with_var_run s d) = Get p d.
Proof. reflexivity. Qed.

Create Rewrite HintDb counters.
#[local] Hint Rewrite Get_Set_ Get_Add Get_SendSample
  Get_SendAndResetDailyUseSample Get_SendAndResetCrashIntervalSample
  Get_SendAndResetCrashFrequencySample
  Get_SendKernelCrashesCumulativeCountStats Get_with_latest_cpu_use
  Get_with_last_update_stats_time Get_with_var_run : counters.

(** Read a counter through a sequence of updates of the daemon. *)
Ltac read_counter :=
  repeat (autorewrite with counters; simpl (String.eqb _ _); cbv iota).

(** ** UpdateStats: what is added to the counters *)

(** The seconds elapsed since the previous call, as [UpdateStats] computes
    them. *)
Definition elapsed_seconds (now_ticks : Z) (d : MetricsDaemon) : Z :=
  to_int32 (InSeconds (TimeDelta_sub now_ticks (last_update_stats_time_ d))).

Definition cpu_use_ms (cpu_use : Z) (d : MetricsDaemon) : Z :=
  InMilliseconds (TimeDelta_sub cpu_use (latest_cpu_use_microseconds_ d)).

(** The first part of [UpdateStats]: the additions to the counters. *)
Definition UpdateStats_add (now_ticks cpu_use : Z) (d : MetricsDaemon)
  : MetricsDaemon :=
  let d1 := Add daily_active_use_ (elapsed_seconds now_ticks d) d in
  let d2 := Add version_cumulative_active_use_ (elapsed_seconds now_ticks d) d1 in
  let d3 := Add user_crash_interval_ (elapsed_seconds now_ticks d) d2 in
  let d4 := Add kernel_crash_interval_ (elapsed_seconds now_ticks d) d3 in
  let d5 := Add version_cumulative_cpu_use_ (cpu_use_ms cpu_use d) d4 in
  with_last_update_stats_time now_ticks (with_latest_cpu_use cpu_use d5).

(** The daily and the weekly block of [UpdateStats]. *)
Definition UpdateStats_daily (day : Z) (d : MetricsDaemon) : MetricsDaemon :=
  SendKernelCrashesCumulativeCountStats
    (SendAndResetCrashFrequencySample unclean_shutdowns_daily_count_
      (SendAndResetCrashFrequencySample kernel_crashes_daily_count_
        (SendAndResetCrashFrequencySample user_crashes_daily_count_
          (SendAndResetCrashFrequencySample any_crashes_daily_count_
            (SendAndResetDailyUseSample daily_active_use_
              (Set_ daily_cycle_ day d)))))).

Definition UpdateStats_weekly (week : Z) (d : MetricsDaemon) : MetricsDaemon :=
  SendAndResetCrashFrequencySample unclean_shutdowns_weekly_count_
    (SendAndResetCrashFrequencySample kernel_crashes_weekly_count_
      (SendAndResetCrashFrequencySample user_crashes_weekly_count_
        (SendAndResetCrashFrequencySample any_crashes_weekly_count_
          (Set_ weekly_cycle_ week d)))).

Definition day_of (now_wall_time : Z) : Z :=
  InDays (TimeDelta_sub now_wall_time UnixEpoch).

Definition week_of (now_wall_time : Z) : Z := Z.quot (day_of now_wall_time) 7.

Lemma UpdateStats_blocks now_ticks now_wall_time cpu_use d :
  UpdateStats now_ticks now_wall_time cpu_use d =
  let d1 := UpdateStats_add now_ticks cpu_use d in
  let d2 := if negb (Get daily_cycle_ d1 =? day_of now_wall_time)
            then UpdateStats_daily (day_of now_wall_time) d1 else d1 in
  if negb (Get weekly_cycle_ d2 =? week_of now_wall_time)
  then UpdateStats_weekly (week_of now_wall_time) d2 else d2.
Proof.
  unfold UpdateStats, UpdateStats_add, UpdateStats_daily, UpdateStats_weekly,
    day_of, week_of, elapsed_seconds, cpu_use_ms.
  cbv zeta. reflexivity.
Qed.

Lemma Get_UpdateStats_add p now_ticks cpu_use d :
  Get p (UpdateStats_add now_ticks cpu_use d) =
  Get p (Add version_cumulative_cpu_use_ (cpu_use_ms cpu_use d)
          (Add kernel_crash_interval_ (elapsed_seconds now_ticks d)
            (Add user_crash_interval_ (elapsed_seconds now_ticks d)
              (Add version_cumulative_active_use_ (elapsed_seconds now_ticks d)
                (Add daily_active_use_ (elapsed_seconds now_ticks d) d))))).
Proof. reflexivity. Qed.

Lemma Get_UpdateStats_daily p day d :
  Get p (UpdateStats_daily day d) =
  if existsb (String.eqb (Name p))
       (map Name [daily_active_use_; any_crashes_daily_count_;
                  user_crashes_daily_count_; kernel_crashes_daily_count_;
                  unclean_shutdowns_daily_count_])
  then 0
  else if String.eqb (Name p) (Name daily_cycle_) then to_int64 day
  else Get p d.
Proof.
  unfold UpdateStats_daily. autorewrite with counters.
  cbn [existsb map].
  repeat match goal with
         | |- context [String.eqb ?a ?b] => destruct (String.eqb a b); cbn [orb]
         end; reflexivity.
Qed.

Lemma Get_UpdateStats_weekly p week d :
  Get p (UpdateStats_weekly week d) =
  if existsb (String.eqb (Name p))
       (map Name [any_crashes_weekly_count_; user_crashes_weekly_count_;
                  kernel_crashes_weekly_count_;
                  unclean_shutdowns_weekly_count_])
  then 0
  else if String.eqb (Name p) (Name weekly_cycle_) then to_int64 week
  else Get p d.
Proof.
  unfold UpdateStats_weekly. autorewrite with counters.
  cbn [existsb map].
  repeat match goal with
         | |- context [String.eqb ?a ?b] => destruct (String.eqb a b); cbn [orb]
         end; reflexivity.
Qed.

(** A counter that is neither flushed nor a cycle marker holds, after
    [UpdateStats], what the first part left in it. *)
Lemma Get_UpdateStats_unflushed p now_ticks now_wall_time cpu_use d :
  existsb (String.eqb (Name p))
    (map Name [daily_active_use_; any_crashes_daily_count_;
               user_crashes_daily_count_; kernel_crashes_daily_count_;
               unclean_shutdowns_daily_count_; daily_cycle_;
               any_crashes_weekly_count_; user_crashes_weekly_count_;
               kernel_crashes_weekly_count_; unclean_shutdowns_weekly_count_;
               weekly_cycle_]) = false ->
  Get p (UpdateStats now_ticks now_wall_time cpu_use d) =
  Get p (UpdateStats_add now_ticks cpu_use d).
Proof.
  intros Hp. cbn [existsb map] in Hp.
  repeat (apply orb_false_elim in Hp; destruct Hp as [? Hp]).
  rewrite UpdateStats_blocks; cbv zeta.
  repeat match goal with
         | |- context [if negb ?b then _ else _] => destruct (negb b)
         end;
    rewrite ?Get_UpdateStats_weekly, ?Get_UpdateStats_daily;
    cbn [existsb map];
    repeat match goal with
           | H : String.eqb _ _ = false |- _ => rewrite H; clear H
           end; reflexivity.
Qed.

(** C1 (code defect).  [UpdateStats] adds the elapsed seconds to the
    cumulative active use, to the user-crash interval and to the kernel-crash
    interval, and the CPU time delta to the cumulative CPU time, but it never
    touches the unclean-shutdown interval: that counter is the same after
    the call, whatever the arguments.  (The daily active use receives the
    elapsed seconds too, and is then cleared when the daily block runs.)
    For instance with all three interval counters at 100 and a call ten
    seconds after the previous one, the user-crash and kernel-crash
    intervals become 110 and the unclean-shutdown interval stays at 100. *)
Theorem UpdateStats_leaves_unclean_shutdown_interval :
  (forall now_ticks now_wall_time cpu_use d,
     let d' := UpdateStats now_ticks now_wall_time cpu_use d in
     let e := elapsed_seconds now_ticks d in
     Get version_cumulative_active_use_ d' =
       to_int64 (Get version_cumulative_active_use_ d + e) /\
     Get user_crash_interval_ d' = to_int64 (Get user_crash_interval_ d + e) /\
     Get kernel_crash_interval_ d' =
       to_int64 (Get kernel_crash_interval_ d + e) /\
     Get version_cumulative_cpu_use_ d' =
       to_int64 (Get version_cumulative_cpu_use_ d + cpu_use_ms cpu_use d) /\
     Get daily_active_use_ d' =
       (if Get daily_cycle_ d =? day_of now_wall_time
        then to_int64 (Get daily_active_use_ d + e) else 0) /\
     Get unclean_shutdown_interval_ d' = Get unclean_shutdown_interval_ d) /\
  (let d := new_MetricsDaemon false
              (list_to_map [(Name user_crash_interval_, 100);
                            (Name kernel_crash_interval_, 100);
                            (Name unclean_shutdown_interval_, 100)]) ∅ in
   let d' := UpdateStats (10 * kMicrosecondsPerSecond) 0 0 d in
   elapsed_seconds (10 * kMicrosecondsPerSecond) d = 10 /\
   Get user_crash_interval_ d' = 110 /\
   Get kernel_crash_interval_ d' = 110 /\
   Get unclean_shutdown_interval_ d' = 100).
Proof.
  split.
  - intros now_ticks now_wall_time cpu_use d d' e. subst d' e.
    repeat split;
      try (rewrite Get_UpdateStats_unflushed by reflexivity;
           rewrite Get_UpdateStats_add; read_counter; reflexivity).
    rewrite UpdateStats_blocks; cbv zeta.
    assert (Hc : Get daily_cycle_ (UpdateStats_add now_ticks cpu_use d)
                 = Get daily_cycle_ d).
    { rewrite Get_UpdateStats_add. read_counter. reflexivity. }
    assert (Hu : Get daily_active_use_ (UpdateStats_add now_ticks cpu_use d)
                 = to_int64 (Get daily_active_use_ d
                             + elapsed_seconds now_ticks d)).
    { rewrite Get_UpdateStats_add. read_counter. reflexivity. }
    rewrite Hc.
    destruct (Get daily_cycle_ d =? day_of now_wall_time); cbn [negb];
      match goal with
      | |- context [if negb ?b then _ else _] => destruct (negb b)
      end;
      rewrite ?Get_UpdateStats_weekly, ?Get_UpdateStats_daily;
      simpl (existsb _ _); cbv iota; simpl (String.eqb _ _); cbv iota;
      rewrite ?Get_UpdateStats_daily; simpl (existsb _ _); cbv iota;
      auto.
  - vm_compute. repeat split; reflexivity.
Qed.

(** ** The version check *)

Definition version_counters : list PersistentInteger :=
  [version_cycle_; kernel_crashes_version_count_;
   version_cumulative_active_use_; version_cumulative_cpu_use_].

Lemma with_backing_files_id d : d = with_backing_files (backing_files d) d.
Proof. by destruct d. Qed.

Lemma CheckVersionChange_effect h d :
  let version := to_int32 (GetOsVersionHash h d) in
  let d' := CheckVersionChange h d in
  (version <> Get version_cycle_ d ->
     Get version_cycle_ d' = version /\
     Get kernel_crashes_version_count_ d' = 0 /\
     Get version_cumulative_active_use_ d' = 0 /\
     Get version_cumulative_cpu_use_ d' = 0) /\
  (version = Get version_cycle_ d -> d' = d) /\
  d' = with_backing_files (backing_files d') d.
Proof.
  cbv zeta. unfold CheckVersionChange.
  set (version := to_int32 (GetOsVersionHash h d)).
  destruct (Z.eqb_spec (Get version_cycle_ d) version) as [E | E]; cbn [negb].
  - split; [intros Hne; exfalso; apply Hne; symmetry; exact E |].
    split; [reflexivity | apply with_backing_files_id].
  - split.
    { intros _. read_counter. repeat split. apply to_int64_to_int32. }
    split; [intros Heq; exfalso; apply E; symmetry; exact Heq | reflexivity].
Qed.

(** C7.  The version check writes the new hash to version.cycle and 0 to the
    three other version-scoped counters when the hash differs from
    version.cycle, and does nothing when it is the same; no other counter
    and nothing else of the daemon changes in either case, and a second
    check with the same hash changes nothing. *)
Theorem CheckVersionChange_resets_version_counters :
  forall (product_version_hash : Z) (d : MetricsDaemon),
    let version := to_int32 (GetOsVersionHash product_version_hash d) in
    let d' := CheckVersionChange product_version_hash d in
    (version <> Get version_cycle_ d ->
       Get version_cycle_ d' = version /\
       Get kernel_crashes_version_count_ d' = 0 /\
       Get version_cumulative_active_use_ d' = 0 /\
       Get version_cumulative_cpu_use_ d' = 0) /\
    (version = Get version_cycle_ d -> d' = d) /\
    (forall n : string,
       n ∉ map Name version_counters ->
       backing_files d' !! n = backing_files d !! n) /\
    d' = with_backing_files (backing_files d') d /\
    CheckVersionChange product_version_hash d' = d'.
Proof.
  intros h d.
  destruct (CheckVersionChange_effect h d)
    as (Hne & Heq & Hw).
  cbv zeta. split; [exact Hne |]. split; [exact Heq |].
  split; [| split; [exact Hw |]].
  - intros n Hn. unfold version_counters in Hn. cbn [map] in Hn.
    repeat (apply not_elem_of_cons in Hn; destruct Hn as [? Hn]).
    unfold CheckVersionChange. destruct (negb _); [| reflexivity].
    simpl. by rewrite !lookup_insert_ne.
  - unfold CheckVersionChange at 1.
    set (d' := CheckVersionChange h d) in *.
    assert (Hh : GetOsVersionHash h d' = GetOsVersionHash h d)
      by (rewrite Hw; reflexivity).
    rewrite Hh.
    set (version := to_int32 (GetOsVersionHash h d)) in *.
    assert (Hv : Get version_cycle_ d' = version).
    { destruct (Z.eq_dec version (Get version_cycle_ d)) as [E | E].
      - rewrite (Heq E). by symmetry.
      - by destruct (Hne E). }
    rewrite Hv, Z.eqb_refl. reflexivity.
Qed.

(** ** The daily and weekly cycles *)

(** The samples sent between two states of the daemon. *)
Definition sent (d d' : MetricsDaemon) : list Sample :=
  drop (length (metrics_lib_ d)) (metrics_lib_ d').

Fixpoint count_named (n : string) (l : list Sample) : nat :=
  match l with
  | [] => 0
  | s :: l' =>
      ((if String.eqb (sample_name s) n then 1 else 0) + count_named n l')%nat
  end.

Lemma count_named_app n l1 l2 :
  count_named n (l1 ++ l2) = (count_named n l1 + count_named n l2)%nat.
Proof. induction l1 as [| s l1 IH]; simpl; [done | rewrite IH; lia]. Qed.

Lemma sent_app d d' l : metrics_lib_ d' = metrics_lib_ d ++ l -> sent d d' = l.
Proof. intros H. unfold sent. rewrite H. apply drop_app_length. Qed.

Definition frequency_sample (p : PersistentInteger) (d : MetricsDaemon)
  : Sample :=
  SendToUMA (Name p) (to_int32 (Get p d)) 1 100 50.

(** What [SendKernelCrashesCumulativeCountStats] sends. *)
Definition cumulative_samples (d : MetricsDaemon) : list Sample :=
  let crashes_count := Get kernel_crashes_version_count_ d in
  let cpu_use_ms := Get version_cumulative_cpu_use_ d in
  let active_use_seconds := Get version_cumulative_active_use_ d in
  [ SendToUMA (Name kernel_crashes_version_count_)
      (to_int32 crashes_count) 1 500 100;
    SendToUMA (Name version_cumulative_cpu_use_)
      (to_int32 (Z.quot cpu_use_ms 1000)) 1 8000000 100 ]
  ++ (if 0 <? cpu_use_ms then
        [ SendToUMA "Logging.KernelCrashesPerCpuYear"
            (to_int32
               (Z.quot (to_int64 (to_int64 (to_int64
                          (crashes_count * kSecondsPerDay) * 365) * 1000))
                       cpu_use_ms))
            1 1000000 100 ]
      else [])
  ++ (if 0 <? active_use_seconds then
        [ SendToUMA (Name version_cumulative_active_use_)
            (to_int32 active_use_seconds) 1 8000000 100;
          SendToUMA "Logging.KernelCrashesPerActiveYear"
            (to_int32
               (Z.quot (to_int64 (to_int64 (crashes_count * kSecondsPerDay)
                                  * 365))
                       active_use_seconds))
            1 1000000 100 ]
      else []).

(** What the daily and the weekly block send. *)
Definition daily_samples (d : MetricsDaemon) : list Sample :=
  [ SendToUMA (Name daily_active_use_)
      (to_int32 (Get daily_active_use_ d)) 1 kSecondsPerDay 50;
    frequency_sample any_crashes_daily_count_ d;
    frequency_sample user_crashes_daily_count_ d;
    frequency_sample kernel_crashes_daily_count_ d;
    frequency_sample unclean_shutdowns_daily_count_ d ]
  ++ cumulative_samples d.

Definition weekly_samples (d : MetricsDaemon) : list Sample :=
  [ frequency_sample any_crashes_weekly_count_ d;
    frequency_sample user_crashes_weekly_count_ d;
    frequency_sample kernel_crashes_weekly_count_ d;
    frequency_sample unclean_shutdowns_weekly_count_ d ].

Lemma metrics_lib_SendAndResetCrashFrequencySample p d :
  metrics_lib_ (SendAndResetCrashFrequencySample p d) =
  metrics_lib_ d ++ [frequency_sample p d].
Proof. reflexivity. Qed.

Lemma metrics_lib_SendAndResetDailyUseSample p d :
  metrics_lib_ (SendAndResetDailyUseSample p d) =
  metrics_lib_ d ++ [SendToUMA (Name p) (to_int32 (Get p d)) 1 kSecondsPerDay 50].
Proof. reflexivity. Qed.

Lemma metrics_lib_Set_ p v d : metrics_lib_ (Set_ p v d) = metrics_lib_ d.
Proof. reflexivity. Qed.

Lemma metrics_lib_SendKernelCrashesCumulativeCountStats d :
  metrics_lib_ (SendKernelCrashesCumulativeCountStats d) =
  metrics_lib_ d ++ cumulative_samples d.
Proof.
  unfold SendKernelCrashesCumulativeCountStats, cumulative_samples; cbv zeta.
  rewrite !Get_SendSample.
  destruct (0 <? Get version_cumulative_cpu_use_ d);
    rewrite ?Get_SendSample;
    destruct (0 <? Get version_cumulative_active_use_ d);
    simpl; rewrite <- ?app_assoc; reflexivity.
Qed.

Lemma frequency_sample_ext p d d' :
  Get p d' = Get p d -> frequency_sample p d' = frequency_sample p d.
Proof. unfold frequency_sample. by intros ->. Qed.

Lemma cumulative_samples_ext d d' :
  Get kernel_crashes_version_count_ d' = Get kernel_crashes_version_count_ d ->
  Get version_cumulative_cpu_use_ d' = Get version_cumulative_cpu_use_ d ->
  Get version_cumulative_active_use_ d' = Get version_cumulative_active_use_ d ->
  cumulative_samples d' = cumulative_samples d.
Proof. unfold cumulative_samples. by intros -> -> ->. Qed.

Lemma metrics_lib_UpdateStats_daily day d :
  metrics_lib_ (UpdateStats_daily day d) = metrics_lib_ d ++ daily_samples d.
Proof.
  unfold UpdateStats_daily, daily_samples.
  rewrite metrics_lib_SendKernelCrashesCumulativeCountStats.
  rewrite !metrics_lib_SendAndResetCrashFrequencySample,
    metrics_lib_SendAndResetDailyUseSample, metrics_lib_Set_.
  rewrite <- !app_assoc. cbn [app].
  unfold frequency_sample, cumulative_samples; cbv zeta.
  read_counter. reflexivity.
Qed.

Lemma metrics_lib_UpdateStats_weekly week d :
  metrics_lib_ (UpdateStats_weekly week d) = metrics_lib_ d ++ weekly_samples d.
Proof.
  unfold UpdateStats_weekly, weekly_samples.
  rewrite !metrics_lib_SendAndResetCrashFrequencySample, metrics_lib_Set_.
  rewrite <- !app_assoc. cbn [app].
  unfold frequency_sample. read_counter. reflexivity.
Qed.

(** What one call of [UpdateStats] sends. *)
Definition UpdateStats_samples (now_ticks now_wall_time cpu_use : Z)
    (d : MetricsDaemon) : list Sample :=
  (if Get daily_cycle_ d =? day_of now_wall_time then []
   else daily_samples (UpdateStats_add now_ticks cpu_use d))
  ++ (if Get weekly_cycle_ d =? week_of now_wall_time then []
      else weekly_samples d).

Lemma weekly_samples_ext d d' :
  (forall p, In p [any_crashes_weekly_count_; user_crashes_weekly_count_;
                   kernel_crashes_weekly_count_;
                   unclean_shutdowns_weekly_count_] ->
             Get p d' = Get p d) ->
  weekly_samples d' = weekly_samples d.
Proof.
  intros H. unfold weekly_samples, frequency_sample.
  rewrite !H by (simpl; auto 6). reflexivity.
Qed.

Lemma metrics_lib_UpdateStats now_ticks now_wall_time cpu_use d :
  metrics_lib_ (UpdateStats now_ticks now_wall_time cpu_use d) =
  metrics_lib_ d ++ UpdateStats_samples now_ticks now_wall_time cpu_use d.
Proof.
  rewrite UpdateStats_blocks; cbv zeta. unfold UpdateStats_samples.
  assert (Hc : Get daily_cycle_ (UpdateStats_add now_ticks cpu_use d)
               = Get daily_cycle_ d)
    by (rewrite Get_UpdateStats_add; read_counter; reflexivity).
  assert (Hw : Get weekly_cycle_ (UpdateStats_add now_ticks cpu_use d)
               = Get weekly_cycle_ d)
    by (rewrite Get_UpdateStats_add; read_counter; reflexivity).
  assert (Hs : weekly_samples (UpdateStats_add now_ticks cpu_use d)
               = weekly_samples d).
  { apply weekly_samples_ext. intros p Hp. simpl in Hp.
    rewrite Get_UpdateStats_add.
    destruct Hp as [<- | [<- | [<- | [<- | []]]]]; read_counter; reflexivity. }
  assert (Hm : metrics_lib_ (UpdateStats_add now_ticks cpu_use d)
               = metrics_lib_ d) by reflexivity.
  set (d1 := UpdateStats_add now_ticks cpu_use d) in *. clearbody d1.
  rewrite Hc.
  destruct (Get daily_cycle_ d =? day_of now_wall_time); cbn [negb app].
  - rewrite Hw.
    destruct (Get weekly_cycle_ d =? week_of now_wall_time); cbn [negb].
    + by rewrite app_nil_r.
    + by rewrite metrics_lib_UpdateStats_weekly, Hm, Hs.
  - rewrite Get_UpdateStats_daily. simpl (existsb _ _). cbv iota.
    simpl (String.eqb _ _). cbv iota. rewrite Hw.
    destruct (Get weekly_cycle_ d =? week_of now_wall_time); cbn [negb].
    + by rewrite app_nil_r, metrics_lib_UpdateStats_daily, Hm.
    + rewrite metrics_lib_UpdateStats_weekly, metrics_lib_UpdateStats_daily, Hm.
      rewrite <- app_assoc. do 2 f_equal. rewrite <- Hs.
      apply weekly_samples_ext. intros p Hp. simpl in Hp.
      rewrite Get_UpdateStats_daily.
      destruct Hp as [<- | [<- | [<- | [<- | []]]]]; reflexivity.
Qed.

Definition daily_counters : list PersistentInteger :=
  [daily_active_use_; any_crashes_daily_count_; user_crashes_daily_count_;
   kernel_crashes_daily_count_; unclean_shutdowns_daily_count_].

Definition weekly_counters : list PersistentInteger :=
  [any_crashes_weekly_count_; user_crashes_weekly_count_;
   kernel_crashes_weekly_count_; unclean_shutdowns_weekly_count_].

Definition named_in (p : PersistentInteger) (l : list PersistentInteger)
  : bool :=
  existsb (String.eqb (Name p)) (map Name l).

(** Any counter after [UpdateStats], from the first part of the call. *)
Lemma Get_UpdateStats p now_ticks now_wall_time cpu_use d :
  Get p (UpdateStats now_ticks now_wall_time cpu_use d) =
  let d1 := UpdateStats_add now_ticks cpu_use d in
  let v1 :=
    if Get daily_cycle_ d =? day_of now_wall_time then Get p d1
    else if named_in p daily_counters then 0
    else if String.eqb (Name p) (Name daily_cycle_)
         then to_int64 (day_of now_wall_time)
    else Get p d1 in
  if Get weekly_cycle_ d =? week_of now_wall_time then v1
  else if named_in p weekly_counters then 0
  else if String.eqb (Name p) (Name weekly_cycle_)
       then to_int64 (week_of now_wall_time)
  else v1.
Proof.
  rewrite UpdateStats_blocks; cbv zeta.
  assert (Hc : Get daily_cycle_ (UpdateStats_add now_ticks cpu_use d)
               = Get daily_cycle_ d)
    by (rewrite Get_UpdateStats_add; read_counter; reflexivity).
  assert (Hw : Get weekly_cycle_ (UpdateStats_add now_ticks cpu_use d)
               = Get weekly_cycle_ d)
    by (rewrite Get_UpdateStats_add; read_counter; reflexivity).
  set (d1 := UpdateStats_add now_ticks cpu_use d) in *. clearbody d1.
  rewrite Hc. unfold named_in, daily_counters, weekly_counters.
  destruct (Get daily_cycle_ d =? day_of now_wall_time); cbn [negb].
  - rewrite Hw.
    destruct (Get weekly_cycle_ d =? week_of now_wall_time); cbn [negb];
      [reflexivity | apply Get_UpdateStats_weekly].
  - rewrite (Get_UpdateStats_daily weekly_cycle_). simpl (existsb _ _) at 1.
    cbv iota. simpl (String.eqb _ _) at 1. cbv iota. rewrite Hw.
    destruct (Get weekly_cycle_ d =? week_of now_wall_time); cbn [negb].
    + apply Get_UpdateStats_daily.
    + rewrite Get_UpdateStats_weekly, Get_UpdateStats_daily. reflexivity.
Qed.

Lemma day_of_range w : - 2 ^ 31 <= day_of w < 2 ^ 31.
Proof. unfold day_of, InDays. apply to_int32_range. Qed.

Lemma week_of_range w : - 2 ^ 31 <= week_of w < 2 ^ 31.
Proof. unfold week_of. apply quot7_range, day_of_range. Qed.

Lemma Get_daily_cycle_UpdateStats now_ticks now_wall_time cpu_use d :
  Get daily_cycle_ (UpdateStats now_ticks now_wall_time cpu_use d)
  = day_of now_wall_time.
Proof.
  rewrite Get_UpdateStats; cbv zeta.
  change (named_in daily_cycle_ daily_counters) with false.
  change (named_in daily_cycle_ weekly_counters) with false.
  simpl (String.eqb _ _). cbv iota.
  rewrite Get_UpdateStats_add. read_counter.
  rewrite to_int64_small by (pose proof (day_of_range now_wall_time); lia).
  destruct (Z.eqb_spec (Get daily_cycle_ d) (day_of now_wall_time));
    destruct (Get weekly_cycle_ d =? week_of now_wall_time); congruence.
Qed.

Lemma Get_weekly_cycle_UpdateStats now_ticks now_wall_time cpu_use d :
  Get weekly_cycle_ (UpdateStats now_ticks now_wall_time cpu_use d)
  = week_of now_wall_time.
Proof.
  rewrite Get_UpdateStats; cbv zeta.
  change (named_in weekly_cycle_ daily_counters) with false.
  change (named_in weekly_cycle_ weekly_counters) with false.
  simpl (String.eqb _ _). cbv iota.
  rewrite Get_UpdateStats_add. read_counter.
  rewrite to_int64_small by (pose proof (week_of_range now_wall_time); lia).
  destruct (Z.eqb_spec (Get weekly_cycle_ d) (week_of now_wall_time));
    destruct (Get daily_cycle_ d =? day_of now_wall_time); congruence.
Qed.

Lemma count_named_daily p now_ticks now_wall_time cpu_use d :
  In p daily_counters ->
  count_named (Name p) (UpdateStats_samples now_ticks now_wall_time cpu_use d)
  = if Get daily_cycle_ d =? day_of now_wall_time then 0%nat else 1%nat.
Proof.
  intros Hp. unfold UpdateStats_samples. rewrite count_named_app.
  assert (Hw : count_named (Name p) (weekly_samples d) = 0%nat).
  { simpl in Hp.
    destruct Hp as [<- | [<- | [<- | [<- | [<- | []]]]]]; reflexivity. }
  assert (Hd : count_named (Name p)
                 (daily_samples (UpdateStats_add now_ticks cpu_use d)) = 1%nat).
  { unfold daily_samples, cumulative_samples; cbv zeta.
    rewrite !count_named_app.
    destruct (0 <? _); destruct (0 <? _); simpl in Hp;
      destruct Hp as [<- | [<- | [<- | [<- | [<- | []]]]]]; reflexivity. }
  destruct (Get daily_cycle_ d =? day_of now_wall_time);
    destruct (Get weekly_cycle_ d =? week_of now_wall_time);
    rewrite ?Hw, ?Hd; reflexivity.
Qed.

Lemma count_named_weekly p now_ticks now_wall_time cpu_use d :
  In p weekly_counters ->
  count_named (Name p) (UpdateStats_samples now_ticks now_wall_time cpu_use d)
  = if Get weekly_cycle_ d =? week_of now_wall_time then 0%nat else 1%nat.
Proof.
  intros Hp. unfold UpdateStats_samples. rewrite count_named_app.
  assert (Hw : count_named (Name p) (weekly_samples d) = 1%nat).
  { simpl in Hp.
    destruct Hp as [<- | [<- | [<- | [<- | []]]]]; reflexivity. }
  assert (Hd : count_named (Name p)
                 (daily_samples (UpdateStats_add now_ticks cpu_use d)) = 0%nat).
  { unfold daily_samples, cumulative_samples; cbv zeta.
    rewrite !count_named_app.
    destruct (0 <? _); destruct (0 <? _); simpl in Hp;
      destruct Hp as [<- | [<- | [<- | [<- | []]]]]; reflexivity. }
  destruct (Get daily_cycle_ d =? day_of now_wall_time);
    destruct (Get weekly_cycle_ d =? week_of now_wall_time);
    rewrite ?Hw, ?Hd; reflexivity.
Qed.

(** A sequence of calls of [UpdateStats], one per reading. *)
Fixpoint UpdateStats_calls (calls : list Reading) (d : MetricsDaemon)
  : MetricsDaemon :=
  match calls with
  | [] => d
  | r :: calls' =>
      UpdateStats_calls calls'
        (UpdateStats (ticks_now r) (wall_now r) (cumulative_cpu_use r) d)
  end.

(** The number of changes in a sequence of indices that starts at
    [marker]. *)
Fixpoint crossings (marker : Z) (indices : list Z) : nat :=
  match indices with
  | [] => 0
  | i :: indices' =>
      ((if (marker =? i)%Z then 0 else 1) + crossings i indices')%nat
  end.

(** The same iteration over any step function; its equations do not look
    into the step. *)
Definition calls_with (step : Reading -> MetricsDaemon -> MetricsDaemon)
  : list Reading -> MetricsDaemon -> MetricsDaemon :=
  fix go (calls : list Reading) (d : MetricsDaemon) : MetricsDaemon :=
    match calls with
    | [] => d
    | r :: calls' => go calls' (step r d)
    end.

Lemma calls_with_cons step r calls d :
  calls_with step (r :: calls) d = calls_with step calls (step r d).
Proof. reflexivity. Qed.

Lemma UpdateStats_calls_cons r calls d :
  UpdateStats_calls (r :: calls) d =
  UpdateStats_calls calls
    (UpdateStats (ticks_now r) (wall_now r) (cumulative_cpu_use r) d).
Proof.
  exact (calls_with_cons
           (fun r d =>
              UpdateStats (ticks_now r) (wall_now r) (cumulative_cpu_use r) d)
           r calls d).
Qed.

Lemma metrics_lib_UpdateStats_calls calls d :
  exists l, metrics_lib_ (UpdateStats_calls calls d) = metrics_lib_ d ++ l.
Proof.
  revert d. induction calls as [| r calls IH]; intros d.
  - exists []. by rewrite app_nil_r.
  - rewrite UpdateStats_calls_cons.
    destruct (IH (UpdateStats (ticks_now r) (wall_now r)
                    (cumulative_cpu_use r) d)) as [l Hl].
    rewrite Hl, metrics_lib_UpdateStats, <- app_assoc. eauto.
Qed.

Lemma sent_UpdateStats_calls r calls d :
  let d1 := UpdateStats (ticks_now r) (wall_now r) (cumulative_cpu_use r) d in
  sent d (UpdateStats_calls (r :: calls) d) =
  UpdateStats_samples (ticks_now r) (wall_now r) (cumulative_cpu_use r) d
  ++ sent d1 (UpdateStats_calls calls d1).
Proof.
  cbv zeta. rewrite UpdateStats_calls_cons.
  destruct (metrics_lib_UpdateStats_calls calls
              (UpdateStats (ticks_now r) (wall_now r)
                 (cumulative_cpu_use r) d)) as [l Hl].
  rewrite (sent_app _ _ l Hl).
  apply sent_app. rewrite Hl, metrics_lib_UpdateStats, <- app_assoc.
  reflexivity.
Qed.

Lemma UpdateStats_calls_crossings calls : forall d,
  (forall p, In p daily_counters ->
     count_named (Name p) (sent d (UpdateStats_calls calls d)) =
     crossings (Get daily_cycle_ d) (map (fun r => day_of (wall_now r)) calls))
  /\
  (forall p, In p weekly_counters ->
     count_named (Name p) (sent d (UpdateStats_calls calls d)) =
     crossings (Get weekly_cycle_ d)
       (map (fun r => week_of (wall_now r)) calls)).
Proof.
  induction calls as [| r calls IH]; intros d.
  - split; intros p _; cbn [UpdateStats_calls map crossings]; unfold sent;
      by rewrite drop_all.
  - destruct (IH (UpdateStats (ticks_now r) (wall_now r)
                    (cumulative_cpu_use r) d)) as [IHd IHw].
    split; intros p Hp; rewrite sent_UpdateStats_calls; cbv zeta;
      rewrite count_named_app; cbn [map crossings].
    + rewrite (IHd p Hp), Get_daily_cycle_UpdateStats.
      by rewrite count_named_daily.
    + rewrite (IHw p Hp), Get_weekly_cycle_UpdateStats.
      by rewrite count_named_weekly.
Qed.

Ltac eval_named_in :=
  repeat match goal with
         | |- context [named_in ?p ?l] =>
             let b := eval vm_compute in (named_in p l) in
             change (named_in p l) with b
         end;
  simpl (String.eqb _ _); cbv iota.

Lemma Get_flushed_daily p now_ticks now_wall_time cpu_use d :
  In p daily_counters ->
  Get daily_cycle_ d <> day_of now_wall_time ->
  Get p (UpdateStats now_ticks now_wall_time cpu_use d) = 0.
Proof.
  intros Hp Hne. rewrite Get_UpdateStats; cbv zeta.
  destruct (Z.eqb_spec (Get daily_cycle_ d) (day_of now_wall_time));
    [contradiction |].
  simpl in Hp.
  destruct Hp as [<- | [<- | [<- | [<- | [<- | []]]]]]; eval_named_in;
    by destruct (Get weekly_cycle_ d =? week_of now_wall_time).
Qed.

Lemma Get_flushed_weekly p now_ticks now_wall_time cpu_use d :
  In p weekly_counters ->
  Get weekly_cycle_ d <> week_of now_wall_time ->
  Get p (UpdateStats now_ticks now_wall_time cpu_use d) = 0.
Proof.
  intros Hp Hne. rewrite Get_UpdateStats; cbv zeta.
  destruct (Z.eqb_spec (Get weekly_cycle_ d) (week_of now_wall_time));
    [contradiction |].
  simpl in Hp.
  destruct Hp as [<- | [<- | [<- | [<- | []]]]]; eval_named_in; reflexivity.
Qed.

Lemma Get_unflushed_weekly p now_ticks now_wall_time cpu_use d :
  In p weekly_counters ->
  Get weekly_cycle_ d = week_of now_wall_time ->
  Get p (UpdateStats now_ticks now_wall_time cpu_use d) = Get p d.
Proof.
  intros Hp He. rewrite Get_UpdateStats; cbv zeta.
  rewrite He, Z.eqb_refl, Get_UpdateStats_add. simpl in Hp.
  destruct Hp as [<- | [<- | [<- | [<- | []]]]]; eval_named_in; read_counter;
    by destruct (Get daily_cycle_ d =? day_of now_wall_time).
Qed.

Lemma UpdateStats_same_cycle_sends_nothing now_ticks now_wall_time cpu_use d :
  Get daily_cycle_ d = day_of now_wall_time ->
  Get weekly_cycle_ d = week_of now_wall_time ->
  sent d (UpdateStats now_ticks now_wall_time cpu_use d) = [].
Proof.
  intros Hd Hw. apply sent_app. rewrite metrics_lib_UpdateStats.
  unfold UpdateStats_samples. by rewrite Hd, Hw, !Z.eqb_refl.
Qed.

(** A daemon whose markers say day 7 of week 1, with one crash counted in
    the day and in the week; and readings on day 8 (the same week) and on
    day 14 (the next week). *)
Definition daemon_day7 : MetricsDaemon :=
  new_MetricsDaemon false
    (list_to_map [(Name daily_cycle_, 7); (Name weekly_cycle_, 1);
                  (Name any_crashes_daily_count_, 1);
                  (Name any_crashes_weekly_count_, 1)]) ∅.

Definition reading_on_day (day : Z) : Reading :=
  Build_Reading 0 (day * kMicrosecondsPerDay) 0.

(** C2.  For one call of [UpdateStats], with [day] the days since the epoch
    of the wall-clock time and [week] = [day / 7]: the call sends the samples
    of the daily block exactly when [day] differs from daily.cycle, and those
    of the weekly block exactly when [week] differs from weekly.cycle, each
    flushed counter being sent once and left at 0; the weekly counters are
    untouched otherwise; afterwards daily.cycle holds [day] and weekly.cycle
    holds [week], so that a further call within the same day sends nothing.
    Over a sequence of calls each daily (weekly) counter is sent once per
    change of the day (week) index along the sequence, starting from the
    persisted marker.  The two blocks are independent: on day 8 after day 7
    only the daily block runs, on day 14 both run. *)
Theorem UpdateStats_flushes_once_per_cycle :
  (forall now_ticks now_wall_time cpu_use d,
     let day := day_of now_wall_time in
     let week := week_of now_wall_time in
     let d' := UpdateStats now_ticks now_wall_time cpu_use d in
     week = Z.quot day 7 /\
     sent d d' =
       (if Get daily_cycle_ d =? day then []
        else daily_samples (UpdateStats_add now_ticks cpu_use d))
       ++ (if Get weekly_cycle_ d =? week then [] else weekly_samples d) /\
     (forall p, In p daily_counters ->
        count_named (Name p) (sent d d') =
          (if Get daily_cycle_ d =? day then 0%nat else 1%nat) /\
        (Get daily_cycle_ d <> day -> Get p d' = 0)) /\
     (forall p, In p weekly_counters ->
        count_named (Name p) (sent d d') =
          (if Get weekly_cycle_ d =? week then 0%nat else 1%nat) /\
        (Get weekly_cycle_ d <> week -> Get p d' = 0) /\
        (Get weekly_cycle_ d = week -> Get p d' = Get p d)) /\
     Get daily_cycle_ d' = day /\
     Get weekly_cycle_ d' = week /\
     (forall now_ticks2 now_wall_time2 cpu_use2,
        day_of now_wall_time2 = day ->
        sent d' (UpdateStats now_ticks2 now_wall_time2 cpu_use2 d') = [])) /\
  (forall calls d,
     (forall p, In p daily_counters ->
        count_named (Name p) (sent d (UpdateStats_calls calls d)) =
        crossings (Get daily_cycle_ d)
          (map (fun r => day_of (wall_now r)) calls)) /\
     (forall p, In p weekly_counters ->
        count_named (Name p) (sent d (UpdateStats_calls calls d)) =
        crossings (Get weekly_cycle_ d)
          (map (fun r => week_of (wall_now r)) calls))) /\
  (map sample_name
     (sent daemon_day7 (UpdateStats_calls [reading_on_day 8] daemon_day7)) =
   map Name daily_counters
   ++ [Name kernel_crashes_version_count_; Name version_cumulative_cpu_use_]) /\
  (map sample_name
     (sent daemon_day7 (UpdateStats_calls [reading_on_day 14] daemon_day7)) =
   map Name daily_counters
   ++ [Name kernel_crashes_version_count_; Name version_cumulative_cpu_use_]
   ++ map Name weekly_counters).
Proof.
  split; [| split; [| split]].
  - intros now_ticks now_wall_time cpu_use d. cbv zeta.
    assert (Hs : sent d (UpdateStats now_ticks now_wall_time cpu_use d)
                 = UpdateStats_samples now_ticks now_wall_time cpu_use d)
      by apply sent_app, metrics_lib_UpdateStats.
    split; [reflexivity |]. split; [exact Hs |]. rewrite Hs.
    split; [| split; [| split; [| split]]].
    + intros p Hp. split; [by apply count_named_daily |].
      by apply Get_flushed_daily.
    + intros p Hp. split; [by apply count_named_weekly |].
      split; [by apply Get_flushed_weekly | by apply Get_unflushed_weekly].
    + apply Get_daily_cycle_UpdateStats.
    + apply Get_weekly_cycle_UpdateStats.
    + intros t2 w2 c2 Hday.
      apply UpdateStats_same_cycle_sends_nothing.
      * by rewrite Get_daily_cycle_UpdateStats.
      * rewrite Get_weekly_cycle_UpdateStats. unfold week_of. by rewrite Hday.
  - intros calls d. apply UpdateStats_calls_crossings.
  - vm_compute. reflexivity.
  - vm_compute. reflexivity.
Qed.

(** ** Startup *)

(** What the counter operations leave alone: the testing flag and the
    marker files. *)
Definition same_world (d d' : MetricsDaemon) : Prop :=
  testing_ d' = testing_ d /\ var_run d' = var_run d.

Lemma same_world_refl d : same_world d d.
Proof. by split. Qed.

Lemma same_world_trans d1 d2 d3 :
  same_world d1 d2 -> same_world d2 d3 -> same_world d1 d3.
Proof. intros [? ?] [? ?]. split; congruence. Qed.

Lemma same_world_Set_ p v d : same_world d (Set_ p v d).
Proof. by split. Qed.

Lemma same_world_Add p x d : same_world d (Add p x d).
Proof. by split. Qed.

Lemma same_world_SendSample n v lo hi nb d :
  same_world d (SendSample n v lo hi nb d).
Proof. by split. Qed.

Lemma same_world_SendAndResetDailyUseSample p d :
  same_world d (SendAndResetDailyUseSample p d).
Proof. by split. Qed.

Lemma same_world_SendAndResetCrashIntervalSample p d :
  same_world d (SendAndResetCrashIntervalSample p d).
Proof. by split. Qed.

Lemma same_world_SendAndResetCrashFrequencySample p d :
  same_world d (SendAndResetCrashFrequencySample p d).
Proof. by split. Qed.

Lemma same_world_SendKernelCrashesCumulativeCountStats d :
  same_world d (SendKernelCrashesCumulativeCountStats d).
Proof.
  unfold SendKernelCrashesCumulativeCountStats; cbv zeta.
  repeat match goal with |- context [if ?b then _ else _] => destruct b end;
    by split.
Qed.

Lemma same_world_UpdateStats_add now_ticks cpu_use d :
  same_world d (UpdateStats_add now_ticks cpu_use d).
Proof. by split. Qed.

Create HintDb world.
#[local] Hint Resolve same_world_refl same_world_Set_ same_world_Add
  same_world_SendSample same_world_SendAndResetDailyUseSample
  same_world_SendAndResetCrashIntervalSample
  same_world_SendAndResetCrashFrequencySample
  same_world_SendKernelCrashesCumulativeCountStats
  same_world_UpdateStats_add : world.

(** Peel the outermost operation off the daemon on the right. *)
Ltac same_world_step :=
  lazymatch goal with
  | |- same_world ?d ?d => apply same_world_refl
  | |- same_world ?d (?f _ _ _ _ _ ?d') =>
      apply (same_world_trans d d'); [| solve [auto with world]]
  | |- same_world ?d (?f _ _ ?d') =>
      apply (same_world_trans d d'); [| solve [auto with world]]
  | |- same_world ?d (?f _ ?d') =>
      apply (same_world_trans d d'); [| solve [auto with world]]
  | |- same_world ?d (?f ?d') =>
      apply (same_world_trans d d'); [| solve [auto with world]]
  end.

Lemma same_world_UpdateStats_daily day d :
  same_world d (UpdateStats_daily day d).
Proof. unfold UpdateStats_daily. repeat same_world_step. Qed.

Lemma same_world_UpdateStats_weekly week d :
  same_world d (UpdateStats_weekly week d).
Proof. unfold UpdateStats_weekly. repeat same_world_step. Qed.

Lemma same_world_UpdateStats now_ticks now_wall_time cpu_use d :
  same_world d (UpdateStats now_ticks now_wall_time cpu_use d).
Proof.
  rewrite UpdateStats_blocks; cbv zeta.
  pose proof (same_world_UpdateStats_add now_ticks cpu_use d) as H1.
  set (d1 := UpdateStats_add now_ticks cpu_use d) in *. clearbody d1.
  assert (H2 : same_world d
                 (if negb (Get daily_cycle_ d1 =? day_of now_wall_time)
                  then UpdateStats_daily (day_of now_wall_time) d1 else d1)).
  { destruct (negb _); [| done].
    eapply same_world_trans; [exact H1 | apply same_world_UpdateStats_daily]. }
  set (d2 := if negb (Get daily_cycle_ d1 =? day_of now_wall_time)
             then UpdateStats_daily (day_of now_wall_time) d1 else d1) in *.
  clearbody d2.
  destruct (negb _); [| done].
  eapply same_world_trans; [exact H2 | apply same_world_UpdateStats_weekly].
Qed.

Lemma same_world_ProcessKernelCrash r d :
  same_world d (ProcessKernelCrash r d).
Proof.
  unfold ProcessKernelCrash; cbv zeta.
  repeat same_world_step.
  apply same_world_UpdateStats.
Qed.

Lemma same_world_ProcessUncleanShutdown r d :
  same_world d (ProcessUncleanShutdown r d).
Proof.
  unfold ProcessUncleanShutdown; cbv zeta.
  repeat same_world_step.
  apply same_world_UpdateStats.
Qed.

Lemma Get_ProcessKernelCrash p r d :
  Get p (ProcessKernelCrash r d) =
  Get p (Add kernel_crashes_version_count_ 1
          (Add kernel_crashes_weekly_count_ 1
            (Add kernel_crashes_daily_count_ 1
              (Add any_crashes_weekly_count_ 1
                (Add any_crashes_daily_count_ 1
                  (SendAndResetCrashIntervalSample kernel_crash_interval_
                    (UpdateStats (ticks_now r) (wall_now r)
                       (cumulative_cpu_use r) d))))))).
Proof. reflexivity. Qed.

Lemma Get_ProcessUncleanShutdown p r d :
  Get p (ProcessUncleanShutdown r d) =
  Get p (Add any_crashes_weekly_count_ 1
          (Add any_crashes_daily_count_ 1
            (Add unclean_shutdowns_weekly_count_ 1
              (Add unclean_shutdowns_daily_count_ 1
                (SendAndResetCrashIntervalSample unclean_shutdown_interval_
                  (UpdateStats (ticks_now r) (wall_now r)
                     (cumulative_cpu_use r) d)))))).
Proof. reflexivity. Qed.

(** The boot-marker part of [Run]: the two checks and the passes they
    start. *)
Definition Run_boot_markers (r1 r2 : Reading) (d : MetricsDaemon)
  : MetricsDaemon :=
  let '(crashed, d) := CheckSystemCrash kKernelCrashDetectedFile d in
  let d := if crashed then ProcessKernelCrash r1 d else d in
  let '(unclean, d) := CheckSystemCrash kUncleanShutdownDetectedFile d in
  if unclean then ProcessUncleanShutdown r2 d else d.

Lemma Run_boot_markers_then_version r1 r2 h d :
  Run r1 r2 h d = CheckVersionChange h (Run_boot_markers r1 r2 d).
Proof.
  unfold Run, Run_boot_markers.
  destruct (CheckSystemCrash kKernelCrashDetectedFile d) as [crashed d1].
  destruct (CheckSystemCrash kUncleanShutdownDetectedFile
              (if crashed then ProcessKernelCrash r1 d1 else d1))
    as [unclean d2].
  reflexivity.
Qed.

Lemma Get_CheckSystemCrash p f d : Get p (CheckSystemCrash f d).2 = Get p d.
Proof. unfold CheckSystemCrash. by destruct (bool_decide _). Qed.

Lemma testing_CheckSystemCrash f d :
  testing_ (CheckSystemCrash f d).2 = testing_ d.
Proof. unfold CheckSystemCrash. by destruct (bool_decide _). Qed.

Lemma CheckSystemCrash_found f d :
  (CheckSystemCrash f d).1 = bool_decide (f ∈ var_run d).
Proof. unfold CheckSystemCrash. by destruct (bool_decide _). Qed.

Lemma var_run_CheckSystemCrash f d :
  var_run (CheckSystemCrash f d).2 = var_run d ∖ {[ f ]}.
Proof.
  unfold CheckSystemCrash. destruct (bool_decide_reflect (f ∈ var_run d)).
  - reflexivity.
  - simpl. symmetry. by apply difference_disjoint_L, disjoint_singleton_r.
Qed.

Lemma Run_boot_markers_facts r1 r2 d :
  let d' := Run_boot_markers r1 r2 d in
  testing_ d' = testing_ d /\
  Get version_cycle_ d' = Get version_cycle_ d /\
  Get kernel_crashes_version_count_ d' =
    (if bool_decide (kKernelCrashDetectedFile ∈ var_run d)
     then to_int64 (Get kernel_crashes_version_count_ d + 1)
     else Get kernel_crashes_version_count_ d) /\
  var_run d' =
    var_run d ∖ {[ kKernelCrashDetectedFile ]}
              ∖ {[ kUncleanShutdownDetectedFile ]}.
Proof.
  unfold Run_boot_markers.
  pose proof (Get_CheckSystemCrash version_cycle_ kKernelCrashDetectedFile d)
    as Hv1.
  pose proof (Get_CheckSystemCrash kernel_crashes_version_count_
                kKernelCrashDetectedFile d) as Hk1.
  pose proof (testing_CheckSystemCrash kKernelCrashDetectedFile d) as Ht1.
  pose proof (CheckSystemCrash_found kKernelCrashDetectedFile d) as Hf1.
  pose proof (var_run_CheckSystemCrash kKernelCrashDetectedFile d) as Hr1.
  destruct (CheckSystemCrash kKernelCrashDetectedFile d) as [crashed d1].
  simpl in Hv1, Hk1, Ht1, Hf1, Hr1. rewrite <- Hf1.
  set (d2 := if crashed then ProcessKernelCrash r1 d1 else d1).
  assert (H2 : testing_ d2 = testing_ d /\
               Get version_cycle_ d2 = Get version_cycle_ d /\
               Get kernel_crashes_version_count_ d2 =
                 (if crashed
                  then to_int64 (Get kernel_crashes_version_count_ d + 1)
                  else Get kernel_crashes_version_count_ d) /\
               var_run d2 = var_run d ∖ {[ kKernelCrashDetectedFile ]}).
  { subst d2. destruct crashed.
    - destruct (same_world_ProcessKernelCrash r1 d1) as [-> ->].
      rewrite !Get_ProcessKernelCrash.
      read_counter.
      rewrite !Get_UpdateStats_unflushed by reflexivity.
      rewrite !Get_UpdateStats_add. read_counter. by rewrite Hk1.
    - done. }
  clearbody d2. destruct H2 as (Ht2 & Hv2 & Hk2 & Hr2).
  pose proof (Get_CheckSystemCrash version_cycle_
                kUncleanShutdownDetectedFile d2) as Hv3.
  pose proof (Get_CheckSystemCrash kernel_crashes_version_count_
                kUncleanShutdownDetectedFile d2) as Hk3.
  pose proof (testing_CheckSystemCrash kUncleanShutdownDetectedFile d2) as Ht3.
  pose proof (var_run_CheckSystemCrash kUncleanShutdownDetectedFile d2) as Hr3.
  destruct (CheckSystemCrash kUncleanShutdownDetectedFile d2) as [unclean d3].
  simpl in Hv3, Hk3, Ht3, Hr3.
  destruct unclean.
  - destruct (same_world_ProcessUncleanShutdown r2 d3) as [-> ->].
    rewrite !Get_ProcessUncleanShutdown.
    read_counter.
    rewrite !Get_UpdateStats_unflushed by reflexivity.
    rewrite !Get_UpdateStats_add. read_counter.
    rewrite Ht3, Hv3, Hk3, Hr3, Ht2, Hv2, Hk2, Hr2. done.
  - rewrite Ht3, Hv3, Hk3, Hr3, Ht2, Hv2, Hk2, Hr2. done.
Qed.

Lemma metrics_lib_Add p x d : metrics_lib_ (Add p x d) = metrics_lib_ d.
Proof. reflexivity. Qed.

Lemma metrics_lib_SendAndResetCrashIntervalSample p d :
  metrics_lib_ (SendAndResetCrashIntervalSample p d) =
  metrics_lib_ d
  ++ [SendToUMA (Name p) (to_int32 (Get p d)) 1 (4 * kSecondsPerWeek) 50].
Proof. reflexivity. Qed.

Lemma metrics_lib_CheckSystemCrash f d :
  metrics_lib_ (CheckSystemCrash f d).2 = metrics_lib_ d.
Proof. unfold CheckSystemCrash. by destruct (bool_decide _). Qed.

Lemma metrics_lib_ProcessKernelCrash r d :
  exists v l,
    metrics_lib_ (ProcessKernelCrash r d) =
    metrics_lib_ d ++ l
    ++ [SendToUMA (Name kernel_crash_interval_) v 1 (4 * kSecondsPerWeek) 50].
Proof.
  unfold ProcessKernelCrash; cbv zeta.
  rewrite !metrics_lib_Add, metrics_lib_SendAndResetCrashIntervalSample,
    metrics_lib_UpdateStats, <- app_assoc.
  eauto.
Qed.

Lemma metrics_lib_ProcessUncleanShutdown r d :
  exists l, metrics_lib_ (ProcessUncleanShutdown r d) = metrics_lib_ d ++ l.
Proof.
  unfold ProcessUncleanShutdown; cbv zeta.
  rewrite !metrics_lib_Add, metrics_lib_SendAndResetCrashIntervalSample,
    metrics_lib_UpdateStats, <- app_assoc.
  eauto.
Qed.

(** When the kernel-crash marker is there, the boot-marker part sends the
    kernel-crash interval. *)
Lemma Run_boot_markers_sends r1 r2 d :
  kKernelCrashDetectedFile ∈ var_run d ->
  exists v,
    SendToUMA (Name kernel_crash_interval_) v 1 (4 * kSecondsPerWeek) 50
      ∈ metrics_lib_ (Run_boot_markers r1 r2 d).
Proof.
  intros Hin. unfold Run_boot_markers.
  pose proof (CheckSystemCrash_found kKernelCrashDetectedFile d) as Hf1.
  destruct (CheckSystemCrash kKernelCrashDetectedFile d) as [crashed d1].
  cbn [fst] in Hf1. rewrite bool_decide_eq_true_2 in Hf1 by exact Hin.
  subst crashed.
  destruct (metrics_lib_ProcessKernelCrash r1 d1) as (v & l & Hl).
  set (d2 := ProcessKernelCrash r1 d1) in *. clearbody d2.
  exists v.
  assert (H2 : SendToUMA (Name kernel_crash_interval_) v 1
                 (4 * kSecondsPerWeek) 50 ∈ metrics_lib_ d2).
  { rewrite Hl, !elem_of_app. right. right. apply list_elem_of_singleton.
    reflexivity. }
  clear Hl.
  pose proof (metrics_lib_CheckSystemCrash kUncleanShutdownDetectedFile d2)
    as Hm3.
  destruct (CheckSystemCrash kUncleanShutdownDetectedFile d2)
    as [unclean d3].
  cbn [snd] in Hm3. rewrite <- Hm3 in H2.
  destruct unclean; [| exact H2].
  destruct (metrics_lib_ProcessUncleanShutdown r2 d3) as [l' Hl'].
  rewrite Hl', elem_of_app. left. exact H2.
Qed.

(** The order of the specification: the version check first, the boot-marker
    passes after it. *)
Definition Run_version_check_first (r1 r2 : Reading)
    (product_version_hash : Z) (d : MetricsDaemon) : MetricsDaemon :=
  Run_boot_markers r1 r2 (CheckVersionChange product_version_hash d).

Definition version_check_runs_first (r1 r2 : Reading)
    (product_version_hash : Z) (d : MetricsDaemon) : Prop :=
  Run r1 r2 product_version_hash d =
  Run_version_check_first r1 r2 product_version_hash d.

(** A daemon that starts with the kernel-crash marker present and no
    counter on disk, and a reading at time 0. *)
Definition crashed_daemon : MetricsDaemon :=
  new_MetricsDaemon false ∅ {[ kKernelCrashDetectedFile ]}.

Definition boot_reading : Reading :=
  Build_Reading 0 0 0.

(** C3, as stated, fails: with the kernel-crash marker present and a version
    hash (7) that differs from version.cycle (0), [Run] ends with 0 kernel
    crashes since the version change, whereas running the version check
    first would leave the crash of the boot-marker pass counted (1). *)
Lemma Run_version_check_not_first :
  Get kernel_crashes_version_count_
    (Run boot_reading boot_reading 7 crashed_daemon) = 0 /\
  Get kernel_crashes_version_count_
    (Run_version_check_first boot_reading boot_reading 7 crashed_daemon) = 1 /\
  ~ version_check_runs_first boot_reading boot_reading 7 crashed_daemon.
Proof.
  assert (H0 : Get kernel_crashes_version_count_
                 (Run boot_reading boot_reading 7 crashed_daemon) = 0)
    by (vm_compute; reflexivity).
  assert (H1 : Get kernel_crashes_version_count_
                 (Run_version_check_first boot_reading boot_reading 7
                    crashed_daemon) = 1)
    by (vm_compute; reflexivity).
  split; [exact H0 |]. split; [exact H1 |].
  unfold version_check_runs_first. intros E. rewrite E in H0.
  rewrite H0 in H1. discriminate H1.
Qed.

(** ** Memory use at age *)

(** A meminfo dump: 2000000 kB of memory of which 500000 kB are free, and
    100000 kB of swap of which 40000 kB are free. *)
Definition meminfo_example : string := "MemTotal:        2000000 kB
MemFree:          500000 kB
Buffers:            1000 kB
Cached:           213652 kB
SwapCached:            0 kB
Active:           133400 kB
Inactive:         183396 kB
Active(anon):      92984 kB
Inactive(anon):    58860 kB
Active(file):      40416 kB
Inactive(file):   124536 kB
Unevictable:           0 kB
Mlocked:               0 kB
SwapTotal:        100000 kB
SwapFree:          40000 kB
Dirty:                40 kB
Writeback:             0 kB
AnonPages:         92652 kB
Mapped:            59716 kB
Shmem:             59196 kB
Slab:              16656 kB
".

(** The memory use task from the start of the daemon at active time
    [start]: [OnInit] posts it, the message loop runs it. *)
Definition memuse_runs (start : Q) (sleeps : list Q) (meminfo : File)
    (d : MetricsDaemon) : Outcome (list (Q * list Sample)) :=
  obind (OnInit_memuse start d) (fun '(delay, d') =>
    obind (RunMemuseTask sleeps meminfo start delay d') (fun '(runs, _) =>
      Done runs)).

(** The schedule that the comments of [kMemuseIntervals] announce: the
    1 minute, 5 minute, 0.5 hour, 2.5 hour and 12.5 hour marks. *)
Definition memuse_marks : list Z :=
  [ 1 * kSecondsPerMinute; 5 * kSecondsPerMinute; 30 * kSecondsPerMinute;
    150 * kSecondsPerMinute; 750 * kSecondsPerMinute ].

(** C4 (code defect).  With the daemon started at active time 0, a readable
    meminfo file and a device that never sleeps, the memory use task is run
    six times, at 60, 120, 360, 1860, 9060 and 45060 seconds, and each run
    sends a sample, named by the indices 0 to 5; after the sixth run no
    task is posted (two more runs were allowed here, none took place).
    The first interval of the table is used twice, by [OnInit] and by the
    first run of [MemuseCallback], so the runs after the first are not at
    the 5 minute, 0.5 hour, 2.5 hour and 12.5 hour marks, and there is one
    more sample than there are marks. *)
Theorem MemuseCallback_runs_six_times :
  memuse_runs 0 (repeat 0%Q 8) (Some meminfo_example)
    (new_MetricsDaemon false ∅ ∅) =
  Done [ (60%Q, [SendEnumToUMA "Platform.MemuseAnon0" 7 100]);
         (120%Q, [SendEnumToUMA "Platform.MemuseAnon1" 7 100]);
         (360%Q, [SendEnumToUMA "Platform.MemuseAnon2" 7 100]);
         (1860%Q, [SendEnumToUMA "Platform.MemuseAnon3" 7 100]);
         (9060%Q, [SendEnumToUMA "Platform.MemuseAnon4" 7 100]);
         (45060%Q, [SendEnumToUMA "Platform.MemuseAnon5" 7 100]) ] /\
  map inject_Z memuse_marks = [60%Q; 300%Q; 1800%Q; 9000%Q; 45000%Q].
Proof. split; vm_compute; reflexivity. Qed.

(** ** Meminfo: the ordered scan *)

Lemma string_compare_refl s : String.compare s s = Eq.
Proof.
  induction s as [| c s IH]; simpl; [reflexivity |].
  unfold Ascii.compare. rewrite N.compare_refl. exact IH.
Qed.

Lemma strcmp_zero a b : (strcmp a b =? 0) = true <-> c_str a = c_str b.
Proof.
  unfold strcmp.
  destruct (String.compare (c_str a) (c_str b)) eqn:E; simpl.
  - split; [intros _; by apply String.compare_eq_iff | done].
  - split; [done |]. intros H. rewrite H, string_compare_refl in E. done.
  - split; [done |]. intros H. rewrite H, string_compare_refl in E. done.
Qed.

(** The label a field matches, and the label of a line of the dump (its
    first token), as [strcmp] sees them. *)
Definition label_of (f : MeminfoRecord) : string := c_str (match_ f).

Definition line_label (line : string) : option string :=
  c_str <$> (Tokenize line ": " !! 0%nat).

Definition dump_lines (meminfo_raw : string) : list string :=
  Tokenize meminfo_raw LF.

Definition dump_labels (meminfo_raw : string) : list string :=
  omap line_label (dump_lines meminfo_raw).


Lemma map_insert_with_value {B} (g : MeminfoRecord -> B) fields i field v :
  fields !! i = Some field ->
  g (with_value v field) = g field ->
  map g (<[i := with_value v field]> fields) = map g fields.
Proof.
  intros Hi Hg.
  change (g <$> <[i:=with_value v field]> fields = g <$> fields).
  rewrite list_fmap_insert, Hg.
  apply list_insert_id. by rewrite list_lookup_fmap, Hi.
Qed.



(** When the scan ends normally, the labels of the fields passed by the
    cursor are, in order, among the labels of the lines, and only values
    have changed in the fields. *)
Lemma FillMeminfo_loop_done lines : forall ifield fields ifield' fields',
  FillMeminfo_loop lines ifield fields = Done (Some (ifield', fields')) ->
  (ifield <= ifield')%nat /\
  map name fields' = map name fields /\
  map match_ fields' = map match_ fields /\
  map op fields' = map op fields /\
  take (ifield' - ifield) (drop ifield (map label_of fields))
    `sublist_of` omap line_label lines.
Proof.
  induction lines as [| line rest IH]; intros ifield fields ifield' fields' H.
  - cbn [FillMeminfo_loop] in H. injection H as <- <-.
    rewrite Nat.sub_diag. repeat split; try lia. apply sublist_nil_l.
  - cbn [FillMeminfo_loop] in H.
    destruct (fields !! ifield) as [field |] eqn:Hf.
    2: { injection H as <- <-. rewrite Nat.sub_diag.
         repeat split; try lia. apply sublist_nil_l. }
    destruct (Tokenize line ": " !! 0%nat) as [token0 |] eqn:Ht0;
      [| discriminate H].
    assert (Hlab : omap line_label (line :: rest)
                   = c_str token0 :: omap line_label rest).
    { change (omap line_label (line :: rest))
        with (match line_label line with
              | Some y => y :: omap line_label rest
              | None => omap line_label rest
              end).
      unfold line_label at 1. by rewrite Ht0. }
    rewrite Hlab.
    destruct (strcmp (match_ field) token0 =? 0) eqn:E.
    + destruct (Tokenize line ": " !! 1%nat) as [token1 |]; [| discriminate H].
      destruct (StringToInt token1) as [v |]; [| discriminate H].
      apply IH in H. destruct H as (Hle & Hn & Hm & Ho & Hs).
      rewrite Hn, Hm, Ho.
      rewrite !(map_insert_with_value _ _ _ _ _ Hf) by reflexivity.
      rewrite (map_insert_with_value label_of _ _ _ _ Hf) in Hs by reflexivity.
      repeat split; try lia.
      assert (Hl : map label_of fields !! ifield = Some (c_str token0)).
      { change (map label_of fields) with (label_of <$> fields).
        rewrite list_lookup_fmap, Hf. simpl. unfold label_of.
        f_equal. by apply strcmp_zero. }
      rewrite (drop_S _ _ _ Hl).
      replace (ifield' - ifield)%nat with (S (ifield' - S ifield)) by lia.
      cbn [take]. by apply sublist_skip.
    + apply IH in H. destruct H as (Hle & Hn & Hm & Ho & Hs).
      repeat split; try done. by apply sublist_cons.
Qed.

(** A scan that returns true has found every field, in the order of the
    schema. *)
Lemma FillMeminfo_true meminfo_raw fields fields' :
  FillMeminfo meminfo_raw fields = Done (Some fields') ->
  map label_of fields `sublist_of` dump_labels meminfo_raw /\
  map name fields' = map name fields /\
  map match_ fields' = map match_ fields /\
  map op fields' = map op fields.
Proof.
  unfold FillMeminfo. cbv zeta.
  destruct (FillMeminfo_loop _ 0 fields) as [[[ifield' fs] |] | w] eqn:Hl;
    cbn [obind]; try discriminate.
  destruct (ifield' <? length fs)%nat eqn:Hlt; [discriminate |].
  intros [= <-]. apply Nat.ltb_ge in Hlt.
  apply FillMeminfo_loop_done in Hl.
  destruct Hl as (_ & Hn & Hm & Ho & Hs).
  repeat split; try done.
  rewrite Nat.sub_0_r, drop_0 in Hs.
  rewrite take_ge in Hs; [exact Hs |].
  rewrite length_map. rewrite <- (length_map name fields), <- Hn, length_map.
  exact Hlt.
Qed.


Lemma FillMeminfo_loop_no_fatal lines : forall ifield fields w,
  FillMeminfo_loop lines ifield fields = Aborted w -> w = IndexOutOfRange.
Proof.
  induction lines as [| line rest IH]; intros ifield fields w;
    cbn [FillMeminfo_loop]; [done |].
  destruct (fields !! ifield) as [field |]; [| done].
  destruct (Tokenize line ": " !! 0%nat); [| by intros [= <-]].
  destruct (strcmp (match_ field) _ =? 0); [| apply IH].
  destruct (Tokenize line ": " !! 1%nat); [| by intros [= <-]].
  destruct (StringToInt _); [apply IH | done].
Qed.

Lemma FillMeminfo_outcome meminfo_raw fields :
  (exists r, FillMeminfo meminfo_raw fields = Done r) \/
  FillMeminfo meminfo_raw fields = Aborted IndexOutOfRange.
Proof.
  unfold FillMeminfo; cbv zeta.
  pose proof (FillMeminfo_loop_no_fatal (Tokenize meminfo_raw LF) 0 fields)
    as Hw.
  destruct (FillMeminfo_loop _ 0 fields) as [[[i fs] |] | w]; cbn [obind].
  - destruct (i <? length fs)%nat; eauto.
  - eauto.
  - right. by rewrite (Hw w).
Qed.


Lemma ProcessMeminfo_false meminfo_raw d :
  FillMeminfo meminfo_raw ProcessMeminfo_fields = Done None ->
  ProcessMeminfo meminfo_raw d = Done (false, d).
Proof.
  intros H. unfold ProcessMeminfo, bind, pure_outcome. by rewrite H.
Qed.

Lemma ProcessMeminfo_aborted meminfo_raw d w :
  FillMeminfo meminfo_raw ProcessMeminfo_fields = Aborted w ->
  ProcessMeminfo meminfo_raw d = Aborted w.
Proof.
  intros H. unfold ProcessMeminfo, bind, pure_outcome. by rewrite H.
Qed.

(** Dumps given line by line. *)
Definition unlines (lines : list string) : string :=
  fold_right (fun line rest => (line ++ LF ++ rest)%string) EmptyString lines.



(** ** Meminfo: the samples *)

Lemma to_int32_idem z : to_int32 (to_int32 z) = to_int32 z.
Proof. apply to_int32_small, to_int32_range. Qed.

Lemma with_metrics_lib_id d : with_metrics_lib (metrics_lib_ d) d = d.
Proof. by destruct d. Qed.

(** What the loop of [ProcessMeminfo] sends for one field. *)
Definition field_samples (total_memory : Z) (field : MeminfoRecord)
  : list Sample :=
  match op field with
  | kMeminfoOp_HistPercent =>
      [ SendEnumToUMA ("Platform.Meminfo" ++ name field)%string
          (to_int32 (Z.quot (to_int32 (value field * 100)) total_memory)) 100 ]
  | kMeminfoOp_HistLog =>
      [ SendToUMA ("Platform.Meminfo" ++ name field)%string
          (to_int32 (value field)) 1 4000000 100 ]
  | kMeminfoOp_SwapTotal | kMeminfoOp_SwapFree => []
  end.

(** The values of [swap_total] and [swap_free] after the loop. *)
Fixpoint swap_values (fields : list MeminfoRecord) (swap_total swap_free : Z)
  : Z * Z :=
  match fields with
  | [] => (swap_total, swap_free)
  | field :: rest =>
      match op field with
      | kMeminfoOp_SwapTotal => swap_values rest (value field) (value field)
      | kMeminfoOp_SwapFree => swap_values rest swap_total (value field)
      | _ => swap_values rest swap_total swap_free
      end
  end.

Lemma SendLinearSample_percent n v d :
  SendLinearSample n v 100 101 d =
  Done (tt, with_metrics_lib (metrics_lib_ d ++ [SendEnumToUMA n v 100]) d).
Proof. reflexivity. Qed.

(** The one quotient of two [int]s that is not an [int]. *)
Definition division_overflows (a b : Z) : bool := (a =? INT_MIN) && (b =? -1).

Lemma int_div_cases a b :
  b <> 0 ->
  int_div a b =
  if division_overflows a b then Aborted DivisionOverflow
  else Done (to_int32 (Z.quot a b)).
Proof. intros H. unfold int_div. by destruct (Z.eqb_spec b 0). Qed.

Lemma int_div_nonzero a b :
  b <> 0 -> b <> -1 -> int_div a b = Done (to_int32 (Z.quot a b)).
Proof.
  intros H0 H1. rewrite int_div_cases by exact H0. unfold division_overflows.
  destruct (Z.eqb_spec b (-1)); [contradiction |]. by rewrite andb_false_r.
Qed.

(** Whether a percentage of the loop of [ProcessMeminfo] overflows; this
    takes a total of -1. *)
Definition percent_overflows (total_memory : Z) (fields : list MeminfoRecord)
  : bool :=
  existsb
    (fun field =>
       match op field with
       | kMeminfoOp_HistPercent =>
           division_overflows (to_int32 (value field * 100)) total_memory
       | _ => false
       end) fields.

Lemma percent_overflows_total total_memory fields :
  percent_overflows total_memory fields = true -> total_memory = -1.
Proof.
  unfold percent_overflows. rewrite existsb_exists.
  intros (field & _ & H). destruct (op field); try discriminate.
  unfold division_overflows in H. apply andb_true_iff in H.
  destruct H as [_ H]. by apply Z.eqb_eq in H.
Qed.

Lemma ProcessMeminfo_loop_sends total_memory fields :
  total_memory <> 0 ->
  forall swap_total swap_free d,
    ProcessMeminfo_loop total_memory fields swap_total swap_free d =
    if percent_overflows total_memory fields then Aborted DivisionOverflow
    else
      Done (swap_values fields swap_total swap_free,
            with_metrics_lib
              (metrics_lib_ d ++ flat_map (field_samples total_memory) fields)
              d).
Proof.
  intros Ht. induction fields as [| field rest IH]; intros st sf d.
  - simpl. unfold ret. by rewrite app_nil_r, with_metrics_lib_id.
  - cbn [ProcessMeminfo_loop swap_values flat_map percent_overflows existsb].
    fold (percent_overflows total_memory rest).
    unfold field_samples at 1.
    destruct (op field); cbn [orb].
    + unfold bind, pure_outcome. rewrite (int_div_cases _ _ Ht).
      destruct (division_overflows _ total_memory); cbn [obind orb];
        [reflexivity |].
      rewrite SendLinearSample_percent. cbn [obind].
      rewrite IH. destruct (percent_overflows total_memory rest);
        [reflexivity |].
      cbn [metrics_lib_ with_metrics_lib]. by rewrite <- app_assoc.
    + unfold bind, lift. cbn [obind]. rewrite IH.
      destruct (percent_overflows total_memory rest); [reflexivity |].
      unfold SendSample.
      cbn [metrics_lib_ with_metrics_lib]. by rewrite <- app_assoc.
    + by rewrite IH.
    + by rewrite IH.
Qed.

(** The samples derived from the swap fields. *)
Definition swap_samples (swap_total swap_free : Z) : list Sample :=
  if 0 <? swap_total then
    let swap_used := to_int32 (swap_total - swap_free) in
    [ SendToUMA "Platform.MeminfoSwapUsed" swap_used 1 8000000 100;
      SendEnumToUMA "Platform.MeminfoSwapUsed.Percent"
        (to_int32 (Z.quot (to_int32 (swap_used * 100)) swap_total)) 100 ]
  else [].

Definition value_at (i : nat) (fields : list MeminfoRecord) : Z :=
  default 0 (value <$> fields !! i).

(** [ProcessMeminfo] once the scan has returned true. *)
Lemma ProcessMeminfo_filled meminfo_raw fields' d :
  FillMeminfo meminfo_raw ProcessMeminfo_fields = Done (Some fields') ->
  ProcessMeminfo meminfo_raw d =
  match fields' !! 0%nat with
  | None => Aborted IndexOutOfRange
  | Some field0 =>
      if value field0 =? 0 then Done (false, d)
      else if percent_overflows (value field0) (drop 1 fields')
      then Aborted DivisionOverflow
      else
        let '(swap_total, swap_free) := swap_values (drop 1 fields') 0 0 in
        Done (true,
              with_metrics_lib
                (metrics_lib_ d
                 ++ flat_map (field_samples (value field0)) (drop 1 fields')
                 ++ swap_samples swap_total swap_free) d)
  end.
Proof.
  intros H. unfold ProcessMeminfo, bind at 1, pure_outcome. rewrite H.
  cbn [obind]. destruct (fields' !! 0%nat) as [field0 |]; [| reflexivity].
  destruct (Z.eqb_spec (value field0) 0) as [| Ht]; [reflexivity |].
  unfold bind at 1. rewrite (ProcessMeminfo_loop_sends _ _ Ht).
  destruct (percent_overflows (value field0) (drop 1 fields')); cbn [obind];
    [reflexivity |].
  destruct (swap_values (drop 1 fields') 0 0) as [st sf].
  unfold swap_samples.
  destruct (Z.ltb_spec 0 st) as [Hpos | Hneg].
  - unfold bind, pure_outcome, lift.
    rewrite int_div_nonzero by lia. cbn [obind].
    rewrite SendLinearSample_percent. cbn [obind]. unfold ret, SendSample.
    cbn [metrics_lib_ with_metrics_lib]. rewrite to_int32_idem.
    by rewrite <- !app_assoc.
  - unfold ret. by rewrite app_nil_r.
Qed.

Lemma ProcessMeminfo_true meminfo_raw d d' :
  ProcessMeminfo meminfo_raw d = Done (true, d') ->
  exists fields' field0,
    FillMeminfo meminfo_raw ProcessMeminfo_fields = Done (Some fields') /\
    fields' !! 0%nat = Some field0 /\
    value field0 <> 0 /\
    d' = with_metrics_lib
           (metrics_lib_ d
            ++ flat_map (field_samples (value field0)) (drop 1 fields')
            ++ swap_samples (swap_values (drop 1 fields') 0 0).1
                            (swap_values (drop 1 fields') 0 0).2) d.
Proof.
  intros H.
  destruct (FillMeminfo meminfo_raw ProcessMeminfo_fields)
    as [[fields' |] | w] eqn:Hf.
  - rewrite (ProcessMeminfo_filled _ _ _ Hf) in H.
    destruct (fields' !! 0%nat) as [field0 |] eqn:H0; [| discriminate H].
    destruct (Z.eqb_spec (value field0) 0) as [| Ht]; [discriminate H |].
    destruct (percent_overflows (value field0) (drop 1 fields'));
      [discriminate H |].
    destruct (swap_values (drop 1 fields') 0 0) as [st sf] eqn:Hs.
    injection H as <-. exists fields', field0.
    rewrite Hs. by repeat split.
  - rewrite (ProcessMeminfo_false _ _ Hf) in H. discriminate H.
  - rewrite (ProcessMeminfo_aborted _ _ _ Hf) in H. discriminate H.
Qed.

(** With the names and the operations of the schema, the samples of the
    loop have the names of the fields that are not swap fields, and the swap
    values are those of the twelfth and thirteenth field. *)
Lemma schema_samples total_memory fields' :
  map name fields' = map name ProcessMeminfo_fields ->
  map op fields' = map op ProcessMeminfo_fields ->
  map sample_name (flat_map (field_samples total_memory) (drop 1 fields')) =
    [ "Platform.MeminfoMemFree"; "Platform.MeminfoBuffers";
      "Platform.MeminfoCached"; "Platform.MeminfoActive";
      "Platform.MeminfoInactive"; "Platform.MeminfoActiveAnon";
      "Platform.MeminfoInactiveAnon"; "Platform.MeminfoActiveFile";
      "Platform.MeminfoInactiveFile"; "Platform.MeminfoUnevictable";
      "Platform.MeminfoAnonPages"; "Platform.MeminfoMapped";
      "Platform.MeminfoShmem"; "Platform.MeminfoSlab" ] /\
  swap_values (drop 1 fields') 0 0 = (value_at 11 fields', value_at 12 fields').
Proof.
  intros Hn Ho. unfold ProcessMeminfo_fields in Hn, Ho.
  cbn [map name op percent_record] in Hn, Ho.
  do 17 (destruct fields' as [| [? ? ? ?] fields']; [discriminate Hn |]).
  destruct fields'; [| discriminate Hn].
  cbn [map name op] in Hn, Ho.
  injection Hn as -> -> -> -> -> -> -> -> -> -> -> -> -> -> -> -> ->.
  injection Ho as -> -> -> -> -> -> -> -> -> -> -> -> -> -> -> -> ->.
  split; reflexivity.
Qed.

(** A dump of a device without swap. *)
Definition meminfo_no_swap : string :=
  unlines [ "MemTotal: 2000000 kB"; "MemFree: 500000 kB"; "Buffers: 1000 kB";
            "Cached: 213652 kB"; "Active: 133400 kB"; "Inactive: 183396 kB";
            "Active(anon): 92984 kB"; "Inactive(anon): 58860 kB";
            "Active(file): 40416 kB"; "Inactive(file): 124536 kB";
            "Unevictable: 0 kB"; "SwapTotal: 0 kB"; "SwapFree: 0 kB";
            "AnonPages: 92652 kB"; "Mapped: 59716 kB"; "Shmem: 59196 kB";
            "Slab: 16656 kB" ].

(** A dump of a device with 30000000 kB of swap, all of it in use. *)
Definition meminfo_large_swap : string :=
  unlines [ "MemTotal: 2000000 kB"; "MemFree: 500000 kB"; "Buffers: 1000 kB";
            "Cached: 213652 kB"; "Active: 133400 kB"; "Inactive: 183396 kB";
            "Active(anon): 92984 kB"; "Inactive(anon): 58860 kB";
            "Active(file): 40416 kB"; "Inactive(file): 124536 kB";
            "Unevictable: 0 kB"; "SwapTotal: 30000000 kB"; "SwapFree: 0 kB";
            "AnonPages: 92652 kB"; "Mapped: 59716 kB"; "Shmem: 59196 kB";
            "Slab: 16656 kB" ].

(** The samples a handler sends when it returns normally. *)
Definition sends {A} (m : M A) (d : MetricsDaemon) : Outcome (A * list Sample) :=
  obind (m d) (fun '(a, d') => Done (a, sent d d')).

(** C6 (code defect).  When [ProcessMeminfo] returns true, it has sent one
    sample for each field other than MemTotal, SwapTotal and SwapFree, under
    the name of the field, and after them, if and only if the value of
    SwapTotal is positive, Platform.MeminfoSwapUsed with total - free (1 to
    8000000, 100 buckets) and Platform.MeminfoSwapUsed.Percent with
    used * 100 / total (enumeration up to 100), in the arithmetic of [int].
    As long as 0 <= free <= total <= 21474836 these are the exact difference
    and quotient, and the percentage lies between 0 and 100.  For a total of
    100000 and 40000 free they are 60000 and 60; with a total of 0 there is
    no swap sample.  But the product used * 100 does not fit an [int] once
    more than 21474836 kB of swap are in use: with 30000000 kB of swap, all
    in use, the percentage sent is -43, where used * 100 / total is 100. *)
Theorem ProcessMeminfo_swap_samples :
  (forall meminfo_raw d d',
     ProcessMeminfo meminfo_raw d = Done (true, d') ->
     exists fields' direct,
       FillMeminfo meminfo_raw ProcessMeminfo_fields = Done (Some fields') /\
       map name fields' = map name ProcessMeminfo_fields /\
       let swap_total := value_at 11 fields' in
       let swap_free := value_at 12 fields' in
       let swap_used := to_int32 (swap_total - swap_free) in
       let swap_used_percent :=
         to_int32 (Z.quot (to_int32 (swap_used * 100)) swap_total) in
       sent d d' =
         direct
         ++ (if 0 <? swap_total then
               [ SendToUMA "Platform.MeminfoSwapUsed" swap_used 1 8000000 100;
                 SendEnumToUMA "Platform.MeminfoSwapUsed.Percent"
                   swap_used_percent 100 ]
             else []) /\
       map sample_name direct =
         [ "Platform.MeminfoMemFree"; "Platform.MeminfoBuffers";
           "Platform.MeminfoCached"; "Platform.MeminfoActive";
           "Platform.MeminfoInactive"; "Platform.MeminfoActiveAnon";
           "Platform.MeminfoInactiveAnon"; "Platform.MeminfoActiveFile";
           "Platform.MeminfoInactiveFile"; "Platform.MeminfoUnevictable";
           "Platform.MeminfoAnonPages"; "Platform.MeminfoMapped";
           "Platform.MeminfoShmem"; "Platform.MeminfoSlab" ]) /\
  (forall swap_total swap_free,
     0 <= swap_free <= swap_total -> 0 < swap_total <= 21474836 ->
     to_int32 (swap_total - swap_free) = swap_total - swap_free /\
     to_int32 (Z.quot (to_int32 (to_int32 (swap_total - swap_free) * 100))
                      swap_total)
       = (swap_total - swap_free) * 100 / swap_total /\
     0 <= (swap_total - swap_free) * 100 / swap_total <= 100) /\
  sends (ProcessMeminfo meminfo_example) (new_MetricsDaemon false ∅ ∅) =
    Done (true,
          [ SendEnumToUMA "Platform.MeminfoMemFree" 25 100;
            SendEnumToUMA "Platform.MeminfoBuffers" 0 100;
            SendEnumToUMA "Platform.MeminfoCached" 10 100;
            SendEnumToUMA "Platform.MeminfoActive" 6 100;
            SendEnumToUMA "Platform.MeminfoInactive" 9 100;
            SendEnumToUMA "Platform.MeminfoActiveAnon" 4 100;
            SendEnumToUMA "Platform.MeminfoInactiveAnon" 2 100;
            SendEnumToUMA "Platform.MeminfoActiveFile" 2 100;
            SendEnumToUMA "Platform.MeminfoInactiveFile" 6 100;
            SendToUMA "Platform.MeminfoUnevictable" 0 1 4000000 100;
            SendEnumToUMA "Platform.MeminfoAnonPages" 4 100;
            SendEnumToUMA "Platform.MeminfoMapped" 2 100;
            SendToUMA "Platform.MeminfoShmem" 59196 1 4000000 100;
            SendToUMA "Platform.MeminfoSlab" 16656 1 4000000 100;
            SendToUMA "Platform.MeminfoSwapUsed" 60000 1 8000000 100;
            SendEnumToUMA "Platform.MeminfoSwapUsed.Percent" 60 100 ]) /\
  sends (ProcessMeminfo meminfo_no_swap) (new_MetricsDaemon false ∅ ∅) =
    Done (true,
          [ SendEnumToUMA "Platform.MeminfoMemFree" 25 100;
            SendEnumToUMA "Platform.MeminfoBuffers" 0 100;
            SendEnumToUMA "Platform.MeminfoCached" 10 100;
            SendEnumToUMA "Platform.MeminfoActive" 6 100;
            SendEnumToUMA "Platform.MeminfoInactive" 9 100;
            SendEnumToUMA "Platform.MeminfoActiveAnon" 4 100;
            SendEnumToUMA "Platform.MeminfoInactiveAnon" 2 100;
            SendEnumToUMA "Platform.MeminfoActiveFile" 2 100;
            SendEnumToUMA "Platform.MeminfoInactiveFile" 6 100;
            SendToUMA "Platform.MeminfoUnevictable" 0 1 4000000 100;
            SendEnumToUMA "Platform.MeminfoAnonPages" 4 100;
            SendEnumToUMA "Platform.MeminfoMapped" 2 100;
            SendToUMA "Platform.MeminfoShmem" 59196 1 4000000 100;
            SendToUMA "Platform.MeminfoSlab" 16656 1 4000000 100 ]) /\
  sends (ProcessMeminfo meminfo_large_swap) (new_MetricsDaemon false ∅ ∅) =
    Done (true,
          [ SendEnumToUMA "Platform.MeminfoMemFree" 25 100;
            SendEnumToUMA "Platform.MeminfoBuffers" 0 100;
            SendEnumToUMA "Platform.MeminfoCached" 10 100;
            SendEnumToUMA "Platform.MeminfoActive" 6 100;
            SendEnumToUMA "Platform.MeminfoInactive" 9 100;
            SendEnumToUMA "Platform.MeminfoActiveAnon" 4 100;
            SendEnumToUMA "Platform.MeminfoInactiveAnon" 2 100;
            SendEnumToUMA "Platform.MeminfoActiveFile" 2 100;
            SendEnumToUMA "Platform.MeminfoInactiveFile" 6 100;
            SendToUMA "Platform.MeminfoUnevictable" 0 1 4000000 100;
            SendEnumToUMA "Platform.MeminfoAnonPages" 4 100;
            SendEnumToUMA "Platform.MeminfoMapped" 2 100;
            SendToUMA "Platform.MeminfoShmem" 59196 1 4000000 100;
            SendToUMA "Platform.MeminfoSlab" 16656 1 4000000 100;
            SendToUMA "Platform.MeminfoSwapUsed" 30000000 1 8000000 100;
            SendEnumToUMA "Platform.MeminfoSwapUsed.Percent" (-43) 100 ]) /\
  (30000000 - 0) * 100 / 30000000 = 100.
Proof.
  split; [| split; [| split; [| split; [| split]]]].
  - intros raw d d' H.
    destruct (ProcessMeminfo_true raw d d' H)
      as (fields' & field0 & Hf & H0 & Ht & ->).
    destruct (FillMeminfo_true _ _ _ Hf) as (_ & Hn & _ & Ho).
    destruct (schema_samples (value field0) fields' Hn Ho) as [Hnames Hswap].
    exists fields', (flat_map (field_samples (value field0)) (drop 1 fields')).
    split; [exact Hf |]. split; [exact Hn |]. cbv zeta.
    split; [| exact Hnames].
    apply sent_app. cbn [metrics_lib_ with_metrics_lib].
    rewrite Hswap. reflexivity.
  - intros st sf H1 H2.
    assert (Hu : to_int32 (st - sf) = st - sf)
      by (apply to_int32_small; lia).
    rewrite Hu.
    assert (Hm : to_int32 ((st - sf) * 100) = (st - sf) * 100)
      by (apply to_int32_small; lia).
    rewrite Hm.
    assert (Hq : Z.quot ((st - sf) * 100) st = (st - sf) * 100 / st)
      by (apply Z.quot_div_nonneg; lia).
    rewrite Hq.
    assert (Hb : 0 <= (st - sf) * 100 / st <= 100).
    { split; [apply Z.div_pos; lia |].
      apply Z.div_le_upper_bound; lia. }
    split; [reflexivity |]. split; [| exact Hb].
    apply to_int32_small. lia.
  - vm_compute. reflexivity.
  - vm_compute. reflexivity.
  - vm_compute. reflexivity.
  - reflexivity.
Qed.

(** ** The scale check of SendLinearSample *)

(** The handler does not end in the [LOG(FATAL)] of [SendLinearSample]. *)
Definition no_fatal {A} (o : Outcome A) : Prop := o <> Aborted LogFatal.

Lemma no_fatal_Done {A} (a : A) : no_fatal (Done a).
Proof. done. Qed.

Lemma no_fatal_bind {A B} (m : M A) (k : A -> M B) d :
  no_fatal (m d) -> (forall a d', no_fatal (k a d')) -> no_fatal (bind m k d).
Proof.
  unfold bind, no_fatal. intros Hm Hk.
  destruct (m d) as [[a d'] | w]; cbn [obind]; [apply Hk |].
  intros [= ->]. by apply Hm.
Qed.

Lemma no_fatal_pure_outcome {A} (o : Outcome A) d :
  no_fatal o -> no_fatal (pure_outcome o d).
Proof.
  unfold pure_outcome, no_fatal. destruct o as [a | w]; cbn [obind]; [done |].
  intros H [= ->]. by apply H.
Qed.

Lemma no_fatal_int_div a b : no_fatal (int_div a b).
Proof.
  unfold int_div, no_fatal.
  destruct (b =? 0); [done |]. by destruct ((a =? INT_MIN) && (b =? -1)).
Qed.

Lemma no_fatal_obind_int_div a b c :
  no_fatal (obind (int_div a b) (int_div c)).
Proof.
  unfold int_div at 1. destruct (b =? 0); cbn [obind]; [done |].
  destruct ((a =? INT_MIN) && (b =? -1)); cbn [obind]; [done |].
  apply no_fatal_int_div.
Qed.

Lemma no_fatal_FillMeminfo meminfo_raw fields :
  no_fatal (FillMeminfo meminfo_raw fields).
Proof.
  unfold no_fatal.
  destruct (FillMeminfo_outcome meminfo_raw fields) as [[r ->] | ->]; done.
Qed.

Lemma no_fatal_field_value fields i : no_fatal (field_value fields i).
Proof. unfold field_value, no_fatal. by destruct (fields !! i). Qed.

Lemma no_fatal_SendLinearSample_100 n v d :
  no_fatal (SendLinearSample n v 100 101 d).
Proof. done. Qed.

Lemma no_fatal_SendLinearSample_101 n v d :
  no_fatal (SendLinearSample n v 101 102 d).
Proof. done. Qed.

Lemma no_fatal_ProcessMeminfo_loop total_memory fields :
  forall swap_total swap_free d,
    no_fatal (ProcessMeminfo_loop total_memory fields swap_total swap_free d).
Proof.
  induction fields as [| field rest IH]; intros st sf d;
    cbn [ProcessMeminfo_loop]; [done |].
  destruct (op field); try apply IH.
  apply no_fatal_bind; [apply no_fatal_pure_outcome, no_fatal_int_div |].
  intros percent d1. apply no_fatal_bind; [done | intros _ d2; apply IH].
Qed.

Lemma no_fatal_ProcessMeminfo meminfo_raw d :
  no_fatal (ProcessMeminfo meminfo_raw d).
Proof.
  unfold ProcessMeminfo.
  apply no_fatal_bind; [apply no_fatal_pure_outcome, no_fatal_FillMeminfo |].
  intros [fields |] d1; [| done].
  destruct (fields !! 0%nat) as [field0 |]; [| done].
  destruct (value field0 =? 0); [done |].
  apply no_fatal_bind; [apply no_fatal_ProcessMeminfo_loop |].
  intros [st sf] d2. destruct (0 <? st); [| done].
  apply no_fatal_bind; [apply no_fatal_pure_outcome, no_fatal_int_div |].
  intros percent d3. apply no_fatal_bind; [done |].
  intros _ d4. apply no_fatal_bind; [done | done].
Qed.

Lemma no_fatal_ProcessMemuse meminfo_raw d :
  no_fatal (ProcessMemuse meminfo_raw d).
Proof.
  unfold ProcessMemuse.
  apply no_fatal_bind; [apply no_fatal_pure_outcome, no_fatal_FillMeminfo |].
  intros [fields |] d1; [| done].
  apply no_fatal_bind; [apply no_fatal_pure_outcome, no_fatal_field_value |].
  intros total d2.
  apply no_fatal_bind; [apply no_fatal_pure_outcome, no_fatal_field_value |].
  intros active_anon d3.
  apply no_fatal_bind; [apply no_fatal_pure_outcome, no_fatal_field_value |].
  intros inactive_anon d4.
  destruct (total =? 0); [done |].
  apply no_fatal_bind; [done |]. intros index d5.
  apply no_fatal_bind; [apply no_fatal_pure_outcome, no_fatal_int_div |].
  intros percent d6. apply no_fatal_bind; [done | done].
Qed.

Lemma no_fatal_MemuseCallback now meminfo d :
  no_fatal (MemuseCallback now meminfo d).
Proof.
  unfold MemuseCallback.
  apply no_fatal_bind; [done |]. intros final d1.
  destruct (0 <? Qceiling (final - now)); [done |].
  apply no_fatal_bind.
  { unfold MemuseCallbackWork. destruct meminfo; [| done].
    apply no_fatal_ProcessMemuse. }
  intros ok d2. apply no_fatal_bind; [done |]. intros index d3.
  destruct (ok && (index <? Z.of_nat (length kMemuseIntervals))); [| done].
  destruct (kMemuseIntervals !! Z.to_nat index); [| done].
  apply no_fatal_bind; [done |]. intros _ d4.
  apply no_fatal_bind; [done | done].
Qed.

Lemma no_fatal_MeminfoCallback meminfo wait d :
  no_fatal (MeminfoCallback meminfo wait d).
Proof.
  unfold MeminfoCallback. destruct meminfo; [| done].
  apply no_fatal_bind; [apply no_fatal_ProcessMeminfo |].
  by intros [|] d1.
Qed.

Lemma no_fatal_SendCpuThrottleMetrics cpuinfo_max_freq scaling_max_freq d :
  no_fatal (SendCpuThrottleMetrics cpuinfo_max_freq scaling_max_freq d).
Proof.
  unfold SendCpuThrottleMetrics.
  destruct (max_freq d =? -1); [done |].
  set (init := if (max_freq d =? 0) || testing_ d then _ else _).
  clearbody init. destruct init as [d1 | d1]; [done |].
  destruct (ReadFreqToInt scaling_max_freq) as [scaled_freq |]; [| done].
  apply no_fatal_bind; [| intros percent d2; done].
  destruct (max_freq d1 <? scaled_freq); [done |].
  apply no_fatal_pure_outcome, no_fatal_obind_int_div.
Qed.

(** C9.  The four call sites of [SendLinearSample] pass 100 with 101
    buckets (the percentages of the meminfo fields, of the swap use and of
    the anonymous memory) or 101 with 102 buckets (the CPU frequency): the
    scale check passes at each of them and the sample is sent, so no handler
    that sends linear samples ends in the fatal log, whatever its input;
    with any other number of buckets the check is fatal. *)
Theorem SendLinearSample_check_unreachable :
  (forall n v d,
     SendLinearSample n v 100 101 d =
       Done (tt, with_metrics_lib
                   (metrics_lib_ d ++ [SendEnumToUMA n v 100]) d) /\
     SendLinearSample n v 101 102 d =
       Done (tt, with_metrics_lib
                   (metrics_lib_ d ++ [SendEnumToUMA n v 101]) d)) /\
  (forall n v max nbuckets d,
     nbuckets <> to_int32 (max + 1) ->
     SendLinearSample n v max nbuckets d = Aborted LogFatal) /\
  (forall meminfo_raw d, ProcessMeminfo meminfo_raw d <> Aborted LogFatal) /\
  (forall meminfo_raw d, ProcessMemuse meminfo_raw d <> Aborted LogFatal) /\
  (forall meminfo wait d,
     MeminfoCallback meminfo wait d <> Aborted LogFatal) /\
  (forall now meminfo d, MemuseCallback now meminfo d <> Aborted LogFatal) /\
  (forall cpuinfo_max_freq scaling_max_freq d,
     SendCpuThrottleMetrics cpuinfo_max_freq scaling_max_freq d
       <> Aborted LogFatal).
Proof.
  split; [| split; [| split; [| split; [| split; [| split]]]]].
  - intros n v d. split; reflexivity.
  - intros n v max nbuckets d H. unfold SendLinearSample.
    by destruct (Z.eqb_spec nbuckets (to_int32 (max + 1))).
  - apply no_fatal_ProcessMeminfo.
  - apply no_fatal_ProcessMemuse.
  - apply no_fatal_MeminfoCallback.
  - apply no_fatal_MemuseCallback.
  - apply no_fatal_SendCpuThrottleMetrics.
Qed.

(** ** Zram *)

(** The original size with the zero-filled pages added back. *)
Definition corrected_orig_data_size (orig_data_size zero_pages : Z) : Z :=
  to_uint64 (orig_data_size + to_uint64 (zero_pages * 4096)).

(** What [ReportZram] sends, from the compressed size, the corrected
    original size and the number of zero pages. *)
Definition zram_samples (compr orig zero_pages : Z) : list Sample :=
  [ SendToUMA "Platform.ZramCompressedSize"
      (to_int32 (Z.shiftr compr 20)) 100 4000 50;
    SendToUMA "Platform.ZramSavings"
      (to_int32 (Z.shiftr (to_uint64 (orig - compr)) 20)) 100 4000 50 ]
  ++ (if 1 <=? to_int32 (Z.shiftr compr 20) then
        [ SendToUMA "Platform.ZramCompressionRatioPercent"
            (to_int32 (to_uint64 (orig * 100) / compr)) 100 600 50 ]
      else [])
  ++ [ SendToUMA "Platform.ZramZeroPages" (to_int32 zero_pages) 256 262144 50;
       SendToUMA "Platform.ZramZeroRatioPercent"
         (to_int32 (to_uint64 (to_uint64 (zero_pages * 4096) * 100) / orig))
         1 50 50 ].

Lemma compr_data_size_mb_guard compr :
  1 <= to_int32 (Z.shiftr compr 20) -> compr <> 0.
Proof. intros H ->. vm_compute in H. by apply H. Qed.

Lemma ReportZram_read fc fo fz compr orig zero_pages d :
  ReadFileToUint64 fc = Some compr ->
  ReadFileToUint64 fo = Some orig ->
  ReadFileToUint64 fz = Some zero_pages ->
  ReportZram fc fo fz d =
  if corrected_orig_data_size orig zero_pages =? 0
  then Aborted DivisionByZero
  else Done (true,
             with_metrics_lib
               (metrics_lib_ d
                ++ zram_samples compr
                     (corrected_orig_data_size orig zero_pages) zero_pages) d).
Proof.
  intros Hc Ho Hz. unfold ReportZram; cbv zeta. rewrite Hc, Ho, Hz.
  fold (corrected_orig_data_size orig zero_pages).
  set (corrected := corrected_orig_data_size orig zero_pages).
  unfold bind at 1, pure_outcome, uint64_div at 1.
  destruct (corrected =? 0); cbn [obind]; [reflexivity |].
  unfold zram_samples, bind, lift, ret, SendSample; cbn [obind].
  cbn [metrics_lib_ with_metrics_lib]. rewrite !to_int32_idem.
  destruct (Z.leb_spec 1 (to_int32 (Z.shiftr compr 20))) as [Hg | Hg].
  - unfold pure_outcome, uint64_div.
    destruct (Z.eqb_spec compr 0) as [E | _];
      [by apply compr_data_size_mb_guard in Hg |].
    cbn [obind metrics_lib_ with_metrics_lib].
    rewrite <- !app_assoc. reflexivity.
  - cbn [obind metrics_lib_ with_metrics_lib].
    rewrite <- !app_assoc. reflexivity.
Qed.

(** The content of a sysfs file holding a number. *)
Definition sysfs_file (n : Z) : File := Some (decimal n ++ LF)%string.

(** C8 (code defect).  With the three values read and a corrected original
    size (original + zero_pages * 4096, in 64 bits) other than 0,
    [ReportZram] sends the compressed size >> 20 and (corrected -
    compressed) >> 20 (100 to 4000, 50 buckets), then corrected * 100 /
    compressed (100 to 600) only when the compressed size in MiB is at least
    1, then the number of zero pages (256 to 262144) and the percentage of
    zero pages (1 to 50).  For 1048576, 4194304 and 256 the corrected size
    is 5242880 and the samples are 1, 4, 500, 256 and 20.  But when all
    three files hold 0 (a zram device that holds no data), the corrected
    size is 0 and the report divides by it before sending anything. *)
Theorem ReportZram_samples :
  (forall fc fo fz compr orig zero_pages d,
     ReadFileToUint64 fc = Some compr ->
     ReadFileToUint64 fo = Some orig ->
     ReadFileToUint64 fz = Some zero_pages ->
     corrected_orig_data_size orig zero_pages <> 0 ->
     sends (ReportZram fc fo fz) d =
     Done (true,
           zram_samples compr (corrected_orig_data_size orig zero_pages)
             zero_pages)) /\
  corrected_orig_data_size 4194304 256 = 5242880 /\
  sends (ReportZram (sysfs_file 1048576) (sysfs_file 4194304) (sysfs_file 256))
        (new_MetricsDaemon false ∅ ∅) =
    Done (true,
          [ SendToUMA "Platform.ZramCompressedSize" 1 100 4000 50;
            SendToUMA "Platform.ZramSavings" 4 100 4000 50;
            SendToUMA "Platform.ZramCompressionRatioPercent" 500 100 600 50;
            SendToUMA "Platform.ZramZeroPages" 256 256 262144 50;
            SendToUMA "Platform.ZramZeroRatioPercent" 20 1 50 50 ]) /\
  ReportZram (sysfs_file 0) (sysfs_file 0) (sysfs_file 0)
    (new_MetricsDaemon false ∅ ∅) = Aborted DivisionByZero.
Proof.
  split; [| split; [| split]].
  - intros fc fo fz compr orig zero_pages d Hc Ho Hz Hne.
    unfold sends. rewrite (ReportZram_read _ _ _ _ _ _ _ Hc Ho Hz).
    destruct (Z.eqb_spec (corrected_orig_data_size orig zero_pages) 0);
      [contradiction |].
    cbn [obind]. f_equal. f_equal. by apply sent_app.
  - vm_compute. reflexivity.
  - vm_compute. reflexivity.
  - vm_compute. reflexivity.
Qed.

(** C10.  With the three values read: when the corrected original size is
    positive [ReportZram] returns normally, and when it is 0 the division
    of the zero-page ratio, which nothing guards, is a division by zero;
    the division of the compression ratio is made only when the compressed
    size in MiB is at least 1, and the compressed size is then not 0. *)
Theorem ReportZram_divisions :
  forall fc fo fz compr orig zero_pages d,
    ReadFileToUint64 fc = Some compr ->
    ReadFileToUint64 fo = Some orig ->
    ReadFileToUint64 fz = Some zero_pages ->
    let corrected := corrected_orig_data_size orig zero_pages in
    (0 < corrected ->
     exists d', ReportZram fc fo fz d = Done (true, d')) /\
    (corrected = 0 -> ReportZram fc fo fz d = Aborted DivisionByZero) /\
    (0 < corrected \/ corrected = 0) /\
    (1 <= to_int32 (Z.shiftr compr 20) ->
     uint64_div (to_uint64 (corrected * 100)) compr =
       Done (to_uint64 (corrected * 100) / compr)) /\
    (uint64_div (to_uint64 (to_uint64 (zero_pages * 4096) * 100)) corrected
       = Aborted DivisionByZero <-> corrected = 0).
Proof.
  intros fc fo fz compr orig zero_pages d Hc Ho Hz. cbv zeta.
  rewrite (ReportZram_read _ _ _ _ _ _ _ Hc Ho Hz).
  pose proof (to_uint64_range (orig + to_uint64 (zero_pages * 4096))) as Hr.
  fold (corrected_orig_data_size orig zero_pages) in Hr.
  set (corrected := corrected_orig_data_size orig zero_pages) in *.
  split; [| split; [| split; [| split]]].
  - intros Hpos. destruct (Z.eqb_spec corrected 0); [lia | eauto].
  - intros ->. reflexivity.
  - lia.
  - intros Hg. unfold uint64_div.
    destruct (Z.eqb_spec compr 0); [by apply compr_data_size_mb_guard in Hg |].
    reflexivity.
  - unfold uint64_div. destruct (Z.eqb_spec corrected 0); split; done.
Qed.

Lemma ReportZram_divisions_witness :
  exists d',
    ReportZram (sysfs_file 1048576) (sysfs_file 4194304) (sysfs_file 256)
      (new_MetricsDaemon false ∅ ∅) = Done (true, d').
Proof.
  apply (proj1 (ReportZram_divisions
                  (sysfs_file 1048576) (sysfs_file 4194304) (sysfs_file 256)
                  1048576 4194304 256 (new_MetricsDaemon false ∅ ∅)
                  eq_refl eq_refl eq_refl)).
  reflexivity.
Defined.

(** * Further properties *)

(** ** Startup, again *)

Lemma CheckSystemCrash_absent f d :
  f ∉ var_run d -> CheckSystemCrash f d = (false, d).
Proof.
  intros H. unfold CheckSystemCrash. by rewrite bool_decide_eq_false_2.
Qed.

Lemma Run_boot_markers_absent r1 r2 d :
  kKernelCrashDetectedFile ∉ var_run d ->
  kUncleanShutdownDetectedFile ∉ var_run d ->
  Run_boot_markers r1 r2 d = d.
Proof.
  intros H1 H2. unfold Run_boot_markers.
  rewrite (CheckSystemCrash_absent _ _ H1), (CheckSystemCrash_absent _ _ H2).
  reflexivity.
Qed.

Lemma CheckVersionChange_again h d :
  CheckVersionChange h (CheckVersionChange h d) = CheckVersionChange h d.
Proof.
  destruct (CheckVersionChange_effect h d) as (Hne & Heq & Hw).
  cbv zeta in Hne, Heq, Hw.
  unfold CheckVersionChange at 1.
  set (d' := CheckVersionChange h d) in *.
  assert (Hh : GetOsVersionHash h d' = GetOsVersionHash h d)
    by (rewrite Hw; reflexivity).
  rewrite Hh.
  set (version := to_int32 (GetOsVersionHash h d)) in *.
  assert (Hv : Get version_cycle_ d' = version).
  { destruct (Z.eq_dec version (Get version_cycle_ d)) as [E | E].
    - rewrite (Heq E). by symmetry.
    - by destruct (Hne E). }
  rewrite Hv, Z.eqb_refl. reflexivity.
Qed.

Lemma var_run_CheckVersionChange h d :
  var_run (CheckVersionChange h d) = var_run d.
Proof.
  destruct (CheckVersionChange_effect h d) as (_ & _ & Hw).
  cbv zeta in Hw. rewrite Hw. reflexivity.
Qed.

Lemma Run_markers_gone r1 r2 h d :
  (kKernelCrashDetectedFile ∉ var_run (Run r1 r2 h d)) /\
  (kUncleanShutdownDetectedFile ∉ var_run (Run r1 r2 h d)).
Proof.
  rewrite Run_boot_markers_then_version, var_run_CheckVersionChange.
  destruct (Run_boot_markers_facts r1 r2 d) as (_ & _ & _ & ->).
  rewrite !elem_of_difference, !elem_of_singleton. split.
  - intros [[_ Hx] _]. by apply Hx.
  - intros [_ Hx]. by apply Hx.
Qed.

(** X1.  A start of the daemon consumes the boot markers: whatever the
    first start found, a second start does no crash accounting at all; it
    only makes the version check, and with the same version hash it leaves
    the daemon exactly as the first start left it (no counter changes, no
    sample is sent). *)
Theorem Run_again_accounts_nothing :
  forall r1 r2 r3 r4 h h' d,
    Run r3 r4 h' (Run r1 r2 h d) = CheckVersionChange h' (Run r1 r2 h d) /\
    Run r3 r4 h (Run r1 r2 h d) = Run r1 r2 h d.
Proof.
  intros r1 r2 r3 r4 h h' d.
  destruct (Run_markers_gone r1 r2 h d) as [H1 H2].
  assert (Hrun : forall h2, Run r3 r4 h2 (Run r1 r2 h d)
                            = CheckVersionChange h2 (Run r1 r2 h d)).
  { intros h2. rewrite (Run_boot_markers_then_version r3 r4).
    by rewrite (Run_boot_markers_absent _ _ _ H1 H2). }
  split; [apply Hrun |].
  rewrite Hrun. rewrite (Run_boot_markers_then_version r1 r2).
  apply CheckVersionChange_again.
Qed.

(** ** What the counter operations leave alone *)

(** [d'] differs from [d] at most in the persistent integers and in the
    samples sent. *)
Definition counters_and_samples_only (d d' : MetricsDaemon) : Prop :=
  d' = with_metrics_lib (metrics_lib_ d')
         (with_backing_files (backing_files d') d).

Lemma counters_and_samples_only_refl d : counters_and_samples_only d d.
Proof. unfold counters_and_samples_only. by destruct d. Qed.

Lemma counters_and_samples_only_trans d1 d2 d3 :
  counters_and_samples_only d1 d2 -> counters_and_samples_only d2 d3 ->
  counters_and_samples_only d1 d3.
Proof.
  unfold counters_and_samples_only. intros H2 H3.
  rewrite H3. rewrite H2. reflexivity.
Qed.

Lemma counters_and_samples_only_Set_ p v d :
  counters_and_samples_only d (Set_ p v d).
Proof. reflexivity. Qed.

Lemma counters_and_samples_only_Add p x d :
  counters_and_samples_only d (Add p x d).
Proof. reflexivity. Qed.

Lemma counters_and_samples_only_SendSample n v lo hi nb d :
  counters_and_samples_only d (SendSample n v lo hi nb d).
Proof. reflexivity. Qed.

Lemma counters_and_samples_only_SendAndResetDailyUseSample p d :
  counters_and_samples_only d (SendAndResetDailyUseSample p d).
Proof. reflexivity. Qed.

Lemma counters_and_samples_only_SendAndResetCrashIntervalSample p d :
  counters_and_samples_only d (SendAndResetCrashIntervalSample p d).
Proof. reflexivity. Qed.

Lemma counters_and_samples_only_SendAndResetCrashFrequencySample p d :
  counters_and_samples_only d (SendAndResetCrashFrequencySample p d).
Proof. reflexivity. Qed.

Lemma SendKernelCrashesCumulativeCountStats_sends d :
  SendKernelCrashesCumulativeCountStats d =
  with_metrics_lib (metrics_lib_ d ++ cumulative_samples d) d.
Proof.
  unfold SendKernelCrashesCumulativeCountStats, cumulative_samples; cbv zeta.
  rewrite !Get_SendSample.
  destruct (0 <? Get version_cumulative_cpu_use_ d);
    rewrite ?Get_SendSample;
    destruct (0 <? Get version_cumulative_active_use_ d);
    unfold SendSample; cbn [metrics_lib_ with_metrics_lib app];
    rewrite <- ?app_assoc; cbn [app]; try reflexivity.
Qed.

Lemma counters_and_samples_only_SendKernelCrashesCumulativeCountStats d :
  counters_and_samples_only d (SendKernelCrashesCumulativeCountStats d).
Proof. rewrite SendKernelCrashesCumulativeCountStats_sends. reflexivity. Qed.

Create HintDb frame.
#[local] Hint Resolve counters_and_samples_only_refl
  counters_and_samples_only_Set_ counters_and_samples_only_Add
  counters_and_samples_only_SendSample
  counters_and_samples_only_SendAndResetDailyUseSample
  counters_and_samples_only_SendAndResetCrashIntervalSample
  counters_and_samples_only_SendAndResetCrashFrequencySample
  counters_and_samples_only_SendKernelCrashesCumulativeCountStats : frame.

Ltac frame_step :=
  lazymatch goal with
  | |- counters_and_samples_only ?d ?d => apply counters_and_samples_only_refl
  | |- counters_and_samples_only ?d (?f _ _ ?d') =>
      apply (counters_and_samples_only_trans d d');
      [| solve [auto with frame]]
  | |- counters_and_samples_only ?d (?f _ ?d') =>
      apply (counters_and_samples_only_trans d d');
      [| solve [auto with frame]]
  | |- counters_and_samples_only ?d (?f ?d') =>
      apply (counters_and_samples_only_trans d d');
      [| solve [auto with frame]]
  end.

Lemma counters_and_samples_only_UpdateStats_daily day d :
  counters_and_samples_only d (UpdateStats_daily day d).
Proof. unfold UpdateStats_daily. repeat frame_step. Qed.

Lemma counters_and_samples_only_UpdateStats_weekly week d :
  counters_and_samples_only d (UpdateStats_weekly week d).
Proof. unfold UpdateStats_weekly. repeat frame_step. Qed.

(** After its first part, [UpdateStats] touches counters and samples
    only. *)
Lemma counters_and_samples_only_UpdateStats now_ticks now_wall_time cpu_use d :
  counters_and_samples_only (UpdateStats_add now_ticks cpu_use d)
    (UpdateStats now_ticks now_wall_time cpu_use d).
Proof.
  rewrite UpdateStats_blocks; cbv zeta.
  set (d1 := UpdateStats_add now_ticks cpu_use d). clearbody d1.
  assert (H2 : counters_and_samples_only d1
                 (if negb (Get daily_cycle_ d1 =? day_of now_wall_time)
                  then UpdateStats_daily (day_of now_wall_time) d1 else d1)).
  { destruct (negb _); [| apply counters_and_samples_only_refl].
    apply counters_and_samples_only_UpdateStats_daily. }
  set (d2 := if negb (Get daily_cycle_ d1 =? day_of now_wall_time)
             then UpdateStats_daily (day_of now_wall_time) d1 else d1) in *.
  clearbody d2.
  destruct (negb _); [| exact H2].
  eapply counters_and_samples_only_trans;
    [exact H2 | apply counters_and_samples_only_UpdateStats_weekly].
Qed.

Lemma UpdateStats_clock now_ticks now_wall_time cpu_use d :
  last_update_stats_time_ (UpdateStats now_ticks now_wall_time cpu_use d)
    = now_ticks /\
  latest_cpu_use_microseconds_
    (UpdateStats now_ticks now_wall_time cpu_use d) = cpu_use.
Proof.
  pose proof (counters_and_samples_only_UpdateStats
                now_ticks now_wall_time cpu_use d) as H.
  unfold counters_and_samples_only in H. rewrite H. split; reflexivity.
Qed.

(** ** UpdateStats: whole seconds *)

Lemma elapsed_seconds_floor now_ticks d :
  0 <= now_ticks - last_update_stats_time_ d < 2 ^ 31 * 1000000 ->
  elapsed_seconds now_ticks d
  = (now_ticks - last_update_stats_time_ d) / 1000000.
Proof.
  intros H. unfold elapsed_seconds, InSeconds, TimeDelta_sub,
    kMicrosecondsPerSecond.
  rewrite to_int64_small by lia.
  rewrite Z.quot_div_nonneg by lia.
  apply to_int32_small.
  pose proof (Z.div_pos (now_ticks - last_update_stats_time_ d) 1000000
                ltac:(lia) ltac:(lia)).
  assert ((now_ticks - last_update_stats_time_ d) / 1000000 < 2 ^ 31)
    by (apply Z.div_lt_upper_bound; lia).
  lia.
Qed.

(** The counters that [UpdateStats] adds the elapsed seconds to and never
    flushes. *)
Definition accumulating : list PersistentInteger :=
  [version_cumulative_active_use_; user_crash_interval_; kernel_crash_interval_].

Lemma Get_accumulating p now_ticks now_wall_time cpu_use d :
  In p accumulating ->
  Get p (UpdateStats now_ticks now_wall_time cpu_use d)
  = to_int64 (Get p d + elapsed_seconds now_ticks d).
Proof.
  intros [<- | [<- | [<- | []]]];
    rewrite Get_UpdateStats_unflushed by reflexivity;
    rewrite Get_UpdateStats_add; read_counter; reflexivity.
Qed.

(** X2.  [UpdateStats] counts whole seconds and restarts from the time of
    the call: the fraction of a second left over at each call is lost.  For
    each of the counters of cumulative active use, of the user-crash
    interval and of the kernel-crash interval, and for calls at [t1] and
    then at [t2] after the previous update: the first call adds to the
    counter the floor of the seconds elapsed, a second call at the same time
    would leave the counter as it is, the call at [t2] adds the floor of the
    seconds since [t1], and after the two calls the counter holds what a
    single call at [t2] would have left in it, or one second less. *)
Theorem UpdateStats_elapsed_composes :
  forall p d t1 w1 c1 t2 w2 c2,
    In p accumulating ->
    last_update_stats_time_ d <= t1 <= t2 ->
    t2 - last_update_stats_time_ d < 2 ^ 31 * 1000000 ->
    0 <= Get p d < 2 ^ 62 ->
    let d1 := UpdateStats t1 w1 c1 d in
    let d12 := UpdateStats t2 w2 c2 d1 in
    let d2 := UpdateStats t2 w2 c2 d in
    Get p d1 = Get p d + (t1 - last_update_stats_time_ d) / 1000000 /\
    Get p (UpdateStats t1 w2 c2 d1) = Get p d1 /\
    Get p d12 = Get p d1 + (t2 - t1) / 1000000 /\
    Get p d2 = Get p d + (t2 - last_update_stats_time_ d) / 1000000 /\
    Get p d12 <= Get p d2 <= Get p d12 + 1.
Proof.
  intros p d t1 w1 c1 t2 w2 c2 Hp H1 H2 Hg. cbv zeta.
  destruct (UpdateStats_clock t1 w1 c1 d) as [Hlast _].
  rewrite !(Get_accumulating p) by exact Hp.
  rewrite (elapsed_seconds_floor t1 d) by lia.
  rewrite (elapsed_seconds_floor t2 d) by lia.
  rewrite (elapsed_seconds_floor t1 (UpdateStats t1 w1 c1 d))
    by (rewrite Hlast; lia).
  rewrite (elapsed_seconds_floor t2 (UpdateStats t1 w1 c1 d))
    by (rewrite Hlast; lia).
  rewrite Hlast, Z.sub_diag.
  set (t0 := last_update_stats_time_ d) in *.
  set (g := Get p d) in *.
  change (0 / 1000000) with 0.
  assert (He1 : 0 <= (t1 - t0) / 1000000 < 2 ^ 31).
  { split; [apply Z.div_pos; lia | apply Z.div_lt_upper_bound; lia]. }
  assert (He2 : 0 <= (t2 - t0) / 1000000 < 2 ^ 31).
  { split; [apply Z.div_pos; lia | apply Z.div_lt_upper_bound; lia]. }
  assert (He3 : 0 <= (t2 - t1) / 1000000 < 2 ^ 31).
  { split; [apply Z.div_pos; lia | apply Z.div_lt_upper_bound; lia]. }
  rewrite (to_int64_small (g + (t1 - t0) / 1000000)) by lia.
  rewrite (to_int64_small (g + (t2 - t0) / 1000000)) by lia.
  rewrite (to_int64_small (g + (t1 - t0) / 1000000 + 0)) by lia.
  rewrite (to_int64_small (g + (t1 - t0) / 1000000 + (t2 - t1) / 1000000))
    by lia.
  repeat split; try lia.
  - Z.to_euclidean_division_equations. lia.
  - Z.to_euclidean_division_equations. lia.
Qed.

Lemma UpdateStats_elapsed_composes_witness :
  let p := user_crash_interval_ in
  let d := new_MetricsDaemon false ∅ ∅ in
  let d1 := UpdateStats 900000 0 0 d in
  let d12 := UpdateStats 1800000 0 0 d1 in
  let d2 := UpdateStats 1800000 0 0 d in
  Get p d1 = Get p d + (900000 - last_update_stats_time_ d) / 1000000 /\
  Get p (UpdateStats 900000 0 0 d1) = Get p d1 /\
  Get p d12 = Get p d1 + (1800000 - 900000) / 1000000 /\
  Get p d2 = Get p d + (1800000 - last_update_stats_time_ d) / 1000000 /\
  Get p d12 <= Get p d2 <= Get p d12 + 1.
Proof.
  apply (UpdateStats_elapsed_composes user_crash_interval_
           (new_MetricsDaemon false ∅ ∅) 900000 0 0 1800000 0 0).
  - right. left. reflexivity.
  - simpl. lia.
  - simpl. lia.
  - vm_compute. split; [discriminate | reflexivity].
Defined.

(** ** The cycle markers agree *)

Definition cycles_consistent (d : MetricsDaemon) : Prop :=
  Get weekly_cycle_ d = Z.quot (Get daily_cycle_ d) 7.

Lemma cycles_consistent_UpdateStats now_ticks now_wall_time cpu_use d :
  cycles_consistent (UpdateStats now_ticks now_wall_time cpu_use d).
Proof.
  unfold cycles_consistent.
  by rewrite Get_weekly_cycle_UpdateStats, Get_daily_cycle_UpdateStats.
Qed.

Lemma Get_ProcessUserCrash p r d :
  Get p (ProcessUserCrash r d) =
  Get p (Add user_crashes_weekly_count_ 1
          (Add user_crashes_daily_count_ 1
            (Add any_crashes_weekly_count_ 1
              (Add any_crashes_daily_count_ 1
                (SendAndResetCrashIntervalSample user_crash_interval_
                  (UpdateStats (ticks_now r) (wall_now r)
                     (cumulative_cpu_use r) d)))))).
Proof. reflexivity. Qed.

Lemma cycles_ProcessKernelCrash r d :
  Get daily_cycle_ (ProcessKernelCrash r d) = day_of (wall_now r) /\
  Get weekly_cycle_ (ProcessKernelCrash r d) = week_of (wall_now r).
Proof.
  rewrite !Get_ProcessKernelCrash. read_counter.
  by rewrite Get_daily_cycle_UpdateStats, Get_weekly_cycle_UpdateStats.
Qed.

Lemma cycles_ProcessUserCrash r d :
  Get daily_cycle_ (ProcessUserCrash r d) = day_of (wall_now r) /\
  Get weekly_cycle_ (ProcessUserCrash r d) = week_of (wall_now r).
Proof.
  rewrite !Get_ProcessUserCrash. read_counter.
  by rewrite Get_daily_cycle_UpdateStats, Get_weekly_cycle_UpdateStats.
Qed.

Lemma cycles_ProcessUncleanShutdown r d :
  Get daily_cycle_ (ProcessUncleanShutdown r d) = day_of (wall_now r) /\
  Get weekly_cycle_ (ProcessUncleanShutdown r d) = week_of (wall_now r).
Proof.
  rewrite !Get_ProcessUncleanShutdown. read_counter.
  by rewrite Get_daily_cycle_UpdateStats, Get_weekly_cycle_UpdateStats.
Qed.

Lemma cycles_CheckVersionChange h d :
  Get daily_cycle_ (CheckVersionChange h d) = Get daily_cycle_ d /\
  Get weekly_cycle_ (CheckVersionChange h d) = Get weekly_cycle_ d.
Proof.
  unfold CheckVersionChange. destruct (negb _); [| done].
  read_counter. done.
Qed.

Lemma cycles_consistent_Run_boot_markers r1 r2 d :
  cycles_consistent d -> cycles_consistent (Run_boot_markers r1 r2 d).
Proof.
  unfold cycles_consistent, Run_boot_markers. intros H.
  pose proof (Get_CheckSystemCrash daily_cycle_ kKernelCrashDetectedFile d)
    as Hd1.
  pose proof (Get_CheckSystemCrash weekly_cycle_ kKernelCrashDetectedFile d)
    as Hw1.
  destruct (CheckSystemCrash kKernelCrashDetectedFile d) as [crashed d1].
  cbn [snd] in Hd1, Hw1.
  assert (H2 : Get weekly_cycle_
                 (if crashed then ProcessKernelCrash r1 d1 else d1)
               = Z.quot (Get daily_cycle_
                           (if crashed then ProcessKernelCrash r1 d1 else d1))
                   7).
  { destruct crashed.
    - destruct (cycles_ProcessKernelCrash r1 d1) as [-> ->]. reflexivity.
    - by rewrite Hd1, Hw1. }
  set (d2 := if crashed then ProcessKernelCrash r1 d1 else d1) in *.
  clearbody d2.
  pose proof (Get_CheckSystemCrash daily_cycle_
                kUncleanShutdownDetectedFile d2) as Hd3.
  pose proof (Get_CheckSystemCrash weekly_cycle_
                kUncleanShutdownDetectedFile d2) as Hw3.
  destruct (CheckSystemCrash kUncleanShutdownDetectedFile d2) as [unclean d3].
  cbn [snd] in Hd3, Hw3.
  destruct unclean.
  - destruct (cycles_ProcessUncleanShutdown r2 d3) as [-> ->]. reflexivity.
  - by rewrite Hd3, Hw3.
Qed.

(** X3.  The two cycle markers agree: after any call of [UpdateStats], and
    so after any crash handler, weekly.cycle is daily.cycle divided by 7;
    the version check and the whole of [Run] keep it so when it holds at the
    start, as it does for a daemon with no counter on disk. *)
Theorem cycle_markers_consistent :
  (forall now_ticks now_wall_time cpu_use d,
     cycles_consistent (UpdateStats now_ticks now_wall_time cpu_use d)) /\
  (forall r d,
     cycles_consistent (ProcessUserCrash r d) /\
     cycles_consistent (ProcessKernelCrash r d) /\
     cycles_consistent (ProcessUncleanShutdown r d)) /\
  (forall h d,
     cycles_consistent d -> cycles_consistent (CheckVersionChange h d)) /\
  (forall r1 r2 h d,
     cycles_consistent d -> cycles_consistent (Run r1 r2 h d)) /\
  (forall testing markers,
     cycles_consistent (new_MetricsDaemon testing ∅ markers)).
Proof.
  assert (Hv : forall h d,
     cycles_consistent d -> cycles_consistent (CheckVersionChange h d)).
  { intros h d H. unfold cycles_consistent in *.
    destruct (cycles_CheckVersionChange h d) as [-> ->]. exact H. }
  split; [apply cycles_consistent_UpdateStats |].
  split; [| split; [exact Hv | split]].
  - intros r d. unfold cycles_consistent.
    destruct (cycles_ProcessUserCrash r d) as [-> ->].
    destruct (cycles_ProcessKernelCrash r d) as [-> ->].
    destruct (cycles_ProcessUncleanShutdown r d) as [-> ->].
    done.
  - intros r1 r2 h d H. rewrite Run_boot_markers_then_version.
    by apply Hv, cycles_consistent_Run_boot_markers.
  - intros testing markers. reflexivity.
Qed.

(** ** The cumulative report *)

(** X4.  [SendKernelCrashesCumulativeCountStats] reports and clears
    nothing: the persistent integers are as before and only samples are
    added.  It always sends the kernel crashes since the version change and
    the cumulative CPU time in seconds; it sends the crashes per CPU year
    only when the CPU time is positive, and the cumulative active time with
    the crashes per active year only when the active time is positive, so
    that between two and five samples are sent and no rate is computed over
    a zero denominator.  With a non-negative count below 2^31 the rate per
    active year is crashes * 31536000 / seconds, cut to an [int]. *)
Theorem SendKernelCrashesCumulativeCountStats_reports_only :
  forall d,
    let d' := SendKernelCrashesCumulativeCountStats d in
    let crashes := Get kernel_crashes_version_count_ d in
    let cpu_ms := Get version_cumulative_cpu_use_ d in
    let active := Get version_cumulative_active_use_ d in
    backing_files d' = backing_files d /\
    counters_and_samples_only d d' /\
    take 2 (sent d d') =
      [ SendToUMA "Platform.KernelCrashesSinceUpdate" (to_int32 crashes)
          1 500 100;
        SendToUMA "Platform.CumulativeCpuTime"
          (to_int32 (Z.quot cpu_ms 1000)) 1 8000000 100 ] /\
    count_named "Logging.KernelCrashesPerCpuYear" (sent d d')
      = (if 0 <? cpu_ms then 1%nat else 0%nat) /\
    count_named "Platform.CumulativeUseTime" (sent d d')
      = (if 0 <? active then 1%nat else 0%nat) /\
    count_named "Logging.KernelCrashesPerActiveYear" (sent d d')
      = (if 0 <? active then 1%nat else 0%nat) /\
    (2 <= length (sent d d') <= 5)%nat /\
    (0 < active -> 0 <= crashes < 2 ^ 31 ->
     (SendToUMA "Logging.KernelCrashesPerActiveYear"
        (to_int32 (crashes * 31536000 / active)) 1 1000000 100)
       ∈ sent d d').
Proof.
  intros d. cbv zeta.
  assert (Hs : sent d (SendKernelCrashesCumulativeCountStats d)
               = cumulative_samples d).
  { apply sent_app. by rewrite SendKernelCrashesCumulativeCountStats_sends. }
  rewrite Hs.
  split; [by rewrite SendKernelCrashesCumulativeCountStats_sends |].
  split; [apply counters_and_samples_only_SendKernelCrashesCumulativeCountStats |].
  unfold cumulative_samples; cbv zeta.
  split; [reflexivity |].
  split; [| split; [| split; [| split]]].
  - destruct (0 <? Get version_cumulative_cpu_use_ d);
      destruct (0 <? Get version_cumulative_active_use_ d); reflexivity.
  - destruct (0 <? Get version_cumulative_cpu_use_ d);
      destruct (0 <? Get version_cumulative_active_use_ d); reflexivity.
  - destruct (0 <? Get version_cumulative_cpu_use_ d);
      destruct (0 <? Get version_cumulative_active_use_ d); reflexivity.
  - destruct (0 <? Get version_cumulative_cpu_use_ d);
      destruct (0 <? Get version_cumulative_active_use_ d); simpl; lia.
  - intros Ha Hc.
    destruct (Z.ltb_spec 0 (Get version_cumulative_active_use_ d)); [| lia].
    rewrite !elem_of_app. right. right.
    apply list_elem_of_further, list_elem_of_singleton.
    unfold kSecondsPerDay, kSecondsPerMinute, kMinutesPerDay, kHoursPerDay,
      kMinutesPerHour.
    rewrite (to_int64_small (Get kernel_crashes_version_count_ d * _)) by lia.
    rewrite to_int64_small by lia.
    rewrite Z.quot_div_nonneg by lia.
    do 3 f_equal. lia.
Qed.

(** ** The crash handlers *)

(** The value of a daily or weekly counter once [UpdateStats] has run: as
    stored, or 0 when the call has flushed it. *)
Definition after_flush (cycle : PersistentInteger) (index : Z)
    (p : PersistentInteger) (d : MetricsDaemon) : Z :=
  if Get cycle d =? index then Get p d else 0.

Ltac get_after_update :=
  rewrite ?Get_UpdateStats; cbv zeta; eval_named_in;
  rewrite ?Get_UpdateStats_add; read_counter; unfold after_flush;
  repeat match goal with
         | |- context [if ?a =? ?b then _ else _] => destruct (a =? b)
         end;
  try reflexivity.

Lemma interval_after_update p r d :
  In p [kernel_crash_interval_; user_crash_interval_] ->
  Get p (UpdateStats (ticks_now r) (wall_now r) (cumulative_cpu_use r) d)
  = to_int64 (Get p d + elapsed_seconds (ticks_now r) d).
Proof.
  intros [<- | [<- | []]];
    rewrite Get_UpdateStats_unflushed by reflexivity;
    rewrite Get_UpdateStats_add; read_counter; reflexivity.
Qed.

Ltac sent_by_crash_handler :=
  apply sent_app; cbv zeta;
  rewrite !metrics_lib_Add, metrics_lib_SendAndResetCrashIntervalSample,
    metrics_lib_UpdateStats, <- app_assoc.

(** X5.  Each crash handler first brings the counters up to date
    ([UpdateStats], with the flushes it may make), then sends the interval
    of its own kind and resets it, and adds one to the daily and weekly
    count of any crash and of its own kind; the kernel handler also adds
    one to the count since the version change.  The counts of the other
    kinds are not changed.  A daily (weekly) count starts from 0 when the
    call has just flushed it.  The interval sent by the kernel and user
    handlers includes the seconds elapsed up to the crash; the one sent by
    the unclean-shutdown handler is the stored value alone. *)
Theorem crash_handlers_account :
  forall r d,
    let e := elapsed_seconds (ticks_now r) d in
    let update :=
      UpdateStats_samples (ticks_now r) (wall_now r) (cumulative_cpu_use r) d in
    let daily := after_flush daily_cycle_ (day_of (wall_now r)) in
    let weekly := after_flush weekly_cycle_ (week_of (wall_now r)) in
    (let d' := ProcessKernelCrash r d in
     sent d d' =
       update ++ [SendToUMA "Platform.KernelCrashInterval"
                    (to_int32 (to_int64 (Get kernel_crash_interval_ d + e)))
                    1 2419200 50] /\
     Get kernel_crash_interval_ d' = 0 /\
     Get any_crashes_daily_count_ d'
       = to_int64 (daily any_crashes_daily_count_ d + 1) /\
     Get any_crashes_weekly_count_ d'
       = to_int64 (weekly any_crashes_weekly_count_ d + 1) /\
     Get kernel_crashes_daily_count_ d'
       = to_int64 (daily kernel_crashes_daily_count_ d + 1) /\
     Get kernel_crashes_weekly_count_ d'
       = to_int64 (weekly kernel_crashes_weekly_count_ d + 1) /\
     Get kernel_crashes_version_count_ d'
       = to_int64 (Get kernel_crashes_version_count_ d + 1) /\
     Get user_crashes_daily_count_ d' = daily user_crashes_daily_count_ d /\
     Get user_crashes_weekly_count_ d' = weekly user_crashes_weekly_count_ d /\
     Get unclean_shutdowns_daily_count_ d'
       = daily unclean_shutdowns_daily_count_ d /\
     Get unclean_shutdowns_weekly_count_ d'
       = weekly unclean_shutdowns_weekly_count_ d) /\
    (let d' := ProcessUserCrash r d in
     sent d d' =
       update ++ [SendToUMA "Platform.UserCrashInterval"
                    (to_int32 (to_int64 (Get user_crash_interval_ d + e)))
                    1 2419200 50] /\
     Get user_crash_interval_ d' = 0 /\
     Get any_crashes_daily_count_ d'
       = to_int64 (daily any_crashes_daily_count_ d + 1) /\
     Get any_crashes_weekly_count_ d'
       = to_int64 (weekly any_crashes_weekly_count_ d + 1) /\
     Get user_crashes_daily_count_ d'
       = to_int64 (daily user_crashes_daily_count_ d + 1) /\
     Get user_crashes_weekly_count_ d'
       = to_int64 (weekly user_crashes_weekly_count_ d + 1) /\
     Get kernel_crashes_version_count_ d'
       = Get kernel_crashes_version_count_ d /\
     Get kernel_crashes_daily_count_ d'
       = daily kernel_crashes_daily_count_ d /\
     Get kernel_crashes_weekly_count_ d'
       = weekly kernel_crashes_weekly_count_ d /\
     Get unclean_shutdowns_daily_count_ d'
       = daily unclean_shutdowns_daily_count_ d /\
     Get unclean_shutdowns_weekly_count_ d'
       = weekly unclean_shutdowns_weekly_count_ d) /\
    (let d' := ProcessUncleanShutdown r d in
     sent d d' =
       update ++ [SendToUMA "Platform.UncleanShutdownInterval"
                    (to_int32 (Get unclean_shutdown_interval_ d))
                    1 2419200 50] /\
     Get unclean_shutdown_interval_ d' = 0 /\
     Get any_crashes_daily_count_ d'
       = to_int64 (daily any_crashes_daily_count_ d + 1) /\
     Get any_crashes_weekly_count_ d'
       = to_int64 (weekly any_crashes_weekly_count_ d + 1) /\
     Get unclean_shutdowns_daily_count_ d'
       = to_int64 (daily unclean_shutdowns_daily_count_ d + 1) /\
     Get unclean_shutdowns_weekly_count_ d'
       = to_int64 (weekly unclean_shutdowns_weekly_count_ d + 1) /\
     Get kernel_crashes_version_count_ d'
       = Get kernel_crashes_version_count_ d /\
     Get kernel_crashes_daily_count_ d'
       = daily kernel_crashes_daily_count_ d /\
     Get kernel_crashes_weekly_count_ d'
       = weekly kernel_crashes_weekly_count_ d /\
     Get user_crashes_daily_count_ d' = daily user_crashes_daily_count_ d /\
     Get user_crashes_weekly_count_ d' = weekly user_crashes_weekly_count_ d).
Proof.
  intros r d. cbv zeta. split; [| split].
  - split.
    { unfold ProcessKernelCrash. sent_by_crash_handler.
      rewrite interval_after_update by (simpl; auto). reflexivity. }
    rewrite !Get_ProcessKernelCrash. read_counter.
    repeat split; get_after_update.
  - split.
    { unfold ProcessUserCrash. sent_by_crash_handler.
      rewrite interval_after_update by (simpl; auto). reflexivity. }
    rewrite !Get_ProcessUserCrash. read_counter.
    repeat split; get_after_update.
  - split.
    { unfold ProcessUncleanShutdown. sent_by_crash_handler.
      rewrite (Get_UpdateStats_unflushed unclean_shutdown_interval_)
        by reflexivity.
      rewrite Get_UpdateStats_add. read_counter. reflexivity. }
    rewrite !Get_ProcessUncleanShutdown. read_counter.
    repeat split; get_after_update.
Qed.

(** ** Startup: the boot-marker passes, then the version check *)

(** What the kernel-crash pass and the unclean-shutdown pass send. *)
Definition kernel_pass_samples (r : Reading) (d : MetricsDaemon)
  : list Sample :=
  UpdateStats_samples (ticks_now r) (wall_now r) (cumulative_cpu_use r) d
  ++ [SendToUMA "Platform.KernelCrashInterval"
        (to_int32 (to_int64 (Get kernel_crash_interval_ d
                             + elapsed_seconds (ticks_now r) d)))
        1 2419200 50].

Definition unclean_pass_samples (r : Reading) (d : MetricsDaemon)
  : list Sample :=
  UpdateStats_samples (ticks_now r) (wall_now r) (cumulative_cpu_use r) d
  ++ [SendToUMA "Platform.UncleanShutdownInterval"
        (to_int32 (Get unclean_shutdown_interval_ d)) 1 2419200 50].

Lemma metrics_lib_kernel_pass r d :
  metrics_lib_ (ProcessKernelCrash r d) =
  metrics_lib_ d ++ kernel_pass_samples r d.
Proof.
  unfold ProcessKernelCrash, kernel_pass_samples; cbv zeta.
  rewrite !metrics_lib_Add, metrics_lib_SendAndResetCrashIntervalSample,
    metrics_lib_UpdateStats, <- app_assoc.
  rewrite interval_after_update by (simpl; auto). reflexivity.
Qed.

Lemma metrics_lib_unclean_pass r d :
  metrics_lib_ (ProcessUncleanShutdown r d) =
  metrics_lib_ d ++ unclean_pass_samples r d.
Proof.
  unfold ProcessUncleanShutdown, unclean_pass_samples; cbv zeta.
  rewrite !metrics_lib_Add, metrics_lib_SendAndResetCrashIntervalSample,
    metrics_lib_UpdateStats, <- app_assoc.
  rewrite (Get_UpdateStats_unflushed unclean_shutdown_interval_)
    by reflexivity.
  rewrite Get_UpdateStats_add. read_counter. reflexivity.
Qed.

Lemma kernel_pass_counters r d :
  let d' := ProcessKernelCrash r d in
  Get kernel_crash_interval_ d' = 0 /\
  Get any_crashes_daily_count_ d' =
    to_int64 (after_flush daily_cycle_ (day_of (wall_now r))
                any_crashes_daily_count_ d + 1) /\
  Get any_crashes_weekly_count_ d' =
    to_int64 (after_flush weekly_cycle_ (week_of (wall_now r))
                any_crashes_weekly_count_ d + 1) /\
  Get kernel_crashes_daily_count_ d' =
    to_int64 (after_flush daily_cycle_ (day_of (wall_now r))
                kernel_crashes_daily_count_ d + 1) /\
  Get kernel_crashes_weekly_count_ d' =
    to_int64 (after_flush weekly_cycle_ (week_of (wall_now r))
                kernel_crashes_weekly_count_ d + 1) /\
  Get kernel_crashes_version_count_ d' =
    to_int64 (Get kernel_crashes_version_count_ d + 1).
Proof.
  cbv zeta. rewrite !Get_ProcessKernelCrash. read_counter.
  repeat split; get_after_update.
Qed.

Lemma unclean_pass_counters r d :
  let d' := ProcessUncleanShutdown r d in
  Get unclean_shutdown_interval_ d' = 0 /\
  Get any_crashes_daily_count_ d' =
    to_int64 (after_flush daily_cycle_ (day_of (wall_now r))
                any_crashes_daily_count_ d + 1) /\
  Get any_crashes_weekly_count_ d' =
    to_int64 (after_flush weekly_cycle_ (week_of (wall_now r))
                any_crashes_weekly_count_ d + 1) /\
  Get unclean_shutdowns_daily_count_ d' =
    to_int64 (after_flush daily_cycle_ (day_of (wall_now r))
                unclean_shutdowns_daily_count_ d + 1) /\
  Get unclean_shutdowns_weekly_count_ d' =
    to_int64 (after_flush weekly_cycle_ (week_of (wall_now r))
                unclean_shutdowns_weekly_count_ d + 1).
Proof.
  cbv zeta. rewrite !Get_ProcessUncleanShutdown. read_counter.
  repeat split; get_after_update.
Qed.

Lemma Get_CheckVersionChange_other p h d :
  existsb (String.eqb (Name p)) (map Name version_counters) = false ->
  Get p (CheckVersionChange h d) = Get p d.
Proof.
  intros Hp. cbn [existsb map version_counters] in Hp.
  repeat (apply orb_false_elim in Hp; destruct Hp as [? Hp]).
  unfold CheckVersionChange; cbv zeta. destruct (negb _); [| reflexivity].
  rewrite !Get_Set_.
  repeat match goal with
         | H : String.eqb _ _ = false |- _ => rewrite H; clear H
         end.
  reflexivity.
Qed.

Lemma metrics_lib_CheckVersionChange h d :
  metrics_lib_ (CheckVersionChange h d) = metrics_lib_ d.
Proof.
  destruct (CheckVersionChange_effect h d) as (_ & _ & Hw).
  cbv zeta in Hw. rewrite Hw. reflexivity.
Qed.

(** [Run], up to the version check, in terms of the two passes. *)
Lemma Run_boot_markers_passes r1 r2 d :
  let d0 := with_var_run (var_run d ∖ {[ kKernelCrashDetectedFile ]}) d in
  let d1 :=
    if bool_decide (kKernelCrashDetectedFile ∈ var_run d)
    then ProcessKernelCrash r1 d0 else d in
  let d1' :=
    with_var_run (var_run d1 ∖ {[ kUncleanShutdownDetectedFile ]}) d1 in
  Run_boot_markers r1 r2 d =
    if bool_decide (kUncleanShutdownDetectedFile ∈ var_run d)
    then ProcessUncleanShutdown r2 d1' else d1.
Proof.
  cbv zeta. unfold Run_boot_markers, CheckSystemCrash.
  assert (Hu : forall s : gset string,
             bool_decide (kUncleanShutdownDetectedFile
                            ∈ s ∖ {[ kKernelCrashDetectedFile ]})
             = bool_decide (kUncleanShutdownDetectedFile ∈ s)).
  { intros s. apply bool_decide_ext.
    rewrite elem_of_difference, elem_of_singleton. split; [tauto |].
    intros H. split; [exact H | discriminate]. }
  destruct (bool_decide (kKernelCrashDetectedFile ∈ var_run d)).
  - destruct (same_world_ProcessKernelCrash r1
                (with_var_run (var_run d ∖ {[ kKernelCrashDetectedFile ]}) d))
      as [_ Hvr].
    set (d1 := ProcessKernelCrash r1 _) in *. clearbody d1.
    cbn [var_run with_var_run] in Hvr.
    rewrite <- (Hu (var_run d)), <- Hvr.
    by destruct (bool_decide (kUncleanShutdownDetectedFile ∈ var_run d1)).
  - by destruct (bool_decide (kUncleanShutdownDetectedFile ∈ var_run d)).
Qed.

(** A daemon that starts with both markers present and no counter on
    disk. *)
Definition crashed_unclean_daemon : MetricsDaemon :=
  new_MetricsDaemon false ∅
    {[ kKernelCrashDetectedFile; kUncleanShutdownDetectedFile ]}.

(** C3, amended.  [Run] first makes the two boot-marker checks, with the
    accounting pass of each marker found, and compares the version hash with
    version.cycle after them: [Run] is the kernel-crash pass if its marker
    is there, then the unclean-shutdown pass if its marker is there, each on
    the daemon with the marker deleted, then the version check.  What [Run]
    sends is what the passes that run send; each pass leaves its interval
    at 0 and one more crash, of any kind and of its own kind, in the daily
    and weekly counts, and the kernel-crash pass one more kernel crash since
    the version change.  After [Run] both markers are gone and version.cycle holds the
    hash; on a version change the version-scoped counters are 0 whatever the
    passes added to them, and with an unchanged version the kernel crash
    counted by the boot-marker pass is kept.  With both markers present, no
    counter on disk and a new version hash, [Run] sends the two intervals
    and ends with two crashes of the day, one of them an unclean shutdown,
    and no kernel crash since the version change. *)
Theorem Run_checks_version_after_boot_markers :
  forall (r1 r2 : Reading) (product_version_hash : Z) (d : MetricsDaemon),
    let version := to_int32 (GetOsVersionHash product_version_hash d) in
    let kernel := bool_decide (kKernelCrashDetectedFile ∈ var_run d) in
    let unclean := bool_decide (kUncleanShutdownDetectedFile ∈ var_run d) in
    let d0 := with_var_run (var_run d ∖ {[ kKernelCrashDetectedFile ]}) d in
    let d1 := if kernel then ProcessKernelCrash r1 d0 else d in
    let d1' :=
      with_var_run (var_run d1 ∖ {[ kUncleanShutdownDetectedFile ]}) d1 in
    let d2 := if unclean then ProcessUncleanShutdown r2 d1' else d1 in
    let d' := Run r1 r2 product_version_hash d in
    d' = CheckVersionChange product_version_hash d2 /\
    sent d d' =
      (if kernel then kernel_pass_samples r1 d0 else [])
      ++ (if unclean then unclean_pass_samples r2 d1' else []) /\
    (kernel = true ->
     Get kernel_crash_interval_ d1 = 0 /\
     Get any_crashes_daily_count_ d1 =
       to_int64 (after_flush daily_cycle_ (day_of (wall_now r1))
                   any_crashes_daily_count_ d0 + 1) /\
     Get any_crashes_weekly_count_ d1 =
       to_int64 (after_flush weekly_cycle_ (week_of (wall_now r1))
                   any_crashes_weekly_count_ d0 + 1) /\
     Get kernel_crashes_daily_count_ d1 =
       to_int64 (after_flush daily_cycle_ (day_of (wall_now r1))
                   kernel_crashes_daily_count_ d0 + 1) /\
     Get kernel_crashes_weekly_count_ d1 =
       to_int64 (after_flush weekly_cycle_ (week_of (wall_now r1))
                   kernel_crashes_weekly_count_ d0 + 1) /\
     Get kernel_crashes_version_count_ d1 =
       to_int64 (Get kernel_crashes_version_count_ d0 + 1)) /\
    (unclean = true ->
     Get unclean_shutdown_interval_ d' = 0 /\
     Get any_crashes_daily_count_ d' =
       to_int64 (after_flush daily_cycle_ (day_of (wall_now r2))
                   any_crashes_daily_count_ d1' + 1) /\
     Get any_crashes_weekly_count_ d' =
       to_int64 (after_flush weekly_cycle_ (week_of (wall_now r2))
                   any_crashes_weekly_count_ d1' + 1) /\
     Get unclean_shutdowns_daily_count_ d' =
       to_int64 (after_flush daily_cycle_ (day_of (wall_now r2))
                   unclean_shutdowns_daily_count_ d1' + 1) /\
     Get unclean_shutdowns_weekly_count_ d' =
       to_int64 (after_flush weekly_cycle_ (week_of (wall_now r2))
                   unclean_shutdowns_weekly_count_ d1' + 1)) /\
    Get version_cycle_ d' = version /\
    Get kernel_crashes_version_count_ d' =
      (if Get version_cycle_ d =? version then
         if kernel
         then to_int64 (Get kernel_crashes_version_count_ d + 1)
         else Get kernel_crashes_version_count_ d
       else 0) /\
    (Get version_cycle_ d <> version ->
       Get version_cumulative_active_use_ d' = 0 /\
       Get version_cumulative_cpu_use_ d' = 0) /\
    (kKernelCrashDetectedFile ∉ var_run d') /\
    (kUncleanShutdownDetectedFile ∉ var_run d') /\
    (kKernelCrashDetectedFile ∈ var_run d ->
     exists v,
       SendToUMA (Name kernel_crash_interval_) v 1 (4 * kSecondsPerWeek) 50
         ∈ metrics_lib_ d') /\
    (let started := Run boot_reading boot_reading 7 crashed_unclean_daemon in
     sent crashed_unclean_daemon started =
       [ SendToUMA "Platform.KernelCrashInterval" 0 1 2419200 50;
         SendToUMA "Platform.UncleanShutdownInterval" 0 1 2419200 50 ] /\
     Get any_crashes_daily_count_ started = 2 /\
     Get kernel_crashes_daily_count_ started = 1 /\
     Get unclean_shutdowns_daily_count_ started = 1 /\
     Get kernel_crashes_version_count_ started = 0 /\
     Get version_cycle_ started = 7).
Proof.
  intros r1 r2 h d. cbv zeta.
  assert (Hstarted :
    let started := Run boot_reading boot_reading 7 crashed_unclean_daemon in
    sent crashed_unclean_daemon started =
      [ SendToUMA "Platform.KernelCrashInterval" 0 1 2419200 50;
        SendToUMA "Platform.UncleanShutdownInterval" 0 1 2419200 50 ] /\
    Get any_crashes_daily_count_ started = 2 /\
    Get kernel_crashes_daily_count_ started = 1 /\
    Get unclean_shutdowns_daily_count_ started = 1 /\
    Get kernel_crashes_version_count_ started = 0 /\
    Get version_cycle_ started = 7).
  { vm_compute. repeat split. }
  cbv zeta in Hstarted.
  set (started := Run boot_reading boot_reading 7 crashed_unclean_daemon) in *.
  clearbody started.
  rewrite Run_boot_markers_then_version.
  pose proof (Run_boot_markers_passes r1 r2 d) as Hpasses.
  cbv zeta in Hpasses.
  set (kernel := bool_decide (kKernelCrashDetectedFile ∈ var_run d)) in *.
  set (unclean := bool_decide (kUncleanShutdownDetectedFile ∈ var_run d)) in *.
  set (d0 := with_var_run (var_run d ∖ {[ kKernelCrashDetectedFile ]}) d) in *.
  split; [by rewrite Hpasses |].
  split.
  { rewrite Hpasses. apply sent_app. rewrite metrics_lib_CheckVersionChange.
    assert (H1 : metrics_lib_ (if kernel then ProcessKernelCrash r1 d0 else d)
                 = metrics_lib_ d
                   ++ (if kernel then kernel_pass_samples r1 d0 else [])).
    { destruct kernel; [| by rewrite app_nil_r].
      by rewrite metrics_lib_kernel_pass. }
    set (d1 := if kernel then ProcessKernelCrash r1 d0 else d) in *.
    clearbody d1.
    destruct unclean; [| by rewrite app_nil_r].
    rewrite metrics_lib_unclean_pass. cbn [metrics_lib_ with_var_run].
    by rewrite H1, <- app_assoc. }
  split.
  { intros Hk. rewrite Hk. apply kernel_pass_counters. }
  split.
  { intros Hu. rewrite Hpasses, Hu.
    rewrite !Get_CheckVersionChange_other by reflexivity.
    apply unclean_pass_counters. }
  clear Hpasses.
  pose proof (Run_boot_markers_sends r1 r2 d) as Hsent.
  destruct (Run_boot_markers_facts r1 r2 d) as (Ht & Hv & Hk & Hr).
  fold kernel in Hk.
  set (d1 := Run_boot_markers r1 r2 d) in *. clearbody d1.
  assert (Hh : GetOsVersionHash h d1 = GetOsVersionHash h d)
    by (unfold GetOsVersionHash; by rewrite Ht).
  pose proof (CheckVersionChange_effect h d1) as Hc.
  cbv zeta in Hc. rewrite Hh, Hv in Hc.
  set (version := to_int32 (GetOsVersionHash h d)) in *.
  destruct Hc as (Hne & Heq & Hw).
  assert (Hrun : var_run (CheckVersionChange h d1) = var_run d1)
    by (rewrite Hw; reflexivity).
  assert (Hlib : metrics_lib_ (CheckVersionChange h d1) = metrics_lib_ d1)
    by (rewrite Hw; reflexivity).
  rewrite Hrun, Hr, Hlib.
  assert (Hk1 : kKernelCrashDetectedFile ∉
                 var_run d ∖ {[ kKernelCrashDetectedFile ]}
                           ∖ {[ kUncleanShutdownDetectedFile ]}).
  { rewrite !elem_of_difference, elem_of_singleton.
    intros [[_ Hx] _]. by apply Hx. }
  assert (Hk2 : kUncleanShutdownDetectedFile ∉
                 var_run d ∖ {[ kKernelCrashDetectedFile ]}
                           ∖ {[ kUncleanShutdownDetectedFile ]}).
  { rewrite !elem_of_difference, elem_of_singleton.
    intros [_ Hx]. by apply Hx. }
  destruct (Z.eqb_spec (Get version_cycle_ d) version) as [E | E].
  - rewrite (Heq (eq_sym E)). rewrite Hv, Hk.
    split; [exact E |]. split; [reflexivity |].
    split; [intros Hn; contradiction |]. repeat (split; [assumption |]).
    exact Hstarted.
  - destruct (Hne (not_eq_sym E)) as (H1 & H2 & H3 & H4).
    split; [exact H1 |]. split; [exact H2 |].
    split; [intros _; split; assumption |]. repeat (split; [assumption |]).
    exact Hstarted.
Qed.

(** ** Meminfo: when the scan succeeds *)

(** A line with a label and an integer value. *)
Definition numeric_line (line : string) : bool :=
  match Tokenize line ": " with
  | _ :: token1 :: _ =>
      match StringToInt token1 with Some _ => true | None => false end
  | _ => false
  end.

Definition numeric_dump (meminfo_raw : string) : Prop :=
  forallb numeric_line (dump_lines meminfo_raw) = true.

Lemma numeric_line_tokens line :
  numeric_line line = true ->
  exists token0 token1 v,
    Tokenize line ": " !! 0%nat = Some token0 /\
    Tokenize line ": " !! 1%nat = Some token1 /\
    StringToInt token1 = Some v.
Proof.
  unfold numeric_line.
  destruct (Tokenize line ": ") as [| token0 [| token1 tokens]];
    try discriminate.
  destruct (StringToInt token1) as [v |] eqn:E; [| discriminate].
  intros _. by exists token0, token1, v.
Qed.

Lemma sublist_tail {A} (x : A) l k : x :: l `sublist_of` k -> l `sublist_of` k.
Proof. intros H. etransitivity; [| exact H]. by apply sublist_cons. Qed.

(** On lines with integer values the scan finds every field whose label
    still occurs, in order, among the labels of the remaining lines. *)
Lemma FillMeminfo_loop_complete lines :
  forallb numeric_line lines = true ->
  forall ifield fields,
    drop ifield (map label_of fields) `sublist_of` omap line_label lines ->
    exists ifield' fields',
      FillMeminfo_loop lines ifield fields = Done (Some (ifield', fields')) /\
      length fields' = length fields /\
      (length fields <= ifield')%nat.
Proof.
  induction lines as [| line rest IH]; intros Hnum ifield fields Hsub.
  - exists ifield, fields. split; [reflexivity |]. split; [reflexivity |].
    apply sublist_nil_r in Hsub.
    apply (f_equal length) in Hsub.
    rewrite length_drop, length_map in Hsub. simpl in Hsub. lia.
  - cbn [forallb] in Hnum. apply andb_true_iff in Hnum as [Hline Hrest].
    cbn [FillMeminfo_loop].
    destruct (fields !! ifield) as [field |] eqn:Hf.
    2: { exists ifield, fields. split; [reflexivity |].
         split; [reflexivity |]. by apply lookup_ge_None. }
    destruct (numeric_line_tokens line Hline)
      as (token0 & token1 & v & Ht0 & Ht1 & Hv).
    rewrite Ht0.
    assert (Hlab : omap line_label (line :: rest)
                   = c_str token0 :: omap line_label rest).
    { change (omap line_label (line :: rest))
        with (match line_label line with
              | Some y => y :: omap line_label rest
              | None => omap line_label rest
              end).
      unfold line_label at 1. by rewrite Ht0. }
    rewrite Hlab in Hsub.
    assert (Hl : map label_of fields !! ifield = Some (label_of field)).
    { change (map label_of fields) with (label_of <$> fields).
      by rewrite list_lookup_fmap, Hf. }
    rewrite (drop_S _ _ _ Hl) in Hsub.
    apply sublist_cons_r in Hsub.
    destruct (strcmp (match_ field) token0 =? 0) eqn:E.
    + rewrite Ht1, Hv.
      destruct (IH Hrest (S ifield) (<[ifield := with_value v field]> fields))
        as (i' & fields' & Hloop & Hlen & Hle).
      { rewrite (map_insert_with_value label_of _ _ _ _ Hf) by reflexivity.
        destruct Hsub as [Hsub | (l' & [= _ <-] & Hsub)]; [| exact Hsub].
        by apply sublist_tail in Hsub. }
      rewrite length_insert in Hlen, Hle. by exists i', fields'.
    + apply IH; [exact Hrest |].
      rewrite (drop_S _ _ _ Hl).
      destruct Hsub as [Hsub | (l' & [= Hx _] & _)]; [exact Hsub |].
      assert (Hc : c_str (match_ field) = c_str token0) by exact Hx.
      apply strcmp_zero in Hc. congruence.
Qed.

(** X6.  For a dump in which every line has a label and an integer value,
    [FillMeminfo] returns true exactly when the labels of the fields occur,
    in the order of the fields, among the labels of the lines: lines with
    other labels, and repeated labels, do not make it fail. *)
Theorem FillMeminfo_succeeds_iff :
  forall meminfo_raw fields,
    numeric_dump meminfo_raw ->
    (exists fields', FillMeminfo meminfo_raw fields = Done (Some fields')) <->
    map label_of fields `sublist_of` dump_labels meminfo_raw.
Proof.
  intros raw fields Hnum. split.
  - intros [fields' H]. by apply (FillMeminfo_true raw fields fields').
  - intros Hsub.
    destruct (FillMeminfo_loop_complete (dump_lines raw) Hnum 0%nat fields)
      as (i' & fields' & Hloop & Hlen & Hle).
    { by rewrite drop_0. }
    exists fields'. unfold FillMeminfo; cbv zeta.
    unfold dump_lines in Hloop. rewrite Hloop. cbn [obind].
    rewrite Hlen. destruct (Nat.ltb_spec i' (length fields)); [lia | done].
Qed.

Lemma FillMeminfo_succeeds_iff_witness :
  (exists fields',
     FillMeminfo meminfo_example ProcessMeminfo_fields = Done (Some fields'))
  <-> map label_of ProcessMeminfo_fields
        `sublist_of` dump_labels meminfo_example.
Proof.
  apply (FillMeminfo_succeeds_iff meminfo_example ProcessMeminfo_fields).
  vm_compute. reflexivity.
Defined.

(** ** Meminfo: the ordered scan, on whole dumps *)







Lemma in_range_bounds lo hi v w : in_range lo hi v = Some w -> lo <= w <= hi.
Proof.
  unfold in_range. destruct (Z.leb_spec lo v); destruct (Z.leb_spec v hi);
    simpl; intros [= <-]; lia.
Qed.

Lemma StringToInt_range s v : StringToInt s = Some v -> INT_MIN <= v <= INT_MAX.
Proof.
  unfold StringToInt. intros H.
  repeat case_match; simplify_option_eq;
    match goal with
    | H : in_range _ _ _ = Some _ |- _ => by apply in_range_bounds in H
    end.
Qed.

(** The fields before the cursor are not touched by the scan, and each field
    that the cursor passes receives the integer of a line with its label. *)
Lemma FillMeminfo_loop_values lines : forall ifield fields ifield' fields',
  FillMeminfo_loop lines ifield fields = Done (Some (ifield', fields')) ->
  (forall k, (k < ifield)%nat -> fields' !! k = fields !! k) /\
  (forall k, (ifield <= k < ifield')%nat ->
     exists field line token0 token1 v,
       fields !! k = Some field /\
       fields' !! k = Some (with_value v field) /\
       line ∈ lines /\
       Tokenize line ": " !! 0%nat = Some token0 /\
       c_str token0 = label_of field /\
       Tokenize line ": " !! 1%nat = Some token1 /\
       StringToInt token1 = Some v).
Proof.
  induction lines as [| line rest IH]; intros ifield fields ifield' fields' H.
  - cbn [FillMeminfo_loop] in H. injection H as <- <-.
    split; [reflexivity | intros k Hk; lia].
  - cbn [FillMeminfo_loop] in H.
    destruct (fields !! ifield) as [field |] eqn:Hf.
    2: { injection H as <- <-. split; [reflexivity | intros k Hk; lia]. }
    destruct (Tokenize line ": " !! 0%nat) as [token0 |] eqn:Ht0;
      [| discriminate H].
    destruct (strcmp (match_ field) token0 =? 0) eqn:E.
    + destruct (Tokenize line ": " !! 1%nat) as [token1 |] eqn:Ht1;
        [| discriminate H].
      destruct (StringToInt token1) as [v |] eqn:Hv; [| discriminate H].
      apply IH in H. destruct H as [Hbefore Hpassed].
      assert (Hlt : (ifield < length fields)%nat)
        by (by apply lookup_lt_Some in Hf).
      split.
      * intros k Hk. rewrite Hbefore by lia.
        apply list_lookup_insert_ne. lia.
      * intros k Hk. destruct (decide (k = ifield)) as [-> | Hne].
        -- exists field, line, token0, token1, v.
           rewrite Hbefore by lia.
           rewrite list_lookup_insert_eq by exact Hlt.
           repeat split; try done; [apply list_elem_of_here |].
           symmetry. by apply strcmp_zero.
        -- destruct (Hpassed k ltac:(lia))
             as (fk & l & t0 & t1 & w & Hk1 & Hk2 & Hin & Hrest).
           rewrite list_lookup_insert_ne in Hk1 by lia.
           exists fk, l, t0, t1, w.
           repeat split; try tauto. by apply list_elem_of_further.
    + apply IH in H. destruct H as [Hbefore Hpassed].
      split; [exact Hbefore |].
      intros k Hk.
      destruct (Hpassed k Hk)
        as (fk & l & t0 & t1 & w & Hk1 & Hk2 & Hin & Hrest).
      exists fk, l, t0, t1, w.
      repeat split; try tauto. by apply list_elem_of_further.
Qed.

(** The fields of the dump of the example, as [FillMeminfo] fills them. *)
Definition meminfo_example_fields : list MeminfoRecord :=
  Eval vm_compute in
    match FillMeminfo meminfo_example ProcessMeminfo_fields with
    | Done (Some fields') => fields'
    | _ => []
    end.

(** X7.  When [FillMeminfo] returns true, the fields are the ones given,
    in the same number and order, each with a new value and nothing else
    changed; the value of each field is the integer, within the range of
    [int], read from the second token of a line of the dump whose first
    token is the label of the field. *)
Theorem FillMeminfo_values_from_dump :
  forall meminfo_raw fields fields',
    FillMeminfo meminfo_raw fields = Done (Some fields') ->
    length fields' = length fields /\
    forall k field,
      fields !! k = Some field ->
      exists line token0 token1 v,
        fields' !! k = Some (with_value v field) /\
        line ∈ dump_lines meminfo_raw /\
        Tokenize line ": " !! 0%nat = Some token0 /\
        c_str token0 = label_of field /\
        Tokenize line ": " !! 1%nat = Some token1 /\
        StringToInt token1 = Some v /\
        INT_MIN <= v <= INT_MAX.
Proof.
  intros raw fields fields' H.
  assert (Hlen : length fields' = length fields).
  { apply FillMeminfo_true in H. destruct H as (_ & Hn & _).
    by rewrite <- (length_map name fields'), Hn, length_map. }
  split; [exact Hlen |].
  unfold FillMeminfo in H; cbv zeta in H.
  destruct (FillMeminfo_loop _ 0 fields) as [[[i' fs] |] | w] eqn:Hl;
    cbn [obind] in H; try discriminate.
  destruct (Nat.ltb_spec i' (length fs)); [discriminate |].
  injection H as ->.
  apply FillMeminfo_loop_values in Hl. destruct Hl as [_ Hpassed].
  intros k field Hk.
  assert (Hlt : (k < length fields)%nat) by (by apply lookup_lt_Some in Hk).
  destruct (Hpassed k ltac:(lia))
    as (fk & l & t0 & t1 & v & Hk1 & Hk2 & Hin & Ht0 & Hc & Ht1 & Hv).
  rewrite Hk in Hk1. injection Hk1 as <-.
  exists l, t0, t1, v. repeat split; try done;
    apply StringToInt_range in Hv; lia.
Qed.

Lemma FillMeminfo_values_from_dump_witness :
  length meminfo_example_fields = length ProcessMeminfo_fields /\
  forall k field,
    ProcessMeminfo_fields !! k = Some field ->
    exists line token0 token1 v,
      meminfo_example_fields !! k = Some (with_value v field) /\
      line ∈ dump_lines meminfo_example /\
      Tokenize line ": " !! 0%nat = Some token0 /\
      c_str token0 = label_of field /\
      Tokenize line ": " !! 1%nat = Some token1 /\
      StringToInt token1 = Some v /\
      INT_MIN <= v <= INT_MAX.
Proof.
  apply (FillMeminfo_values_from_dump meminfo_example ProcessMeminfo_fields
           meminfo_example_fields).
  vm_compute. reflexivity.
Defined.

(** ** Meminfo: the outcomes *)

Lemma value_at_lookup i fields field :
  fields !! i = Some field -> value_at i fields = value field.
Proof. intros H. unfold value_at. by rewrite H. Qed.

(** A dump with a total of -1, in which the percentage of Buffers has the
    dividend INT_MIN. *)
Definition meminfo_minus_one : string :=
  unlines [ "MemTotal: -1 kB"; "MemFree: 1 kB"; "Buffers: 536870912 kB";
            "Cached: 213652 kB"; "Active: 133400 kB"; "Inactive: 183396 kB";
            "Active(anon): 92984 kB"; "Inactive(anon): 58860 kB";
            "Active(file): 40416 kB"; "Inactive(file): 124536 kB";
            "Unevictable: 0 kB"; "SwapTotal: 100000 kB"; "SwapFree: 40000 kB";
            "AnonPages: 92652 kB"; "Mapped: 59716 kB"; "Shmem: 59196 kB";
            "Slab: 16656 kB" ].

(** X8.  [ProcessMeminfo] returns false, leaving the daemon as it was,
    exactly when the scan returns false or the value of MemTotal is 0, which
    guards the division by the total; when it returns true it has changed
    nothing but the samples sent, which are 16 when the value of SwapTotal
    is positive and 14 otherwise.  It never divides by zero.  What is left
    undefined is the token access of the scan on a line without a label or
    a value, and, with a MemTotal of -1, a percentage whose dividend is
    INT_MIN: the quotient overflows, in the middle of the report, as it does
    for a total of -1 with 536870912 kB of buffers. *)
Theorem ProcessMeminfo_outcomes :
  (forall meminfo_raw d,
    match ProcessMeminfo meminfo_raw d with
    | Done (true, d') =>
        d' = with_metrics_lib (metrics_lib_ d') d /\
        exists fields',
          FillMeminfo meminfo_raw ProcessMeminfo_fields = Done (Some fields') /\
          value_at 0 fields' <> 0 /\
          metrics_lib_ d' = metrics_lib_ d ++ sent d d' /\
          length (sent d d') =
            if 0 <? value_at 11 fields' then 16%nat else 14%nat
    | Done (false, d') =>
        d' = d /\
        (FillMeminfo meminfo_raw ProcessMeminfo_fields = Done None \/
         exists fields',
           FillMeminfo meminfo_raw ProcessMeminfo_fields = Done (Some fields') /\
           value_at 0 fields' = 0)
    | Aborted w =>
        w = IndexOutOfRange /\
        FillMeminfo meminfo_raw ProcessMeminfo_fields = Aborted IndexOutOfRange
        \/
        w = DivisionOverflow /\
        exists fields',
          FillMeminfo meminfo_raw ProcessMeminfo_fields = Done (Some fields') /\
          value_at 0 fields' = -1 /\
          percent_overflows (-1) (drop 1 fields') = true
    end) /\
  ProcessMeminfo meminfo_minus_one (new_MetricsDaemon false ∅ ∅)
    = Aborted DivisionOverflow.
Proof.
  split; [| vm_compute; reflexivity].
  intros raw d.
  destruct (FillMeminfo_outcome raw ProcessMeminfo_fields) as [[r Hr] | Hab].
  2: { rewrite (ProcessMeminfo_aborted _ _ _ Hab). by left. }
  destruct r as [fields' |].
  2: { rewrite (ProcessMeminfo_false _ _ Hr). by split; [| left]. }
  rewrite (ProcessMeminfo_filled _ _ _ Hr).
  destruct (FillMeminfo_true _ _ _ Hr) as (_ & Hn & _ & Ho).
  destruct (fields' !! 0%nat) as [field0 |] eqn:H0.
  2: { destruct fields'; [discriminate Hn | discriminate H0]. }
  pose proof (value_at_lookup _ _ _ H0) as Hv0.
  destruct (Z.eqb_spec (value field0) 0) as [Hz | Hnz].
  { split; [reflexivity |]. right. exists fields'. by rewrite Hv0. }
  destruct (percent_overflows (value field0) (drop 1 fields')) eqn:Hov.
  { right. split; [reflexivity |]. exists fields'.
    pose proof (percent_overflows_total _ _ Hov) as Ht.
    rewrite Ht in Hov. by rewrite Hv0. }
  destruct (schema_samples (value field0) fields' Hn Ho) as [Hnames Hswap].
  rewrite Hswap.
  set (direct := flat_map (field_samples (value field0)) (drop 1 fields')) in *.
  set (swap := swap_samples (value_at 11 fields') (value_at 12 fields')).
  split; [reflexivity |].
  exists fields'. split; [exact Hr |]. split; [by rewrite Hv0 |].
  cbn [metrics_lib_ with_metrics_lib].
  assert (Hsent : sent d (with_metrics_lib (metrics_lib_ d ++ direct ++ swap) d)
                  = direct ++ swap) by (by apply sent_app).
  rewrite Hsent. split; [reflexivity |].
  rewrite length_app.
  assert (Hd : length direct = 14%nat).
  { by rewrite <- (length_map sample_name direct), Hnames. }
  rewrite Hd. unfold swap, swap_samples.
  by destruct (0 <? value_at 11 fields').
Qed.

(** ** Memory use at age: one sample *)



(** X9.  [ProcessMemuse] returns false, leaving the daemon as it was,
    exactly when the scan for MemTotal, Active(anon) and Inactive(anon)
    returns false or the value of MemTotal is 0; when it returns true it has
    sent one sample and changed nothing else: the sum of the two anonymous
    values as a percentage of the total, in the arithmetic of [int], as an
    enumeration up to 100 under the name Platform.MemuseAnon followed by the
    interval index (below 2^31, so that it is printed as it is), which it
    does not advance.  It never divides by zero; what is left undefined is
    the token access of the scan and, with a MemTotal of -1, a dividend of
    INT_MIN, whose quotient overflows. *)
Theorem ProcessMemuse_one_sample :
  forall meminfo_raw d,
    0 <= memuse_interval_index_ d < 2 ^ 31 ->
    match ProcessMemuse meminfo_raw d with
    | Done (true, d') =>
        exists fields',
          FillMeminfo meminfo_raw ProcessMemuse_fields = Done (Some fields') /\
          value_at 0 fields' <> 0 /\
          d' = with_metrics_lib
                 (metrics_lib_ d ++
                  [ SendEnumToUMA
                      ("Platform.MemuseAnon"
                       ++ decimal (memuse_interval_index_ d))%string
                      (to_int32
                         (Z.quot
                            (to_int32
                               (to_int32 (value_at 1 fields' + value_at 2 fields')
                                * 100))
                            (value_at 0 fields')))
                      100 ]) d
    | Done (false, d') =>
        d' = d /\
        (FillMeminfo meminfo_raw ProcessMemuse_fields = Done None \/
         exists fields',
           FillMeminfo meminfo_raw ProcessMemuse_fields = Done (Some fields') /\
           value_at 0 fields' = 0)
    | Aborted w =>
        w = IndexOutOfRange /\
        FillMeminfo meminfo_raw ProcessMemuse_fields = Aborted IndexOutOfRange
        \/
        w = DivisionOverflow /\
        exists fields',
          FillMeminfo meminfo_raw ProcessMemuse_fields = Done (Some fields') /\
          value_at 0 fields' = -1 /\
          to_int32 (to_int32 (value_at 1 fields' + value_at 2 fields') * 100)
            = INT_MIN
    end.
Proof.
  intros raw d _.
  unfold ProcessMemuse, bind at 1, pure_outcome at 1.
  destruct (FillMeminfo_outcome raw ProcessMemuse_fields) as [[r Hr] | Hab].
  2: { rewrite Hab. by left. }
  rewrite Hr. cbn [obind].
  destruct r as [fields' |].
  2: { by split; [| left]. }
  destruct (FillMeminfo_true _ _ _ Hr) as (_ & Hn & _ & _).
  destruct fields' as [| f0 [| f1 [| f2 [| f3 fields']]]]; try discriminate Hn.
  unfold bind, pure_outcome, field_value. cbn [lookup list_lookup obind].
  destruct (Z.eqb_spec (value f0) 0) as [Hz | Hnz].
  { split; [reflexivity |]. right. by eexists. }
  rewrite (int_div_cases _ _ Hnz).
  destruct (division_overflows _ (value f0)) eqn:Hov; cbn [obind].
  { right. split; [reflexivity |]. eexists. split; [reflexivity |].
    unfold division_overflows in Hov. apply andb_true_iff in Hov.
    destruct Hov as [Ha Hb]. apply Z.eqb_eq in Ha, Hb. by split. }
  rewrite SendLinearSample_percent. cbn [obind]. unfold ret.
  eexists. split; [reflexivity |]. split; [exact Hnz | reflexivity].
Qed.

Lemma ProcessMemuse_one_sample_witness :
  match ProcessMemuse meminfo_example (new_MetricsDaemon false ∅ ∅) with
  | Done (true, d') =>
      exists fields',
        FillMeminfo meminfo_example ProcessMemuse_fields = Done (Some fields') /\
        value_at 0 fields' <> 0 /\
        d' = with_metrics_lib
               (metrics_lib_ (new_MetricsDaemon false ∅ ∅) ++
                [ SendEnumToUMA
                    ("Platform.MemuseAnon"
                     ++ decimal (memuse_interval_index_
                                   (new_MetricsDaemon false ∅ ∅)))%string
                    (to_int32
                       (Z.quot
                          (to_int32
                             (to_int32 (value_at 1 fields' + value_at 2 fields')
                              * 100))
                          (value_at 0 fields')))
                    100 ]) (new_MetricsDaemon false ∅ ∅)
  | Done (false, d') =>
      d' = new_MetricsDaemon false ∅ ∅ /\
      (FillMeminfo meminfo_example ProcessMemuse_fields = Done None \/
       exists fields',
         FillMeminfo meminfo_example ProcessMemuse_fields = Done (Some fields') /\
         value_at 0 fields' = 0)
  | Aborted w =>
      w = IndexOutOfRange /\
      FillMeminfo meminfo_example ProcessMemuse_fields = Aborted IndexOutOfRange
      \/
      w = DivisionOverflow /\
      exists fields',
        FillMeminfo meminfo_example ProcessMemuse_fields = Done (Some fields') /\
        value_at 0 fields' = -1 /\
        to_int32 (to_int32 (value_at 1 fields' + value_at 2 fields') * 100)
          = INT_MIN
  end.
Proof.
  apply (ProcessMemuse_one_sample meminfo_example (new_MetricsDaemon false ∅ ∅)).
  simpl. lia.
Defined.

(** ** Memory use at age: the task *)






(** X11.  A run of [MemuseCallback] that reads an active time before
    [memuse_final_time_], because the device has slept, sends nothing and
    changes nothing, whatever the meminfo file holds; unless testing, it
    posts the task again, with a delay of at least one second. *)
Theorem MemuseCallback_waits_for_active_time :
  forall now meminfo d,
    (now < memuse_final_time_ d)%Q ->
    exists remaining_time,
      MemuseCallback now meminfo d =
        Done (if testing_ d then None else Some remaining_time, d) /\
      1 <= remaining_time.
Proof.
  intros now meminfo d Hnow.
  exists (Qceiling (memuse_final_time_ d - now)).
  pose proof (Qle_ceiling (memuse_final_time_ d - now)) as Hle.
  assert (Hpos : 0 < Qceiling (memuse_final_time_ d - now)).
  { rewrite Zlt_Qlt. change (inject_Z 0) with 0%Q. lra. }
  split; [| lia].
  unfold MemuseCallback, bind. cbn [obind]. cbv zeta.
  destruct (Z.ltb_spec 0 (Qceiling (memuse_final_time_ d - now)));
    [reflexivity | lia].
Qed.

Lemma MemuseCallback_waits_for_active_time_witness :
  exists remaining_time,
    MemuseCallback (61 # 2) (Some meminfo_example)
      (with_memuse_final_time 60 (new_MetricsDaemon false ∅ ∅)) =
      Done (if testing_ (with_memuse_final_time 60
                           (new_MetricsDaemon false ∅ ∅))
            then None else Some remaining_time,
            with_memuse_final_time 60 (new_MetricsDaemon false ∅ ∅)) /\
    1 <= remaining_time.
Proof.
  apply (MemuseCallback_waits_for_active_time (61 # 2) (Some meminfo_example)
           (with_memuse_final_time 60 (new_MetricsDaemon false ∅ ∅))).
  vm_compute. reflexivity.
Defined.

(** ** Zram: the files and the arithmetic *)

Lemma StringToUint64_range s v : StringToUint64 s = Some v -> 0 <= v <= UINT64_MAX.
Proof.
  unfold StringToUint64. intros H.
  repeat case_match; simplify_option_eq;
    match goal with
    | H : in_range _ _ _ = Some _ |- _ => by apply in_range_bounds in H
    end.
Qed.

Lemma ReadFileToUint64_range file v :
  ReadFileToUint64 file = Some v -> 0 <= v < 2 ^ 64.
Proof.
  unfold ReadFileToUint64. destruct file as [content |]; [| discriminate].
  cbn. intros H. apply StringToUint64_range in H. unfold UINT64_MAX in H. lia.
Qed.

(** A 64-bit unsigned difference shifted right and then converted to [int]
    is the floor of the signed difference, as long as that fits. *)
Lemma shifted_difference x :
  - 2 ^ 51 <= x < 2 ^ 51 ->
  to_int32 (Z.shiftr (to_uint64 x) 20) = x / 2 ^ 20.
Proof.
  intros Hx. rewrite Z.shiftr_div_pow2 by lia. unfold to_uint64.
  assert (Hq : - 2 ^ 31 <= x / 2 ^ 20 < 2 ^ 31).
  { split; [apply Z.div_le_lower_bound; lia | apply Z.div_lt_upper_bound; lia]. }
  destruct (Z.le_gt_cases 0 x) as [Hpos | Hneg].
  - rewrite Z.mod_small by lia. by apply to_int32_small.
  - replace (x mod 2 ^ 64) with (x + 2 ^ 64).
    2: { symmetry. rewrite <- (Z.mod_add x 1 (2 ^ 64)) by lia.
         apply Z.mod_small. lia. }
    replace (x + 2 ^ 64) with (x + 2 ^ 44 * 2 ^ 20) by lia.
    rewrite Z.div_add by lia.
    unfold to_int32.
    replace (x / 2 ^ 20 + 2 ^ 44 + 2 ^ 31)
      with (x / 2 ^ 20 + 2 ^ 31 + 2 ^ 12 * 2 ^ 32) by lia.
    rewrite Z.mod_add by lia. rewrite Z.mod_small; lia.
Qed.

(** X12.  [ReportZram] returns false exactly when one of the three files
    cannot be read or does not hold an unsigned 64-bit number, and it has
    then sent nothing and left the daemon as it was; the numbers it reads
    are below 2^64. *)
Theorem ReportZram_false_iff :
  forall fc fo fz d d',
    (ReportZram fc fo fz d = Done (false, d') <->
     d' = d /\
     (ReadFileToUint64 fc = None \/ ReadFileToUint64 fo = None \/
      ReadFileToUint64 fz = None)) /\
    (forall compr orig zero_pages,
       ReadFileToUint64 fc = Some compr ->
       ReadFileToUint64 fo = Some orig ->
       ReadFileToUint64 fz = Some zero_pages ->
       0 <= compr < 2 ^ 64 /\ 0 <= orig < 2 ^ 64 /\ 0 <= zero_pages < 2 ^ 64).
Proof.
  intros fc fo fz d d'. split.
  2: { intros compr orig zero_pages Hc Ho Hz.
       apply ReadFileToUint64_range in Hc, Ho, Hz. done. }
  destruct (ReadFileToUint64 fc) as [compr |] eqn:Hc.
  2: { unfold ReportZram; cbv zeta. rewrite Hc. unfold ret. split.
       - intros [= <-]. split; [reflexivity | by left].
       - by intros [-> _]. }
  destruct (ReadFileToUint64 fo) as [orig |] eqn:Ho.
  2: { unfold ReportZram; cbv zeta. rewrite Hc, Ho. unfold ret. split.
       - intros [= <-]. split; [reflexivity | by right; left].
       - by intros [-> _]. }
  destruct (ReadFileToUint64 fz) as [zero_pages |] eqn:Hz.
  2: { unfold ReportZram; cbv zeta. rewrite Hc, Ho, Hz. unfold ret. split.
       - intros [= <-]. split; [reflexivity | by right; right].
       - by intros [-> _]. }
  rewrite (ReportZram_read _ _ _ _ _ _ _ Hc Ho Hz).
  destruct (corrected_orig_data_size orig zero_pages =? 0); split;
    try discriminate; by intros [_ [? | [? | ?]]].
Qed.

(** X13.  For sizes below 2^50 bytes and fewer than 2^31 zero pages, with a
    corrected original size (original + zero_pages * 4096) that is not 0,
    nothing wraps around in [ReportZram]: the samples are compressed / 2^20,
    the floor of (corrected - compressed) / 2^20, the compression ratio
    corrected * 100 / compressed (as an [int]) exactly when the compressed
    size is at least 2^20 bytes, the number of zero pages, and
    zero_pages * 4096 * 100 / corrected, which lies between 0 and 100.  The
    savings sample is negative exactly when the compressed size exceeds the
    corrected original size. *)
Theorem ReportZram_plain_arithmetic :
  forall fc fo fz compr orig zero_pages d,
    ReadFileToUint64 fc = Some compr ->
    ReadFileToUint64 fo = Some orig ->
    ReadFileToUint64 fz = Some zero_pages ->
    compr < 2 ^ 50 -> orig < 2 ^ 50 -> zero_pages < 2 ^ 31 ->
    0 < orig + zero_pages * 4096 ->
    let corrected := orig + zero_pages * 4096 in
    sends (ReportZram fc fo fz) d =
      Done (true,
            [ SendToUMA "Platform.ZramCompressedSize"
                (compr / 2 ^ 20) 100 4000 50;
              SendToUMA "Platform.ZramSavings"
                ((corrected - compr) / 2 ^ 20) 100 4000 50 ]
            ++ (if 2 ^ 20 <=? compr then
                  [ SendToUMA "Platform.ZramCompressionRatioPercent"
                      (to_int32 (corrected * 100 / compr)) 100 600 50 ]
                else [])
            ++ [ SendToUMA "Platform.ZramZeroPages" zero_pages 256 262144 50;
                 SendToUMA "Platform.ZramZeroRatioPercent"
                   (zero_pages * 4096 * 100 / corrected) 1 50 50 ]) /\
    0 <= zero_pages * 4096 * 100 / corrected <= 100 /\
    ((corrected - compr) / 2 ^ 20 < 0 <-> corrected < compr).
Proof.
  intros fc fo fz compr orig zero_pages d Hc Ho Hz Hcb Hob Hzb Hpos corrected.
  pose proof (ReadFileToUint64_range _ _ Hc) as Hc0.
  pose proof (ReadFileToUint64_range _ _ Ho) as Ho0.
  pose proof (ReadFileToUint64_range _ _ Hz) as Hz0.
  assert (Hcorr : corrected_orig_data_size orig zero_pages = corrected).
  { unfold corrected_orig_data_size, corrected.
    rewrite (to_uint64_small (zero_pages * 4096)) by lia.
    apply to_uint64_small. lia. }
  assert (Hratio : 0 <= zero_pages * 4096 * 100 / corrected <= 100).
  { split; [apply Z.div_pos; lia |].
    apply Z.div_le_upper_bound; unfold corrected; lia. }
  split; [| split; [exact Hratio |]].
  2: { split.
       - intros H. apply Z.lt_nge. intros Hle.
         pose proof (Z.div_pos (corrected - compr) (2 ^ 20)). lia.
       - intros H. apply Z.div_lt_upper_bound; lia. }
  unfold sends. rewrite (ReportZram_read _ _ _ _ _ _ _ Hc Ho Hz), Hcorr.
  destruct (Z.eqb_spec corrected 0) as [E | _]; [unfold corrected in E; lia |].
  cbn [obind]. f_equal. f_equal.
  rewrite (sent_app _ _ (zram_samples compr corrected zero_pages))
    by reflexivity.
  unfold zram_samples.
  assert (Hmb : to_int32 (Z.shiftr compr 20) = compr / 2 ^ 20).
  { rewrite Z.shiftr_div_pow2 by lia. apply to_int32_small.
    split; [pose proof (Z.div_pos compr (2 ^ 20)); lia |].
    apply Z.div_lt_upper_bound; lia. }
  rewrite Hmb.
  rewrite shifted_difference by (unfold corrected; lia).
  rewrite (to_uint64_small (corrected * 100)) by (unfold corrected; lia).
  rewrite (to_uint64_small (zero_pages * 4096)) by lia.
  rewrite (to_uint64_small (zero_pages * 4096 * 100)) by lia.
  rewrite (to_int32_small zero_pages) by lia.
  rewrite (to_int32_small (zero_pages * 4096 * 100 / corrected)) by lia.
  assert (Hguard : (1 <=? compr / 2 ^ 20) = (2 ^ 20 <=? compr)).
  { destruct (Z.leb_spec (2 ^ 20) compr) as [Hge | Hlt].
    - apply Z.leb_le. apply Z.div_le_lower_bound; lia.
    - apply Z.leb_gt. apply Z.div_lt_upper_bound; lia. }
  rewrite Hguard. reflexivity.
Qed.

Lemma ReportZram_plain_arithmetic_witness :
  sends (ReportZram (sysfs_file 1048576) (sysfs_file 4194304) (sysfs_file 256))
    (new_MetricsDaemon false ∅ ∅) =
    Done (true,
          [ SendToUMA "Platform.ZramCompressedSize"
              (1048576 / 2 ^ 20) 100 4000 50;
            SendToUMA "Platform.ZramSavings"
              ((4194304 + 256 * 4096 - 1048576) / 2 ^ 20) 100 4000 50 ]
          ++ (if 2 ^ 20 <=? 1048576 then
                [ SendToUMA "Platform.ZramCompressionRatioPercent"
                    (to_int32 ((4194304 + 256 * 4096) * 100 / 1048576))
                    100 600 50 ]
              else [])
          ++ [ SendToUMA "Platform.ZramZeroPages" 256 256 262144 50;
               SendToUMA "Platform.ZramZeroRatioPercent"
                 (256 * 4096 * 100 / (4194304 + 256 * 4096)) 1 50 50 ]) /\
  0 <= 256 * 4096 * 100 / (4194304 + 256 * 4096) <= 100 /\
  ((4194304 + 256 * 4096 - 1048576) / 2 ^ 20 < 0 <->
   4194304 + 256 * 4096 < 1048576).
Proof.
  apply (ReportZram_plain_arithmetic
           (sysfs_file 1048576) (sysfs_file 4194304) (sysfs_file 256)
           1048576 4194304 256 (new_MetricsDaemon false ∅ ∅));
    try reflexivity; lia.
Defined.

(** ** Thermal CPU throttling: giving up, and the percentage *)

(** A series of calls of [SendCpuThrottleMetrics], each with the contents of
    the two sysfs files at the time of the call. *)
Fixpoint SendCpuThrottleMetrics_calls (files : list (File * File)) : M unit :=
  match files with
  | [] => ret tt
  | (cpuinfo_max_freq, scaling_max_freq) :: rest =>
      (SendCpuThrottleMetrics cpuinfo_max_freq scaling_max_freq;;;
       SendCpuThrottleMetrics_calls rest)%daemon
  end.

Lemma SendCpuThrottleMetrics_calls_given_up files : forall d,
  max_freq d = -1 -> SendCpuThrottleMetrics_calls files d = Done (tt, d).
Proof.
  induction files as [| [c s] rest IH]; intros d H; [reflexivity |].
  cbn [SendCpuThrottleMetrics_calls]. unfold bind.
  unfold SendCpuThrottleMetrics. rewrite H. cbn [Z.eqb Pos.eqb obind].
  by apply IH.
Qed.

Lemma SendLinearSample_101 n v d :
  SendLinearSample n v 101 102 d =
  Done (tt, with_metrics_lib (metrics_lib_ d ++ [SendEnumToUMA n v 101]) d).
Proof. reflexivity. Qed.

(** X14.  When, at the initialization of the maximum frequency (the first
    call, or any call when testing), cpuinfo_max_freq cannot be read, does
    not hold an [int], or holds 0, [SendCpuThrottleMetrics] gives up for
    good: that call and all the calls after it, whatever the files then
    hold, send nothing, and leave the daemon as it was but for the maximum
    frequency, which is -1. *)
Theorem SendCpuThrottleMetrics_gives_up_for_good :
  forall cpuinfo_max_freq scaling_max_freq files d,
    max_freq d <> -1 ->
    max_freq d = 0 \/ testing_ d = true ->
    ReadFreqToInt cpuinfo_max_freq = None \/
    ReadFreqToInt cpuinfo_max_freq = Some 0 ->
    SendCpuThrottleMetrics_calls
      ((cpuinfo_max_freq, scaling_max_freq) :: files) d =
      Done (tt, with_max_freq (-1) d) /\
    metrics_lib_ (with_max_freq (-1) d) = metrics_lib_ d.
Proof.
  intros cpuinfo scaling files d Hne Hinit Hread.
  split; [| reflexivity].
  cbn [SendCpuThrottleMetrics_calls]. unfold bind.
  assert (Hcall : SendCpuThrottleMetrics cpuinfo scaling d =
                  Done (tt, with_max_freq (-1) d)).
  { unfold SendCpuThrottleMetrics.
    destruct (Z.eqb_spec (max_freq d) (-1)) as [E | _]; [contradiction |].
    assert (Hi : (max_freq d =? 0) || testing_ d = true).
    { destruct Hinit as [-> | ->]; [reflexivity | apply orb_true_r]. }
    rewrite Hi. by destruct Hread as [-> | ->]. }
  rewrite Hcall. cbn [obind].
  by apply SendCpuThrottleMetrics_calls_given_up.
Qed.

Lemma SendCpuThrottleMetrics_gives_up_for_good_witness :
  SendCpuThrottleMetrics_calls
    [ (None, sysfs_file 1500000); (sysfs_file 2000000, sysfs_file 1500000) ]
    (new_MetricsDaemon false ∅ ∅) =
    Done (tt, with_max_freq (-1) (new_MetricsDaemon false ∅ ∅)) /\
  metrics_lib_ (with_max_freq (-1) (new_MetricsDaemon false ∅ ∅)) =
    metrics_lib_ (new_MetricsDaemon false ∅ ∅).
Proof.
  apply (SendCpuThrottleMetrics_gives_up_for_good None (sysfs_file 1500000)
           [ (sysfs_file 2000000, sysfs_file 1500000) ]
           (new_MetricsDaemon false ∅ ∅)).
  - discriminate.
  - left. reflexivity.
  - left. reflexivity.
Defined.

(** X15.  With the maximum frequency initialized ([max_freq] neither 0 nor
    -1, not testing) and scaling_max_freq read, [SendCpuThrottleMetrics]
    sends one sample, an enumeration up to 101: 101 when the scaled
    frequency is above the maximum, and otherwise scaled / (max / 100),
    which lies between 0 and 100 for a maximum of at least 10000 kHz and a
    scaled frequency that is not negative.  Nothing guards the division: for
    a maximum between -99 and 99 the divisor max / 100 is 0, and a scaled
    frequency that is not above the maximum is divided by zero. *)
Theorem SendCpuThrottleMetrics_percent :
  forall cpuinfo_max_freq scaling_max_freq scaled_freq d,
    testing_ d = false ->
    max_freq d <> 0 -> max_freq d <> -1 ->
    ReadFreqToInt scaling_max_freq = Some scaled_freq ->
    let sample percent :=
      Done (tt, with_metrics_lib
                  (metrics_lib_ d ++
                   [SendEnumToUMA kMetricScaledCpuFrequencyName percent 101])
                  d) in
    (max_freq d < scaled_freq ->
     SendCpuThrottleMetrics cpuinfo_max_freq scaling_max_freq d = sample 101) /\
    (scaled_freq <= max_freq d -> -100 < max_freq d < 100 ->
     SendCpuThrottleMetrics cpuinfo_max_freq scaling_max_freq d =
       Aborted DivisionByZero) /\
    (scaled_freq <= max_freq d -> 100 <= max_freq d < 2 ^ 31 ->
     0 <= scaled_freq ->
     SendCpuThrottleMetrics cpuinfo_max_freq scaling_max_freq d =
       sample (scaled_freq / (max_freq d / 100)) /\
     0 <= scaled_freq / (max_freq d / 100) /\
     (10000 <= max_freq d -> scaled_freq / (max_freq d / 100) <= 100)).
Proof.
  intros cpuinfo scaling s d Ht H0 H1 Hs sample.
  assert (Hrun : SendCpuThrottleMetrics cpuinfo scaling d =
                 (percent <-
                    (if max_freq d <? s then ret 101
                     else pure_outcome
                            (obind (int_div (max_freq d) 100) (int_div s)));;
                  SendLinearSample kMetricScaledCpuFrequencyName percent
                    101 102)%daemon d).
  { unfold SendCpuThrottleMetrics.
    destruct (Z.eqb_spec (max_freq d) (-1)) as [E | _]; [contradiction |].
    destruct (Z.eqb_spec (max_freq d) 0) as [E | _]; [contradiction |].
    rewrite Ht. cbn [orb]. by rewrite Hs. }
  rewrite Hrun. unfold bind.
  split; [| split].
  - intros Hlt. destruct (Z.ltb_spec (max_freq d) s); [| lia].
    unfold ret. cbn [obind]. apply SendLinearSample_101.
  - intros Hle Hsmall. destruct (Z.ltb_spec (max_freq d) s); [lia |].
    unfold pure_outcome.
    rewrite (int_div_nonzero (max_freq d) 100) by lia. cbn [obind].
    assert (Hq : Z.quot (max_freq d) 100 = 0)
      by (apply Z.quot_small_iff; lia).
    rewrite Hq. reflexivity.
  - intros Hle Hm Hs0. destruct (Z.ltb_spec (max_freq d) s); [lia |].
    assert (Hq : Z.quot (max_freq d) 100 = max_freq d / 100)
      by (apply Z.quot_div_nonneg; lia).
    assert (Hq1 : 1 <= max_freq d / 100)
      by (apply Z.div_le_lower_bound; lia).
    assert (Hq2 : max_freq d / 100 < 2 ^ 31)
      by (apply Z.div_lt_upper_bound; lia).
    assert (Hp0 : 0 <= s / (max_freq d / 100)) by (apply Z.div_pos; lia).
    assert (Hp1 : s / (max_freq d / 100) <= s)
      by (apply Z.div_le_upper_bound; nia).
    unfold pure_outcome.
    rewrite (int_div_nonzero (max_freq d) 100) by lia. cbn [obind].
    rewrite Hq, (to_int32_small (max_freq d / 100)) by lia.
    rewrite int_div_nonzero by lia. cbn [obind].
    rewrite Z.quot_div_nonneg by lia.
    rewrite to_int32_small by lia.
    split; [apply SendLinearSample_101 |].
    split; [exact Hp0 |].
    intros Hbig.
    cut (s / (max_freq d / 100) < 101); [lia |].
    apply Z.div_lt_upper_bound; [lia |].
    pose proof (Z.mul_div_le (max_freq d) 100 ltac:(lia)).
    pose proof (Z.mod_pos_bound (max_freq d) 100 ltac:(lia)).
    pose proof (Z.div_mod (max_freq d) 100 ltac:(lia)).
    assert (100 <= max_freq d / 100) by (apply Z.div_le_lower_bound; lia).
    lia.
Qed.

Lemma SendCpuThrottleMetrics_percent_witness :
  SendCpuThrottleMetrics None (sysfs_file 1500000)
    (with_max_freq 2000000 (new_MetricsDaemon false ∅ ∅)) =
    Done (tt, with_metrics_lib
                [SendEnumToUMA kMetricScaledCpuFrequencyName 75 101]
                (with_max_freq 2000000 (new_MetricsDaemon false ∅ ∅))).
Proof.
  apply (SendCpuThrottleMetrics_percent None (sysfs_file 1500000) 1500000
           (with_max_freq 2000000 (new_MetricsDaemon false ∅ ∅))
           eq_refl ltac:(discriminate) ltac:(discriminate) eq_refl);
    simpl; lia.
Defined.

(** ** Meminfo: the task *)

Lemma ProcessMeminfo_effect meminfo_raw d :
  (exists d', ProcessMeminfo meminfo_raw d = Done (true, d')) \/
  ProcessMeminfo meminfo_raw d = Done (false, d) \/
  ProcessMeminfo meminfo_raw d = Aborted IndexOutOfRange \/
  ProcessMeminfo meminfo_raw d = Aborted DivisionOverflow.
Proof.
  destruct (FillMeminfo_outcome meminfo_raw ProcessMeminfo_fields)
    as [[r Hr] | Hab].
  2: { right; right; left. by apply ProcessMeminfo_aborted. }
  destruct r as [fields' |].
  2: { right; left. by apply ProcessMeminfo_false. }
  rewrite (ProcessMeminfo_filled _ _ _ Hr).
  destruct (fields' !! 0%nat) as [field0 |]; [| by right; right; left].
  destruct (value field0 =? 0); [by right; left |].
  destruct (percent_overflows (value field0) (drop 1 fields'));
    [by right; right; right |].
  destruct (swap_values (drop 1 fields') 0 0) as [st sf].
  left. eauto.
Qed.

(** X16.  [MeminfoCallback] posts itself again, with the delay it was given
    (also when testing, which [ScheduleMeminfoCallback] does not), exactly
    when the meminfo file was read and [ProcessMeminfo] returned true.
    Otherwise it is not posted again, and has sent nothing and changed
    nothing: the meminfo reports end with the first file that cannot be
    read, scan that fails or total of 0.  It stops in the middle only where
    [ProcessMeminfo] is undefined: on the token access of the scan or on
    the overflow of a percentage. *)
Theorem MeminfoCallback_posts_again :
  forall meminfo wait d,
    match MeminfoCallback meminfo wait d with
    | Done (Some delay, d') =>
        delay = wait /\
        exists meminfo_raw,
          meminfo = Some meminfo_raw /\
          ProcessMeminfo meminfo_raw d = Done (true, d')
    | Done (None, d') =>
        d' = d /\
        (meminfo = None \/
         exists meminfo_raw,
           meminfo = Some meminfo_raw /\
           ProcessMeminfo meminfo_raw d = Done (false, d))
    | Aborted w =>
        (w = IndexOutOfRange \/ w = DivisionOverflow) /\
        exists meminfo_raw,
          meminfo = Some meminfo_raw /\
          ProcessMeminfo meminfo_raw d = Aborted w
    end.
Proof.
  intros meminfo wait d. unfold MeminfoCallback.
  destruct meminfo as [meminfo_raw |]; [| by split; [| left]].
  unfold bind.
  destruct (ProcessMeminfo_effect meminfo_raw d) as [[d' H] | [H | [H | H]]];
    rewrite H; cbn [obind]; unfold ret.
  - split; [reflexivity |]. by exists meminfo_raw.
  - split; [reflexivity |]. right. by exists meminfo_raw.
  - split; [by left |]. by exists meminfo_raw.
  - split; [by right |]. by exists meminfo_raw.
Qed.

(** ** The crash signal *)

(** X17.  A D-Bus message changes the daemon only when [MessageFilter]
    returns HANDLED, which it does exactly for the UserCrash signal of the
    crash reporter: the daemon is then as [ProcessUserCrash] leaves it, with
    one more user crash in the daily and weekly counts and no more kernel
    crashes or unclean shutdowns.  A message that is not a signal and a
    signal of another interface are left to other handlers; any other signal
    of the crash reporter fails the check of the member and aborts the
    daemon. *)
Theorem MessageFilter_accounts_user_crash :
  forall message_type interface member r d,
    let daily := after_flush daily_cycle_ (day_of (wall_now r)) in
    let weekly := after_flush weekly_cycle_ (week_of (wall_now r)) in
    match MessageFilter message_type interface member r d with
    | Done (DBUS_HANDLER_RESULT_HANDLED, d') =>
        message_type = DBUS_MESSAGE_TYPE_SIGNAL /\
        interface = kCrashReporterInterface /\
        member = kCrashReporterUserCrashSignal /\
        d' = ProcessUserCrash r d /\
        Get user_crashes_daily_count_ d'
          = to_int64 (daily user_crashes_daily_count_ d + 1) /\
        Get user_crashes_weekly_count_ d'
          = to_int64 (weekly user_crashes_weekly_count_ d + 1) /\
        Get kernel_crashes_daily_count_ d'
          = daily kernel_crashes_daily_count_ d /\
        Get unclean_shutdowns_daily_count_ d'
          = daily unclean_shutdowns_daily_count_ d
    | Done (DBUS_HANDLER_RESULT_NOT_YET_HANDLED, d') =>
        d' = d /\
        (message_type <> DBUS_MESSAGE_TYPE_SIGNAL \/
         interface <> kCrashReporterInterface)
    | Aborted w =>
        w = LogFatal /\
        message_type = DBUS_MESSAGE_TYPE_SIGNAL /\
        interface = kCrashReporterInterface /\
        member <> kCrashReporterUserCrashSignal
    end.
Proof.
  intros message_type interface member r d. cbv zeta. unfold MessageFilter.
  destruct (Z.eqb_spec message_type DBUS_MESSAGE_TYPE_SIGNAL) as [Ht | Ht];
    cbn [negb]; [| by split; [| left]].
  destruct (String.eqb_spec interface kCrashReporterInterface) as [Hi | Hi];
    [| by split; [| right]].
  destruct (String.eqb_spec member kCrashReporterUserCrashSignal) as [Hm | Hm];
    cbn [negb]; [| done].
  unfold bind, lift, ret. cbn [obind].
  do 4 (split; [done |]).
  rewrite !Get_ProcessUserCrash. read_counter.
  repeat split; get_after_update.
Qed.
